(** * Nexa AI service gateway: a shallow embedding of
      [nexa/gguf/server/nexa_service.py]

    The service is a thin layer over external inference engines.  The
    embedding keeps the layer and abstracts the engines: a loaded model is a
    record of the entry points the service calls, an incremental producer is
    a finite Python generator ([gen]), and every effect the handlers have
    (engine calls, logging, the temporary files of the audio endpoints, the
    module globals) is threaded through one small state-and-exception monad
    over a [World]. *)

From Stdlib Require Import ZArith QArith String Ascii List Lia.
From stdpp Require Import base option list strings gmap fin_maps pretty.

Local Open Scope Z_scope.
Local Open Scope string_scope.
Local Open Scope list_scope.

(** ** Python values the service handles *)

(** A Python [float].  The service never computes with the sampling
    parameters, it forwards them; a rational carries every value a JSON
    number can denote. *)
Definition float := Q.

(** The exception classes that occur in the service.  All are subclasses of
    [Exception], hence all are caught by [except Exception]. *)
Inductive ExcClass :=
| ValueError
| AttributeError
| TypeError
| UnboundLocalError
| ValidationError
| KeyError
| OSError
| RuntimeError.

(** An exception instance: [Exc cls msg] with [str(e) = msg], or FastAPI's
    [HTTPException(status_code, detail)]. *)
Inductive Exception :=
| Exc (cls : ExcClass) (msg : string)
| HTTPException (status_code : Z) (detail : string).

Definition str_exc (e : Exception) : string :=
  match e with
  | Exc _ msg => msg
  | HTTPException _ detail => detail
  end.

(** A finite Python generator, as seen by the loop that consumes it: it is
    exhausted, it yields a value and continues, or it raises. *)
Inductive gen (A : Type) :=
| GStop
| GYield (a : A) (rest : gen A)
| GRaise (e : Exception).
Arguments GStop {A}.
Arguments GYield {A} a rest.
Arguments GRaise {A} e.

Fixpoint gen_of_list {A} (l : list A) : gen A :=
  match l with
  | [] => GStop
  | a :: l' => GYield a (gen_of_list l')
  end.

(** The values a generator yields before it stops or raises. *)
Fixpoint yielded {A} (g : gen A) : list A :=
  match g with
  | GYield a rest => a :: yielded rest
  | _ => []
  end.

(** [exhausted g]: the generator ends by [StopIteration], not by raising. *)
Fixpoint exhausted {A} (g : gen A) : bool :=
  match g with
  | GStop => true
  | GYield _ rest => exhausted rest
  | GRaise _ => false
  end.

Fixpoint gen_map {A B} (f : A -> B) (g : gen A) : gen B :=
  match g with
  | GStop => GStop
  | GYield a rest => GYield (f a) (gen_map f rest)
  | GRaise e => GRaise e
  end.

(** Truthiness, as [if x:] evaluates it. *)
Definition truthy_str (o : option string) : bool :=
  match o with
  | Some s => negb (String.eqb s "")
  | None => false
  end.

Definition truthy_bool (o : option bool) : bool :=
  match o with
  | Some b => b
  | None => false
  end.

(** One entry of a log-probability list: a token, a float, an offset, or
    the per-token dictionary of [top_logprobs]. *)
Inductive LpItem :=
| ItemStr (s : string)
| ItemFloat (q : float)
| ItemInt (z : Z)
| ItemDict (d : list (string * float)).

(** The value of [chunk["choices"][0]["logprobs"]]: the key may be absent,
    or present with [None], or present with a dict from field names
    ([tokens], [token_logprobs], [top_logprobs], [text_offset]) to lists. *)
Inductive LogprobsField :=
| LpAbsent
| LpNone
| LpRec (r : gmap string (list LpItem)).

(** A chunk of [create_chat_completion(stream=True)], reduced to what the
    service reads: [choices[0].delta] (with or without a ["content"] key)
    and [choices[0]] (with or without a ["logprobs"] key). *)
Record ChatChunk := mkChatChunk {
  delta_content : option string;
  chat_logprobs : LogprobsField
}.

(** A chunk of [create_completion(stream=True)]: [choices[0]["text"]] and
    the optional [choices[0]["logprobs"]]. *)
Record TextChunk := mkTextChunk {
  chunk_text : string;
  text_logprobs : LogprobsField
}.

(** ** Requests (the pydantic classes of the source) *)

(** [class Message(BaseModel)]. *)
Record Message := mkMessage {
  role : string;
  content : string
}.

(** [class GenerationRequest(BaseModel)], after validation: pydantic checks
    the declared types and fills the declared defaults; the class declares
    no range for any field. *)
Record GenerationRequest := mkGenerationRequest {
  prompt : string;
  temperature : float;
  max_new_tokens : Z;
  top_k : Z;
  top_p : float;
  stop_words : option (list string);
  logprobs : option bool;
  top_logprobs : option Z;
  stream : option bool
}.

(** [class ChatCompletionRequest(BaseModel)], after validation.  Every field
    but [messages] is declared [Optional], so a client may send [null]. *)
Record ChatCompletionRequest := mkChatCompletionRequest {
  messages : list Message;
  max_tokens : option Z;
  chat_temperature : option float;
  chat_stream : option bool;
  chat_stop_words : option (list string);
  chat_logprobs_flag : option bool;
  chat_top_logprobs : option Z
}.

(** ** Model handles *)

(** Keyword arguments of [Llama.create_chat_completion]. *)
Record ChatParams := mkChatParams {
  cp_messages : list Message;
  cp_temperature : float;
  cp_max_tokens : Z;
  cp_top_k : Z;
  cp_top_p : float;
  cp_stream : bool;
  cp_stop : option (list string);
  cp_logprobs : option bool;
  cp_top_logprobs : option Z
}.

(** Keyword arguments of [Llama.create_completion]. *)
Record CompletionParams := mkCompletionParams {
  tp_prompt : string;
  tp_temperature : float;
  tp_max_tokens : Z;
  tp_top_k : Z;
  tp_top_p : float;
  tp_stream : bool;
  tp_stop : option (list string);
  tp_logprobs : option bool;
  tp_top_logprobs : option Z
}.

(** Keyword arguments of [WhisperModel.transcribe]. *)
Record TranscribeParams := mkTranscribeParams {
  beam_size : option Z;
  language : option string;
  task : string;
  tr_temperature : option float;
  vad_filter : bool
}.

(** A loaded [Llama]: the metadata entry [tokenizer.chat_template] and the
    two generation entry points.  A call either raises at once or returns a
    generator of chunks (which may itself raise while it is consumed). *)
Record Llama := mkLlama {
  metadata_chat_template : option string;
  create_chat_completion : ChatParams -> Exception + gen ChatChunk;
  create_completion : CompletionParams -> Exception + gen TextChunk
}.

(** A loaded [WhisperModel]: [transcribe] returns the generator of the
    segments' texts (the second component of the pair is dropped by the
    service). *)
Record WhisperModel := mkWhisperModel {
  transcribe : string -> TranscribeParams -> Exception + gen string
}.

(** A loaded [StableDiffusion]; the text and audio endpoints never call it. *)
Record StableDiffusion := mkStableDiffusion {
  sd_model_path : string;
  sd_wtype : string;
  sd_n_threads : Z
}.

(** Modelled from the spec: the classes [Llama], [StableDiffusion] and
    [WhisperModel] are not under src/.  Following the spec's data model a
    handle is tagged by its kind, and each kind has only the entry points of
    its own endpoints: a [Llama] (kinds Text and VisionLanguage) has
    [create_chat_completion] and [create_completion], a [StableDiffusion]
    has the image entry points and a [WhisperModel] has [transcribe]. *)
Inductive ModelHandle :=
| HLlama (l : Llama)
| HStableDiffusion (sd : StableDiffusion)
| HWhisperModel (wm : WhisperModel).

Definition class_name (m : ModelHandle) : string :=
  match m with
  | HLlama _ => "Llama"
  | HStableDiffusion _ => "StableDiffusion"
  | HWhisperModel _ => "WhisperModel"
  end.

(** The message of the [AttributeError] Python raises for [obj.attr]. *)
Definition no_attribute (cls attr : string) : Exception :=
  Exc AttributeError ("'" +:+ cls +:+ "' object has no attribute '" +:+ attr +:+ "'").

(** [model.create_chat_completion], [model.create_completion] and
    [model.transcribe] as attribute lookups on the global [model], which
    may also be [None]. *)
Definition getattr_create_chat_completion (m : option ModelHandle)
  : Exception + (ChatParams -> Exception + gen ChatChunk) :=
  match m with
  | Some (HLlama l) => inr (create_chat_completion l)
  | Some h => inl (no_attribute (class_name h) "create_chat_completion")
  | None => inl (no_attribute "NoneType" "create_chat_completion")
  end.

Definition getattr_create_completion (m : option ModelHandle)
  : Exception + (CompletionParams -> Exception + gen TextChunk) :=
  match m with
  | Some (HLlama l) => inr (create_completion l)
  | Some h => inl (no_attribute (class_name h) "create_completion")
  | None => inl (no_attribute "NoneType" "create_completion")
  end.

Definition getattr_transcribe (m : option ModelHandle)
  : Exception + (string -> TranscribeParams -> Exception + gen string) :=
  match m with
  | Some (HWhisperModel wm) => inr (transcribe wm)
  | Some h => inl (no_attribute (class_name h) "transcribe")
  | None => inl (no_attribute "NoneType" "transcribe")
  end.

(** The chat handler classes of [NEXA_PROJECTOR_HANDLER_MAP]. *)
Inductive HandlerClass :=
| NanoLlavaChatHandler
| Llava15ChatHandler
| Llava16ChatHandler.

(** A constructed projector: [handler(clip_model_path=..., verbose=False)]. *)
Record Projector := mkProjector {
  handler_class : HandlerClass;
  clip_model_path : string
}.

(** Keyword arguments of the [Llama(...)] constructor; [None] where
    [load_model] does not pass the argument. *)
Record LlamaArgs := mkLlamaArgs {
  la_model_path : string;
  la_chat_handler : option (option Projector);
  la_verbose : bool;
  la_chat_format : option string;
  la_n_gpu_layers : Z;
  la_logits_all : option bool;
  la_n_ctx : option Z
}.

(** ** The world: module globals, file system, trace of effects *)

Inductive LogLevel := ERROR | INFO | DEBUG.

Inductive Event :=
| EvPullModel (name : string) (hf : bool)
| EvProjectorInit (cls : HandlerClass) (path : string)
| EvLlamaInit (args : LlamaArgs)
| EvStableDiffusionInit (path wtype : string) (n_threads : Z)
| EvWhisperInit (path : string)
| EvLog (lvl : LogLevel) (msg : string)
| EvCreateChatCompletion (p : ChatParams)
| EvCreateCompletion (p : CompletionParams)
| EvTranscribe (path : string) (p : TranscribeParams)
| EvTempFile (path : string)
| EvUnlink (path : string).

(** The module globals, as [startup_event] leaves them before it calls
    [load_model] ([os.getenv] with a default returns a [str]). *)
Record Globals := mkGlobals {
  model : option ModelHandle;
  chat_format : option string;
  completion_template : option string;
  model_path : string;
  n_ctx : option Z;
  is_local_path : bool;
  model_type : option string;
  is_huggingface : bool;
  projector_path : string
}.

Record World := mkWorld {
  globals : Globals;
  fs : gset string;
  trace : list Event
}.

(** Computations of the service: they read and change the world and return
    a value or raise. *)
Definition M (A : Type) : Type := World -> (Exception + A) * World.

Definition ret {A} (a : A) : M A := fun w => (inr a, w).

Definition bind {A B} (m : M A) (k : A -> M B) : M B :=
  fun w => match m w with
           | (inr a, w') => k a w'
           | (inl e, w') => (inl e, w')
           end.

Definition raise {A} (e : Exception) : M A := fun w => (inl e, w).

Definition lift {A} (r : Exception + A) : M A := fun w => (r, w).

Definition emit (ev : Event) : M unit :=
  fun w => (inr tt, mkWorld (globals w) (fs w) (trace w ++ [ev])).

Definition get_globals : M Globals := fun w => (inr (globals w), w).

Definition set_globals (g : Globals) : M unit :=
  fun w => (inr tt, mkWorld g (fs w) (trace w)).

(** [try: m except Exception as e: h e]. *)
Definition try_except {A} (m : M A) (h : Exception -> M A) : M A :=
  fun w => match m w with
           | (inl e, w') => h e w'
           | r => r
           end.

(** [try: m finally: f].  The [finally] block runs on every exit of [m]; an
    exception it raises replaces the outcome of [m]. *)
Definition try_finally {A} (m : M A) (f : M unit) : M A :=
  fun w => match m w with
           | (r, w') =>
               match f w' with
               | (inl e, w'') => (inl e, w'')
               | (inr _, w'') => (r, w'')
               end
           end.

#[global] Instance M_ret : MRet M := @ret.
#[global] Instance M_bind : MBind M := fun A B k m => bind m k.

Definition logging (lvl : LogLevel) (msg : string) : M unit := emit (EvLog lvl msg).

(** ** The wire format of the streaming adapter *)

(** What [for token in streamer] binds [token] to.  The adapter is handed
    whatever [nexa_run_text_generation] returned: iterating a chunk
    generator gives chunks, iterating a dict gives its keys. *)
Inductive Token :=
| TokChunk (c : ChatChunk)
| TokKey (k : string).

(** [{"delta": {"content": token}}]. *)
Record SseChoice := mkSseChoice {
  sse_delta_content : Token
}.

(** The dict the adapter serialises for one token. *)
Record SseChunk := mkSseChunk {
  sse_id : string;
  sse_object : string;
  sse_created : float;
  sse_choices : list SseChoice
}.

(** ** What lies outside the source file

    The constants of [nexa.constants], the constructors of the engines,
    [pull_model], [is_gpu_available], Python's [str.format], [repr],
    [json.dumps], the clock, [uuid4] and the naming of temporary files are
    not part of the service's code.  The embedding is parametric in them. *)
Class Env := {
  NEXA_RUN_CHAT_TEMPLATE_MAP : gmap string string;
  NEXA_RUN_MODEL_MAP_VLM : gmap string string;
  NEXA_RUN_PROJECTOR_MAP : gmap string string;
  NEXA_RUN_COMPLETION_TEMPLATE_MAP : gmap string string;
  NEXA_RUN_MODEL_PRECISION_MAP : gmap string string;
  NEXA_RUN_MODEL_MAP_FUNCTION_CALLING : gmap string string;
  (** [is_gpu_available()] *)
  is_gpu_available : bool;
  (** [pull_model(name, hf=...)]: the local path and the model type *)
  pull_model : string -> bool -> Exception + (string * option string);
  (** the constructors [Llama(...)], [handler(clip_model_path=...)],
      [StableDiffusion(...)], [WhisperModel(...)] *)
  Llama_init : LlamaArgs -> Exception + Llama;
  ChatHandler_init : HandlerClass -> string -> Exception + Projector;
  StableDiffusion_init : string -> string -> Z -> Exception + StableDiffusion;
  WhisperModel_init : string -> Exception + WhisperModel;
  (** [multiprocessing.cpu_count()] *)
  cpu_count : Z;
  (** [f"{model}"] *)
  repr_model : ModelHandle -> string;
  (** [template.format(input=prompt)] *)
  str_format : string -> string -> Exception + string;
  (** [str(uuid.uuid4())] of the current request *)
  uuid4 : string;
  (** [time.time()]: the n-th reading of the clock during the request *)
  time : nat -> float;
  (** [json.dumps] on the adapter's dicts *)
  json_dumps : SseChunk -> string;
  (** the message of the pydantic error for a [None] given to a field that
      is not [Optional] *)
  none_not_allowed : string -> string;
  (** [os.path.splitext(name)[1]] *)
  splitext_ext : string -> string;
  (** [tempfile.NamedTemporaryFile(delete=False, suffix=...)]: the name it
      picks, given the existing files and the suffix, unless it fails *)
  mktemp_name : gset string -> string -> Exception + string;
  (** [temp_audio.write(data)] on the file of that name: the error, if any *)
  write_fault : string -> string -> option Exception;
  (** [s.lower()], on any text *)
  str_lower : string -> string;
  (** [str(e)] for the [UnboundLocalError] of a local variable that is read
      before it is bound; the wording depends on the version of Python *)
  unbound_local : string -> string
}.

(** [int(x)] for a float: truncation toward zero. *)
Definition int_of_float (x : float) : Z := Z.quot (Qnum x) (Zpos (Qden x)).

(** ** Text generation: [nexa_run_text_generation] *)

(** The global [chat_completion_system_prompt]. *)
Definition chat_completion_system_prompt : list Message :=
  [mkMessage "system" "You are a helpful assistant"].

(** The body of [for key in logprobs_or_none: if key in r:
    logprobs_or_none[key].extend(r[key])]: every field of the accumulated
    record is visited once; a field the chunk also has is extended by the
    chunk's list, any other field is left as it is. *)
Definition extend_fields (acc r : gmap string (list LpItem)) : gmap string (list LpItem) :=
  map_imap (fun key l => Some (match r !! key with
                               | Some l' => l ++ l'
                               | None => l
                               end)) acc.

(** One chunk's effect on [logprobs_or_none]:
<<
    if logprobs and "logprobs" in chunk["choices"][0]:
        if logprobs_or_none is None:
            logprobs_or_none = chunk["choices"][0]["logprobs"]
        else:
            for key in logprobs_or_none:
                if key in chunk["choices"][0]["logprobs"]:
                    logprobs_or_none[key].extend(...)
>>
    When the chunk's value is [None] and the accumulated record has a field,
    [key in None] raises [TypeError].  (Every chunk of a generator is a
    fresh dict, so extending the first chunk's lists in place is extending
    the accumulated value.) *)
Definition accumulate_logprobs (flag : bool) (field : LogprobsField)
    (logprobs_or_none : option (gmap string (list LpItem)))
  : Exception + option (gmap string (list LpItem)) :=
  if flag then
    match field with
    | LpAbsent => inr logprobs_or_none
    | LpNone =>
        match logprobs_or_none with
        | None => inr None
        | Some acc =>
            if decide (acc = ∅) then inr (Some acc)
            else inl (Exc TypeError "argument of type 'NoneType' is not iterable")
        end
    | LpRec r =>
        match logprobs_or_none with
        | None => inr (Some r)
        | Some acc => inr (Some (extend_fields acc r))
        end
    end
  else inr logprobs_or_none.

(** The draining loop of the chat branch (source lines 327-338). *)
Fixpoint drain_chat (flag : bool) (streamer : gen ChatChunk) (generated_text : string)
    (logprobs_or_none : option (gmap string (list LpItem)))
  : Exception + (string * option (gmap string (list LpItem))) :=
  match streamer with
  | GStop => inr (generated_text, logprobs_or_none)
  | GRaise e => inl e
  | GYield chunk rest =>
      let generated_text :=
        match delta_content chunk with
        | Some c => generated_text +:+ c
        | None => generated_text
        end in
      match accumulate_logprobs flag (chat_logprobs chunk) logprobs_or_none with
      | inl e => inl e
      | inr acc => drain_chat flag rest generated_text acc
      end
  end.

(** The draining loop of the completion branch (source lines 357-367). *)
Fixpoint drain_text (flag : bool) (streamer : gen TextChunk) (generated_text : string)
    (logprobs_or_none : option (gmap string (list LpItem)))
  : Exception + (string * option (gmap string (list LpItem))) :=
  match streamer with
  | GStop => inr (generated_text, logprobs_or_none)
  | GRaise e => inl e
  | GYield chunk rest =>
      let generated_text := generated_text +:+ chunk_text chunk in
      match accumulate_logprobs flag (text_logprobs chunk) logprobs_or_none with
      | inl e => inl e
      | inr acc => drain_text flag rest generated_text acc
      end
  end.

(** What [nexa_run_text_generation] returns: the chunk generator itself
    ([return streamer]) or the dict [{"result": ..., "logprobs": ...}]. *)
Inductive GenReturn :=
| RetStreamer (streamer : gen ChatChunk)
| RetResult (result : string) (logprobs_or_none : option (gmap string (list LpItem))).

Section Service.
Context `{env : Env}.

(** The local [messages] of the chat branch: no system prompt for a local
    path or a Hugging Face model. *)
Definition chat_messages (g : Globals) (prompt : string) : list Message :=
  if is_local_path g || is_huggingface g
  then [mkMessage "user" prompt]
  else chat_completion_system_prompt ++ [mkMessage "user" prompt].

(** The local [formatted_prompt] of the completion branch:
    [completion_template.format(input=prompt)] when the template is set. *)
Definition format_prompt (g : Globals) (prompt : string) : Exception + string :=
  if truthy_str (completion_template g)
  then str_format (default "" (completion_template g)) prompt
  else inr prompt.

Definition nexa_run_text_generation (prompt : string) (temperature : float)
    (stop_words : option (list string)) (max_new_tokens top_k : Z) (top_p : float)
    (logprobs : option bool) (top_logprobs : option Z) (stream : option bool)
  : M GenReturn :=
  g ← get_globals;
  match model g with
  | None =>
      raise (Exc ValueError "Model is not loaded. Please check the model path and try again.")
  | Some _ =>
      if truthy_str (chat_format g) then
        let messages := chat_messages g prompt in
        let params :=
          mkChatParams messages temperature max_new_tokens top_k top_p true
                       stop_words logprobs top_logprobs in
        f ← lift (getattr_create_chat_completion (model g));
        emit (EvCreateChatCompletion params);;
        streamer ← lift (f params);
        if truthy_bool stream then ret (RetStreamer streamer)
        else
          r ← lift (drain_chat (truthy_bool logprobs) streamer "" None);
          ret (RetResult r.1 r.2)
      else
        formatted_prompt ← lift (format_prompt g prompt);
        f ← lift (getattr_create_completion (model g));
        let params :=
          mkCompletionParams formatted_prompt temperature max_new_tokens top_k top_p true
                             stop_words logprobs top_logprobs in
        emit (EvCreateCompletion params);;
        streamer ← lift (f params);
        r ← lift (drain_text (truthy_bool logprobs) streamer "" None);
        ret (RetResult r.1 r.2)
  end.

(** [nexa_run_text_generation] called with the dict [generation_kwargs]
    unpacked: the keyword arguments are the fields of a
    [GenerationRequest]. *)
Definition nexa_run_text_generation_kwargs (generation_kwargs : GenerationRequest)
  : M GenReturn :=
  nexa_run_text_generation (prompt generation_kwargs) (temperature generation_kwargs)
    (stop_words generation_kwargs) (max_new_tokens generation_kwargs)
    (top_k generation_kwargs) (top_p generation_kwargs) (logprobs generation_kwargs)
    (top_logprobs generation_kwargs) (stream generation_kwargs).

(** ** The streaming adapter: [_resp_async_generator] *)

(** The end of line. *)
Definition nl : string := String (ascii_of_nat 10) EmptyString.

(** [f"data: {json.dumps(chunk)}\n\n"]. *)
Definition wire_frame (chunk : SseChunk) : string :=
  "data: " +:+ json_dumps chunk +:+ nl +:+ nl.

(** The terminal sentinel, ["data: [DONE]\n\n"]. *)
Definition wire_done : string := "data: [DONE]" +:+ nl +:+ nl.

(** The dict built for the [n]-th token. *)
Definition sse_chunk (_id : string) (n : nat) (token : Token) : SseChunk :=
  mkSseChunk _id "chat.completion.chunk" (time n) [mkSseChoice token].

(** The loop of the adapter from the [n]-th token on, and the sentinel
    after it. *)
Fixpoint resp_from (_id : string) (n : nat) (streamer : gen Token) : gen string :=
  match streamer with
  | GYield token rest => GYield (wire_frame (sse_chunk _id n token)) (resp_from _id (S n) rest)
  | GStop => GYield wire_done GStop
  | GRaise e => GRaise e
  end.

Definition _resp_async_generator (streamer : gen Token) : gen string :=
  let _id := uuid4 in
  resp_from _id 0 streamer.

(** Python's iteration protocol on the value returned by
    [nexa_run_text_generation]: a generator yields its chunks, the dict
    [{"result": ..., "logprobs": ...}] yields its keys in insertion order. *)
Definition py_iter (r : GenReturn) : gen Token :=
  match r with
  | RetStreamer streamer => gen_map TokChunk streamer
  | RetResult _ _ => GYield (TokKey "result") (GYield (TokKey "logprobs") GStop)
  end.

(** ** Responses *)

Record TextChoice := mkTextChoice {
  choice_text : string;
  choice_index : Z;
  choice_logprobs : option (gmap string (list LpItem));
  finish_reason : string
}.

Record ChatChoice := mkChatChoice {
  message : Message;
  message_logprobs : option (gmap string (list LpItem))
}.

Inductive Response :=
| StreamingResponse (body : gen string) (media_type : string)
| TextCompletion (id object : string) (created : Z) (model_name : string)
                 (choices : list TextChoice)
| ChatCompletion (id object : string) (created : float) (choices : list ChatChoice)
| Transcription (text : string).

(** [result["result"]] and [result["logprobs"]]; subscripting a generator
    raises. *)
Definition result_fields (r : GenReturn)
  : Exception + (string * option (gmap string (list LpItem))) :=
  match r with
  | RetResult text lp => inr (text, lp)
  | RetStreamer _ => inl (Exc TypeError "'generator' object is not subscriptable")
  end.

(** ** The text endpoints *)

(** [POST /v1/completions]. *)
Definition generate_text (request : GenerationRequest) : M Response :=
  try_except
    (if truthy_bool (stream request) then
       streamer ← nexa_run_text_generation_kwargs request;
       ret (StreamingResponse (_resp_async_generator (py_iter streamer))
                              "application/x-ndjson")
     else
       result ← nexa_run_text_generation_kwargs request;
       r ← lift (result_fields result);
       g ← get_globals;
       ret (TextCompletion uuid4 "text_completion" (int_of_float (time 0)) (model_path g)
                           [mkTextChoice r.1 0 r.2 "stop"]))
    (fun e =>
       logging ERROR ("Error in text generation: " +:+ str_exc e);;
       raise (HTTPException 500 (str_exc e))).

(** The constructor call [GenerationRequest(prompt=..., temperature=...,
    max_new_tokens=..., stop_words=..., logprobs=..., top_logprobs=...,
    stream=...)] of [chat_completions].  [top_k] and [top_p] take the
    declared defaults; [temperature] and [max_new_tokens] are not declared
    [Optional], so pydantic refuses [None] for them. *)
Definition GenerationRequest_init (prompt : string) (temperature : option float)
    (max_new_tokens : option Z) (stop_words : option (list string))
    (logprobs : option bool) (top_logprobs : option Z) (stream : option bool)
  : Exception + GenerationRequest :=
  match temperature, max_new_tokens with
  | Some t, Some n =>
      inr (mkGenerationRequest prompt t n 50 1%Q stop_words logprobs top_logprobs stream)
  | None, _ => inl (Exc ValidationError (none_not_allowed "temperature"))
  | Some _, None => inl (Exc ValidationError (none_not_allowed "max_new_tokens"))
  end.

(** [prompt="" if len(request.messages) == 0 else request.messages[-1].content]. *)
Definition chat_prompt (messages : list Message) : string :=
  if (length messages =? 0)%nat then ""
  else match last messages with
       | Some m => content m
       | None => ""
       end.

(** [POST /v1/chat/completions]. *)
Definition chat_completions (request : ChatCompletionRequest) : M Response :=
  try_except
    (generation_kwargs ← lift (GenerationRequest_init
         (chat_prompt (messages request))
         (chat_temperature request) (max_tokens request) (chat_stop_words request)
         (chat_logprobs_flag request) (chat_top_logprobs request) (chat_stream request));
     if truthy_bool (chat_stream request) then
       streamer ← nexa_run_text_generation_kwargs generation_kwargs;
       ret (StreamingResponse (_resp_async_generator (py_iter streamer))
                              "application/x-ndjson")
     else
       result ← nexa_run_text_generation_kwargs generation_kwargs;
       r ← lift (result_fields result);
       ret (ChatCompletion uuid4 "chat.completion" (time 0)
                           [mkChatChoice (mkMessage "assistant" r.1) r.2]))
    (fun e =>
       logging ERROR ("Error in chat completions: " +:+ str_exc e);;
       raise (HTTPException 500 (str_exc e))).

(** ** Loading the model: [load_model] *)

(** The letters [A] to [Z] lowered, every other byte kept.  On text that
    is compared with ["true"] this decides what [s.lower() == "true"]
    decides: no character outside [A-Z] lowers to one of [t], [r], [u],
    [e].  For [s.lower()] in general see [str_lower] of [Env]. *)
Definition ascii_lower (c : ascii) : ascii :=
  let n := nat_of_ascii c in
  if ((65 <=? n) && (n <=? 90))%nat then ascii_of_nat (n + 32) else c.

Fixpoint lower_ascii (s : string) : string :=
  match s with
  | EmptyString => EmptyString
  | String c s' => String (ascii_lower c) (lower_ascii s')
  end.

(** [s.split(":")[0]]: the part of [s] before its first colon. *)
Fixpoint split_colon_head (s : string) : string :=
  match s with
  | EmptyString => EmptyString
  | String c s' => if Ascii.eqb c ":" then EmptyString else String c (split_colon_head s')
  end.

(** The dict [NEXA_PROJECTOR_HANDLER_MAP] of the source. *)
Definition NEXA_PROJECTOR_HANDLER_MAP : gmap string HandlerClass :=
  list_to_map [
    ("nanollava", NanoLlavaChatHandler);
    ("nanoLLaVA:fp16", NanoLlavaChatHandler);
    ("llava-phi3", Llava15ChatHandler);
    ("llava-phi-3-mini:q4_0", Llava15ChatHandler);
    ("llava-phi-3-mini:fp16", Llava15ChatHandler);
    ("llava-llama3", Llava15ChatHandler);
    ("llava-llama-3-8b-v1.1:q4_0", Llava15ChatHandler);
    ("llava-llama-3-8b-v1.1:fp16", Llava15ChatHandler);
    ("llava1.6-mistral", Llava16ChatHandler);
    ("llava-v1.6-mistral-7b:q4_0", Llava16ChatHandler);
    ("llava-v1.6-mistral-7b:fp16", Llava16ChatHandler);
    ("llava1.6-vicuna", Llava16ChatHandler);
    ("llava-v1.6-vicuna-7b:q4_0", Llava16ChatHandler);
    ("llava-v1.6-vicuna-7b:fp16", Llava16ChatHandler)
  ].

(** Assignments to single globals. *)
Definition set_model (m : ModelHandle) : M unit :=
  g ← get_globals;
  set_globals (mkGlobals (Some m) (chat_format g) (completion_template g) (model_path g)
                         (n_ctx g) (is_local_path g) (model_type g) (is_huggingface g)
                         (projector_path g)).

Definition set_chat_format (cf : option string) : M unit :=
  g ← get_globals;
  set_globals (mkGlobals (model g) cf (completion_template g) (model_path g)
                         (n_ctx g) (is_local_path g) (model_type g) (is_huggingface g)
                         (projector_path g)).

Definition set_completion_template (ct : option string) : M unit :=
  g ← get_globals;
  set_globals (mkGlobals (model g) (chat_format g) ct (model_path g)
                         (n_ctx g) (is_local_path g) (model_type g) (is_huggingface g)
                         (projector_path g)).

Definition set_model_type (mt : option string) : M unit :=
  g ← get_globals;
  set_globals (mkGlobals (model g) (chat_format g) (completion_template g) (model_path g)
                         (n_ctx g) (is_local_path g) mt (is_huggingface g)
                         (projector_path g)).

(** The calls that leave the service, each recorded in the trace. *)
Definition call_pull_model (name : string) (hf : bool) : M (string * option string) :=
  emit (EvPullModel name hf);; lift (pull_model name hf).

Definition call_Llama (args : LlamaArgs) : M Llama :=
  emit (EvLlamaInit args);; lift (Llama_init args).

(** [d[key]]: a missing key raises [KeyError]. *)
Definition getitem (d : gmap string string) (key : string) : M string :=
  match d !! key with
  | Some v => ret v
  | None => raise (Exc KeyError ("'" +:+ key +:+ "'"))
  end.

(** [-1 if is_gpu_available() else 0]. *)
Definition first_n_gpu_layers : Z := if is_gpu_available then -1 else 0.

(** The block the source repeats for each [Llama] it loads:
<<
    try:
        model = Llama(..., n_gpu_layers=-1 if is_gpu_available() else 0, ...)
    except Exception as e:
        logging.error(f"Failed to load model: {e}. Falling back to CPU.", exc_info=True)
        model = Llama(..., n_gpu_layers=0, ...)
>>
    [args] gives the keyword arguments for a value of [n_gpu_layers]. *)
Definition load_llama (args : Z -> LlamaArgs) : M unit :=
  try_except
    (l ← call_Llama (args first_n_gpu_layers); set_model (HLlama l))
    (fun e =>
       logging ERROR ("Failed to load model: " +:+ str_exc e +:+ ". Falling back to CPU.");;
       l ← call_Llama (args 0);
       set_model (HLlama l)).

Definition log_model_loaded (prefix : string) : M unit :=
  g ← get_globals;
  logging INFO (prefix +:+ match model g with
                           | Some m => repr_model m
                           | None => "None"
                           end).

Definition str_eq (o : option string) (s : string) : bool :=
  match o with
  | Some s' => String.eqb s' s
  | None => false
  end.

(** The first part of [load_model]: [downloaded_path] and, where it is
    bound, [projector_downloaded_path].  The last branch also assigns the
    global [model_type]. *)
Definition resolve_paths : M (string * option string) :=
  g ← get_globals;
  if str_eq (model_type g) "Multimodal" then
    if is_local_path g then
      if String.eqb (projector_path g) "" then
        raise (Exc ValueError
          "Projector path must be provided when using local path for Multimodal models")
      else ret (model_path g, Some (projector_path g))
    else if decide (is_Some (NEXA_RUN_MODEL_MAP_VLM !! model_path g)) then
      name ← getitem NEXA_RUN_MODEL_MAP_VLM (model_path g);
      p ← call_pull_model name false;
      pname ← getitem NEXA_RUN_PROJECTOR_MAP (model_path g);
      pp ← call_pull_model pname false;
      ret (p.1, Some pp.1)
    else raise (Exc ValueError ("Unknown model path: " +:+ model_path g))
  else
    if is_local_path g then ret (model_path g, None)
    else if is_huggingface g then
      p ← call_pull_model (model_path g) true;
      ret (p.1, None)
    else
      p ← call_pull_model (model_path g) false;
      set_model_type p.2;;
      ret (p.1, None).

(** The branch [if model_type == "NLP":]. *)
Definition load_nlp (downloaded_path : string) : M unit :=
  g ← get_globals;
  if decide (is_Some (NEXA_RUN_MODEL_MAP_FUNCTION_CALLING !! model_path g)) then
    set_chat_format (Some "chatml-function-calling");;
    load_llama (fun n_gpu_layers =>
      mkLlamaArgs downloaded_path None false (Some "chatml-function-calling")
                  n_gpu_layers (Some true) (n_ctx g));;
    log_model_loaded "model loaded as "
  else
    let model_name := str_lower (split_colon_head (model_path g)) in
    let cf := NEXA_RUN_CHAT_TEMPLATE_MAP !! model_name in
    let ct := NEXA_RUN_COMPLETION_TEMPLATE_MAP !! model_name in
    set_chat_format cf;;
    set_completion_template ct;;
    load_llama (fun n_gpu_layers =>
      mkLlamaArgs downloaded_path None false cf n_gpu_layers (Some true) (n_ctx g));;
    log_model_loaded "model loaded as ";;
    g' ← get_globals;
    let template :=
      match model g' with
      | Some (HLlama l) => metadata_chat_template l
      | _ => None
      end in
    set_chat_format template;;
    if bool_decide (ct = None) && bool_decide (template ≠ None) then
      set_chat_format template;;
      logging DEBUG "Chat format detected"
    else ret tt.

(** The branch [elif model_type == "Computer Vision":]. *)
Definition load_computer_vision (downloaded_path : string) : M unit :=
  g ← get_globals;
  let wtype := default "f32" (NEXA_RUN_MODEL_PRECISION_MAP !! model_path g) in
  emit (EvStableDiffusionInit downloaded_path wtype cpu_count);;
  sd ← lift (StableDiffusion_init downloaded_path wtype cpu_count);
  set_model (HStableDiffusion sd);;
  log_model_loaded "model loaded as ".

(** The branch [elif model_type == "Multimodal":]. *)
Definition load_multimodal (downloaded_path : string)
    (projector_downloaded_path : option string) : M unit :=
  g ← get_globals;
  let projector_handler :=
    default Llava15ChatHandler (NEXA_PROJECTOR_HANDLER_MAP !! model_path g) in
  ppath ← (match projector_downloaded_path with
           | Some p => ret p
           | None => raise (Exc UnboundLocalError
                                (unbound_local "projector_downloaded_path"))
           end);
  projector ←
    (if negb (String.eqb ppath "") then
       emit (EvProjectorInit projector_handler ppath);;
       pr ← lift (ChatHandler_init projector_handler ppath);
       ret (Some pr)
     else ret None);
  let cf := NEXA_RUN_CHAT_TEMPLATE_MAP !! model_path g in
  set_chat_format cf;;
  load_llama (fun n_gpu_layers =>
    mkLlamaArgs downloaded_path (Some projector) false cf n_gpu_layers None (Some 2048));;
  log_model_loaded "Model loaded as ".

(** The branch [elif model_type == "Audio":]. *)
Definition load_audio (downloaded_path : string) : M unit :=
  emit (EvWhisperInit downloaded_path);;
  wm ← lift (WhisperModel_init downloaded_path);
  set_model (HWhisperModel wm);;
  log_model_loaded "model loaded as ".

Definition load_model : M unit :=
  paths ← resolve_paths;
  let downloaded_path := paths.1 in
  let projector_downloaded_path := paths.2 in
  g ← get_globals;
  if str_eq (model_type g) "NLP" then load_nlp downloaded_path
  else if str_eq (model_type g) "Computer Vision" then load_computer_vision downloaded_path
  else if str_eq (model_type g) "Multimodal" then
    load_multimodal downloaded_path projector_downloaded_path
  else if str_eq (model_type g) "Audio" then load_audio downloaded_path
  else raise (Exc ValueError ("Model " +:+ model_path g +:+ " not found in Model Hub")).

(** ** The audio endpoints *)

(** FastAPI's [UploadFile]: the client's file name and what
    [await file.read()] gives. *)
Record UploadFile := mkUploadFile {
  filename : string;
  file_read : Exception + string
}.

(** File operations on the set of existing paths. *)
Definition NamedTemporaryFile (suffix : string) : M string :=
  fun w =>
    match mktemp_name (fs w) suffix with
    | inl e => (inl e, w)
    | inr name =>
        (inr name, mkWorld (globals w) ({[name]} ∪ fs w) (trace w ++ [EvTempFile name]))
    end.

Definition file_write (name data : string) : M unit :=
  match write_fault name data with
  | Some e => raise e
  | None => ret tt
  end.

(** [os.unlink(path)]. *)
Definition os_unlink (path : string) : M unit :=
  fun w =>
    if decide (path ∈ fs w)
    then (inr tt, mkWorld (globals w) (fs w ∖ {[path]}) (trace w ++ [EvUnlink path]))
    else (inl (Exc OSError ("[Errno 2] No such file or directory: '" +:+ path +:+ "'")), w).

(** [os.unlink(temp_audio_path)] in the [finally] block: the local variable
    is bound only if the [with] block of the [try] body ran to its end. *)
Definition unlink_local (temp_audio_path : option string) : M unit :=
  match temp_audio_path with
  | Some path => os_unlink path
  | None => raise (Exc UnboundLocalError (unbound_local "temp_audio_path"))
  end.

(** A [try] body that binds a local variable on its way,
<<
    try:     x = stage; rest(x)
    except Exception as e: handler(e)
    finally: cleanup(x)            # x may be unbound
>> *)
Definition try_except_finally {L A} (stage : M L) (rest : L -> M A)
    (handler : Exception -> M A) (cleanup : option L -> M unit) : M A :=
  fun w =>
    match stage w with
    | (inl e, w') => try_finally (handler e) (cleanup None) w'
    | (inr x, w') => try_finally (try_except (rest x) handler) (cleanup (Some x)) w'
    end.

(** The [with tempfile.NamedTemporaryFile(...) as temp_audio:] block and the
    assignment of [temp_audio_path] in it. *)
Definition stage_upload (file : UploadFile) : M string :=
  temp_audio ← NamedTemporaryFile (splitext_ext (filename file));
  data ← lift (file_read file);
  file_write temp_audio data;;
  ret temp_audio.

(** ["".join(segment.text for segment in segments)]. *)
Fixpoint join_segments (segments : gen string) : Exception + string :=
  match segments with
  | GStop => inr ""
  | GRaise e => inl e
  | GYield text rest =>
      match join_segments rest with
      | inl e => inl e
      | inr s => inr (text +:+ s)
      end
  end.

Definition call_transcribe (temp_audio_path : string) (params : TranscribeParams)
  : M Response :=
  g ← get_globals;
  f ← lift (getattr_transcribe (model g));
  emit (EvTranscribe temp_audio_path params);;
  segments ← lift (f temp_audio_path params);
  text ← lift (join_segments segments);
  ret (Transcription text).

(** The body of [transcribe_audio]. *)
Definition transcribe_audio (file : UploadFile) (beam_size : option Z)
    (language : option string) (temperature : option float) : M Response :=
  try_except_finally
    (stage_upload file)
    (fun temp_audio_path =>
       call_transcribe temp_audio_path
         (mkTranscribeParams beam_size language "transcribe" temperature true))
    (fun e => raise (HTTPException 500 ("Error during transcription: " +:+ str_exc e)))
    unlink_local.

(** The body of [translate_audio]. *)
Definition translate_audio (file : UploadFile) (beam_size : option Z)
    (temperature : option float) : M Response :=
  try_except_finally
    (stage_upload file)
    (fun temp_audio_path =>
       call_transcribe temp_audio_path
         (mkTranscribeParams beam_size None "translate" temperature true))
    (fun e => raise (HTTPException 500 ("Error during translation: " +:+ str_exc e)))
    unlink_local.

(** The two routes as FastAPI serves them.  [file: UploadFile = File(...)]
    declares the file required: a request without it fails FastAPI's
    validation, which answers with status 422 (its detail is abbreviated
    here) without running the handler's body. *)
Definition post_audio_transcriptions (file : option UploadFile) (beam_size : option Z)
    (language : option string) (temperature : option float) : M Response :=
  match file with
  | None => raise (HTTPException 422 "Field required")
  | Some f => transcribe_audio f beam_size language temperature
  end.

Definition post_audio_translations (file : option UploadFile) (beam_size : option Z)
    (temperature : option float) : M Response :=
  match file with
  | None => raise (HTTPException 422 "Field required")
  | Some f => translate_audio f beam_size temperature
  end.

End Service.

(** ["".join(parts)]. *)
Fixpoint join (parts : list string) : string :=
  match parts with
  | [] => ""
  | part :: rest => part +:+ join rest
  end.

(** ** Observations on traces *)

(** The calls made to the model handle's generation entry points. *)
Definition is_engine_call (ev : Event) : bool :=
  match ev with
  | EvCreateChatCompletion _ | EvCreateCompletion _ => true
  | _ => false
  end.

Definition engine_calls (tr : list Event) : list Event := List.filter is_engine_call tr.




(** The [Llama(...)] constructions of a trace, in order. *)
Definition llama_init_args (ev : Event) : option LlamaArgs :=
  match ev with
  | EvLlamaInit a => Some a
  | _ => None
  end.

Definition llama_inits (tr : list Event) : list LlamaArgs := omap llama_init_args tr.

Definition with_n_gpu_layers (a : LlamaArgs) (n : Z) : LlamaArgs :=
  mkLlamaArgs (la_model_path a) (la_chat_handler a) (la_verbose a) (la_chat_format a)
              n (la_logits_all a) (la_n_ctx a).

(** The temporary files a trace created. *)
Definition temp_file_of (ev : Event) : option string :=
  match ev with
  | EvTempFile path => Some path
  | _ => None
  end.

Definition temp_files (tr : list Event) : list string := omap temp_file_of tr.

Definition is_llama (m : ModelHandle) : bool :=
  match m with
  | HLlama _ => true
  | _ => false
  end.

(** ** The merge of log-probability records, as the specification words it *)

(** The records among the values of the chunks' ["logprobs"] keys. *)
Definition record_of (field : LogprobsField) : option (gmap string (list LpItem)) :=
  match field with
  | LpRec r => Some r
  | _ => None
  end.

Definition records_of (fields : list LogprobsField) : list (gmap string (list LpItem)) :=
  omap record_of fields.

(** One step of the merge: each field name present in the merged record is
    extended with the record's list for the same name. *)
Definition extend_by_name (merged r : gmap string (list LpItem))
  : gmap string (list LpItem) :=
  map_imap (fun name l => Some (l ++ default [] (r !! name))) merged.

(** Take the first chunk's record; for each subsequent chunk and each field
    name present in that record, extend the field's list with that chunk's
    list for the same field name. *)
Definition merge_logprobs_spec (records : list (gmap string (list LpItem)))
  : option (gmap string (list LpItem)) :=
  match records with
  | [] => None
  | first :: subsequent => Some (foldl extend_by_name first subsequent)
  end.

(** No chunk carries ["logprobs": None] after a chunk that carried a
    record. *)
Definition not_null (field : LogprobsField) : bool :=
  match field with
  | LpNone => false
  | _ => true
  end.

Fixpoint nulls_only_lead (fields : list LogprobsField) : bool :=
  match fields with
  | [] => true
  | LpRec _ :: rest => forallb not_null rest
  | _ :: rest => nulls_only_lead rest
  end.

(** ** What the model handle is asked and what it produces *)

(** The text a chunk of the chat branch adds to [generated_text]. *)
Definition delta_text (chunk : ChatChunk) : string := default "" (delta_content chunk).

(** The text content a framed token carries: the delta content of a chunk,
    or the string itself. *)
Definition token_text (t : Token) : string :=
  match t with
  | TokChunk c => delta_text c
  | TokKey k => k
  end.

(** The loop both draining loops instantiate, on the list of what each
    chunk contributes: its text and the value of its ["logprobs"] key. *)
Fixpoint drain_pieces (flag : bool) (pieces : list (string * LogprobsField))
    (generated_text : string) (logprobs_or_none : option (gmap string (list LpItem)))
  : Exception + (string * option (gmap string (list LpItem))) :=
  match pieces with
  | [] => inr (generated_text, logprobs_or_none)
  | (text, field) :: rest =>
      match accumulate_logprobs flag field logprobs_or_none with
      | inl e => inl e
      | inr acc => drain_pieces flag rest (generated_text +:+ text) acc
      end
  end.

(** A generator that is exhausted is the list of what it yields. *)
Definition chunks_of {A} (streamer : gen A) : option (list A) :=
  if exhausted streamer then Some (yielded streamer) else None.

Section Observations.
Context `{env : Env}.

(** The call [nexa_run_text_generation] makes to a [Llama] for a request:
    [create_chat_completion] with the dict [params] (source lines 310-322) when a chat
    format is set, [create_completion(...)] (lines 345-355) otherwise,
    unless formatting the prompt raises. *)
Definition generation_call (g : Globals) (request : GenerationRequest)
  : Exception + Event :=
  if truthy_str (chat_format g) then
    inr (EvCreateChatCompletion
           (mkChatParams (chat_messages g (prompt request)) (temperature request)
                         (max_new_tokens request) (top_k request) (top_p request) true
                         (stop_words request) (logprobs request) (top_logprobs request)))
  else
    match format_prompt g (prompt request) with
    | inl e => inl e
    | inr formatted_prompt =>
        inr (EvCreateCompletion
               (mkCompletionParams formatted_prompt (temperature request)
                                   (max_new_tokens request) (top_k request) (top_p request)
                                   true (stop_words request) (logprobs request)
                                   (top_logprobs request)))
    end.

(** What a [Llama] produces for a call, when its producer is finite: for
    each chunk, the text it adds and the value of its ["logprobs"] key. *)
Definition produced (l : Llama) (call : Event) : option (list (string * LogprobsField)) :=
  match call with
  | EvCreateChatCompletion p =>
      match create_chat_completion l p with
      | inr streamer =>
          map (fun c => (delta_text c, chat_logprobs c)) <$> chunks_of streamer
      | inl _ => None
      end
  | EvCreateCompletion p =>
      match create_completion l p with
      | inr streamer =>
          map (fun c => (chunk_text c, text_logprobs c)) <$> chunks_of streamer
      | inl _ => None
      end
  | _ => None
  end.

End Observations.


(** The [GenerationRequest] that [chat_completions] builds from a chat
    request whose temperature and token limit are given. *)
Definition chat_generation_kwargs (request : ChatCompletionRequest) (t : float) (n : Z)
  : GenerationRequest :=
  mkGenerationRequest (chat_prompt (messages request)) t n 50 1%Q
    (chat_stop_words request) (chat_logprobs_flag request) (chat_top_logprobs request)
    (chat_stream request).

(** ** Describing the events a computation adds *)

(** [emits m P]: from any world, [m] only appends to the trace, and what it
    appends satisfies [P]. *)
Definition emits {A} (m : M A) (P : list Event -> Prop) : Prop :=
  forall w, exists evs, trace ((m w).2) = trace w ++ evs /\ P evs.

(** [m] constructs no [Llama]. *)
Definition quiet {A} (m : M A) : Prop := emits m (fun evs => llama_inits evs = []).

(** The notice [load_model] logs when the first attempt raised [e]. *)
Definition fallback_notice (e : Exception) : Event :=
  EvLog ERROR ("Failed to load model: " +:+ str_exc e +:+ ". Falling back to CPU.").

Section LoadShapes.
Context `{env : Env}.

(** The events of one try-then-fall-back block: the first attempt alone
    when it succeeded; the first attempt, the notice and one attempt with
    [n_gpu_layers = 0] when it raised. *)
Definition attempt (mid : list Event) : Prop :=
  exists first,
    (mid = [EvLlamaInit first] /\ exists l, Llama_init first = inr l)
    \/ (exists e, Llama_init first = inl e
                  /\ mid = [EvLlamaInit first; fallback_notice e;
                            EvLlamaInit (with_n_gpu_layers first 0)]).

(** The events of a whole load: at most one such block, and no other
    construction of a [Llama] before or after it. *)
Definition load_shape (evs : list Event) : Prop :=
  exists before mid after,
    evs = before ++ mid ++ after
    /\ llama_inits before = [] /\ llama_inits after = []
    /\ (mid = [] \/ attempt mid).

End LoadShapes.

(** ** A concrete environment, for the examples *)

Definition lp_rec (token : string) (lp : float) : gmap string (list LpItem) :=
  <["tokens" := [ItemStr token]]> (<["token_logprobs" := [ItemFloat lp]]> ∅).

(** An engine that echoes the prompt it was given and then a full stop. *)
Definition echo_llama : Llama :=
  mkLlama None
    (fun p => inr (gen_of_list [
       mkChatChunk None LpAbsent;
       mkChatChunk (Some (default "" (content <$> last (cp_messages p))))
                   (LpRec (lp_rec "echo" (-1 # 2)));
       mkChatChunk (Some ".") (LpRec (lp_rec "." (-1 # 4)))]))
    (fun p => inr (gen_of_list [
       mkTextChunk (tp_prompt p) (LpRec (lp_rec "echo" (-1 # 2)));
       mkTextChunk "." (LpRec (lp_rec "." (-1 # 4)))])).

Definition silent_whisper : WhisperModel :=
  mkWhisperModel (fun _ _ => inr (gen_of_list ["Hello"; " world"])).

Definition example_env : Env := {|
  NEXA_RUN_CHAT_TEMPLATE_MAP := ∅;
  NEXA_RUN_MODEL_MAP_VLM := ∅;
  NEXA_RUN_PROJECTOR_MAP := ∅;
  NEXA_RUN_COMPLETION_TEMPLATE_MAP := ∅;
  NEXA_RUN_MODEL_PRECISION_MAP := ∅;
  NEXA_RUN_MODEL_MAP_FUNCTION_CALLING := ∅;
  is_gpu_available := true;
  pull_model := fun name _ => inr ("/models/" +:+ name, Some "NLP");
  Llama_init := fun a =>
    if (la_n_gpu_layers a <? 0)%Z then inl (Exc RuntimeError "no CUDA device")
    else inr echo_llama;
  ChatHandler_init := fun cls path => inr (mkProjector cls path);
  StableDiffusion_init := fun path wtype n => inr (mkStableDiffusion path wtype n);
  WhisperModel_init := fun _ => inr silent_whisper;
  cpu_count := 4;
  repr_model := class_name;
  str_format := fun t p => inr (t +:+ p);
  uuid4 := "id-0";
  time := fun n => inject_Z (1700000000 + Z.of_nat n);
  json_dumps := fun c => String.concat "," (map (fun ch => token_text (sse_delta_content ch))
                                                (sse_choices c));
  none_not_allowed := fun field => field +:+ ": none is not an allowed value";
  splitext_ext := fun _ => ".wav";
  mktemp_name := fun _ suffix => inr ("/tmp/tmp0" +:+ suffix);
  write_fault := fun _ _ => None;
  str_lower := lower_ascii;
  unbound_local := fun name =>
    "cannot access local variable '" +:+ name
    +:+ "' where it is not associated with a value"
|}.

Definition example_globals (m : option ModelHandle) (cf : option string) : Globals :=
  mkGlobals m cf None "gemma" (Some 2048) false (Some "NLP") false "".

Definition example_world (m : option ModelHandle) (cf : option string) : World :=
  mkWorld (example_globals m cf) ∅ [].

Definition example_request (p : string) (s : option bool) : GenerationRequest :=
  mkGenerationRequest p 1%Q 128 50 1%Q (Some []) (Some false) (Some 4) s.

(** The worlds and requests of the examples. *)
Definition llama_world : World := example_world (Some (HLlama echo_llama)) None.
Definition whisper_world : World := example_world (Some (HWhisperModel silent_whisper)) None.
Definition unloaded_world : World := example_world None None.

Definition out_of_range_request : GenerationRequest :=
  mkGenerationRequest "Hi" (-1)%Q (-3) (-5) 7%Q (Some []) (Some false) (Some 4) (Some false).

Definition logprobs_request : GenerationRequest :=
  mkGenerationRequest "Hi" 1%Q 128 50 1%Q (Some []) (Some true) (Some 4) (Some false).

Definition chat_request_of (msgs : list Message) : ChatCompletionRequest :=
  mkChatCompletionRequest msgs (Some 128) (Some (1 # 10)%Q) (Some false) (Some [])
                          (Some false) (Some 4).

Definition example_upload : UploadFile := mkUploadFile "speech.wav" (inr "RIFF").

Definition gpu_args : LlamaArgs :=
  mkLlamaArgs "/models/gemma" None false None (-1) (Some true) (Some 2048).

Definition example_call (p : string) (t : float) (n k : Z) (tp : float)
    (lp : option bool) : Event :=
  EvCreateCompletion (mkCompletionParams p t n k tp true (Some []) lp (Some 4)).

(** * Further observations *)

(** The exception a generator ends with, when it does not end normally. *)
Fixpoint raised {A} (g : gen A) : option Exception :=
  match g with
  | GStop => None
  | GYield _ rest => raised rest
  | GRaise e => Some e
  end.

(** The message of the [ValueError] for a missing model. *)
Definition model_not_loaded : string :=
  "Model is not loaded. Please check the model path and try again.".

(** The [stream] argument of a generation call. *)
Definition stream_received (ev : Event) : option bool :=
  match ev with
  | EvCreateChatCompletion p => Some (cp_stream p)
  | EvCreateCompletion p => Some (tp_stream p)
  | _ => None
  end.

(** The model types [load_model] has a branch for. *)
Definition known_model_type (mt : option string) : bool :=
  str_eq mt "NLP" || str_eq mt "Computer Vision" || str_eq mt "Multimodal"
  || str_eq mt "Audio".

Section LoadObservations.
Context `{env : Env}.

(** What the try-then-fall-back block ends with: the first [Llama] that
    could be constructed, or the exception of the attempt on the CPU. *)
Definition loaded_llama (args : Z -> LlamaArgs) : Exception + Llama :=
  match Llama_init (args first_n_gpu_layers) with
  | inr l => inr l
  | inl _ => Llama_init (args 0)
  end.

(** The events of the block. *)
Definition load_llama_events (args : Z -> LlamaArgs) : list Event :=
  match Llama_init (args first_n_gpu_layers) with
  | inr _ => [EvLlamaInit (args first_n_gpu_layers)]
  | inl e => [EvLlamaInit (args first_n_gpu_layers); fallback_notice e;
              EvLlamaInit (args 0)]
  end.

(** [model_path in NEXA_RUN_MODEL_MAP_FUNCTION_CALLING]. *)
Definition is_function_calling (g : Globals) : bool :=
  bool_decide (is_Some (NEXA_RUN_MODEL_MAP_FUNCTION_CALLING !! model_path g)).

(** The key of the template maps: [model_path.split(":")[0].lower()]. *)
Definition model_name (g : Globals) : string := str_lower (split_colon_head (model_path g)).

(** The [chat_format] argument of the [Llama] of the NLP branch. *)
Definition nlp_chat_format (g : Globals) : option string :=
  if is_function_calling g then Some "chatml-function-calling"
  else NEXA_RUN_CHAT_TEMPLATE_MAP !! model_name g.

(** The keyword arguments of the [Llama] of the NLP branch. *)
Definition nlp_args (g : Globals) (downloaded_path : string) (n_gpu_layers : Z)
  : LlamaArgs :=
  mkLlamaArgs downloaded_path None false (nlp_chat_format g) n_gpu_layers (Some true)
              (n_ctx g).

(** A [Llama] is only ever constructed with [n_gpu_layers] the value of
    [-1 if is_gpu_available() else 0], or [0]. *)
Definition gpu_layers_ok (ev : Event) : Prop :=
  match ev with
  | EvLlamaInit a => la_n_gpu_layers a = first_n_gpu_layers \/ la_n_gpu_layers a = 0
  | _ => True
  end.

End LoadObservations.

(** * Starting the service: [run_nexa_ai_service] and [startup_event] *)

(** What lies outside the source for the parts below: [os.path.abspath],
    the image entry points of a [StableDiffusion], decoding and encoding
    of images, [base64.b64encode] and [str.strip]. *)
Definition Image := string.

(** Keyword arguments of [StableDiffusion.txt_to_img] and [img_to_img]. *)
Record ImageParams := mkImageParams {
  ip_prompt : string;
  ip_negative_prompt : option string;
  ip_cfg_scale : float;
  ip_width : Z;
  ip_height : Z;
  ip_sample_steps : Z;
  ip_seed : Z
}.

Class Platform := {
  (** [os.path.abspath] *)
  abspath : string -> string;
  (** [model.txt_to_img(prompt=..., ...)] and [model.img_to_img(image=..., ...)] *)
  txt_to_img : StableDiffusion -> ImageParams -> Exception + list Image;
  img_to_img : StableDiffusion -> Image -> ImageParams -> Exception + list Image;
  (** [Image.open] on the content of a file *)
  Image_decode : string -> Exception + Image;
  (** the bytes [image.save(path)] writes *)
  png_of : Image -> string;
  (** [base64.b64encode(data).decode("utf-8")] *)
  b64encode : string -> string;
  (** [s.strip()], on any text *)
  strip : string -> string
}.

(** The process: the world of the service and [os.environ]. *)
Record Process := mkProcess {
  proc_world : World;
  environ : gmap string string
}.

(** The keyword arguments [**kwargs] of [run_nexa_ai_service]; [None] for
    a key that is not passed. *)
Record ServiceKwargs := mkServiceKwargs {
  kw_nctx : option Z;
  kw_host : option string;
  kw_port : option Z;
  kw_reload : option bool
}.

(** The call [uvicorn.run(app, host=host, port=port, reload=reload)]. *)
Record UvicornRun := mkUvicornRun {
  run_host : string;
  run_port : Z;
  run_reload : bool
}.

(** [str(b)] for a [bool]. *)
Definition str_bool (b : bool) : string := if b then "True" else "False".

Definition set_proc_globals (p : Process) (g : Globals) : Process :=
  mkProcess (mkWorld g (fs (proc_world p)) (trace (proc_world p))) (environ p).

Section Startup.
Context `{env : Env} `{platform : Platform}.

(** [run_nexa_ai_service], up to the call of [uvicorn.run], whose arguments
    it returns.  The assignments to the globals and to [os.environ] are
    made in the order of the source, so an exception leaves those made
    before it. *)
Definition run_nexa_ai_service (model_path_arg : option string) (is_local_path_arg : bool)
    (model_type_arg : option string) (huggingface : bool) (kwargs : ServiceKwargs)
    (p : Process) : (Exception + UvicornRun) * Process :=
  let g := globals (proc_world p) in
  (* is_local_path = is_local_path_arg; is_huggingface = huggingface *)
  let g := mkGlobals (model g) (chat_format g) (completion_template g) (model_path g)
                     (n_ctx g) is_local_path_arg (model_type g) huggingface
                     (projector_path g) in
  let checked : Exception + (string * option string) :=
    if is_local_path_arg || huggingface then
      if negb (truthy_str model_path_arg) then
        inl (Exc ValueError
               "model_path must be provided when using --local_path or --huggingface")
      else if is_local_path_arg && negb (truthy_str model_type_arg) then
        inl (Exc ValueError "--model_type must be provided when using --local_path")
      else
        inr (if is_local_path_arg then abspath (default "" model_path_arg)
             else default "" model_path_arg,
             model_type_arg)
    else
      inr (if truthy_str model_path_arg then default "" model_path_arg else "gemma", None) in
  match checked with
  | inl e => (inl e, set_proc_globals p g)
  | inr (mp, mt) =>
      let environ' :=
        <["HUGGINGFACE" := str_bool huggingface]>
          (<["MODEL_TYPE" := if truthy_str mt then default "" mt else ""]>
             (<["IS_LOCAL_PATH" := str_bool is_local_path_arg]>
                (<["MODEL_PATH" := mp]> (environ p)))) in
      let g := mkGlobals (model g) (chat_format g) (completion_template g) mp
                         (Some (default 2048 (kw_nctx kwargs))) is_local_path_arg mt
                         huggingface (projector_path g) in
      (inr (mkUvicornRun (default "0.0.0.0" (kw_host kwargs))
                         (default 8000 (kw_port kwargs))
                         (default false (kw_reload kwargs))),
       mkProcess (mkWorld g (fs (proc_world p)) (trace (proc_world p))) environ')
  end.

(** [os.getenv(key, default)]. *)
Definition getenv (p : Process) (key default_value : string) : string :=
  default default_value (environ p !! key).

(** The globals [startup_event] assigns from the environment before it
    loads the model. *)
Definition startup_globals (p : Process) : Globals :=
  let g := globals (proc_world p) in
  mkGlobals (model g) (chat_format g) (completion_template g)
            (getenv p "MODEL_PATH" "gemma")
            (n_ctx g)
            (String.eqb (lower_ascii (getenv p "IS_LOCAL_PATH" "False")) "true")
            (Some (getenv p "MODEL_TYPE" ""))
            (String.eqb (lower_ascii (getenv p "HUGGINGFACE" "False")) "true")
            (getenv p "PROJECTOR_PATH" "").

(** [startup_event]. *)
Definition startup_event (p : Process) : (Exception + unit) * Process :=
  match load_model (mkWorld (startup_globals p) (fs (proc_world p))
                            (trace (proc_world p))) with
  | (r, w) => (r, mkProcess w (environ p))
  end.

(** Running the service in this process ([reload] off): the arguments are
    checked and published, then the application starts and its startup
    event loads the model. *)
Definition launch (model_path_arg : option string) (is_local_path_arg : bool)
    (model_type_arg : option string) (huggingface : bool) (kwargs : ServiceKwargs)
    (p : Process) : (Exception + UvicornRun) * Process :=
  match run_nexa_ai_service model_path_arg is_local_path_arg model_type_arg huggingface
                            kwargs p with
  | (inr run, p1) =>
      match startup_event p1 with
      | (inr _, p2) => (inr run, p2)
      | (inl e, p2) => (inl e, p2)
      end
  | r => r
  end.

End Startup.

(** * Image generation: [nexa_run_image_generation], [txt2img], [img2img] *)

(** [class ImageGenerationRequest(BaseModel)], after validation. *)
Record ImageGenerationRequest := mkImageGenerationRequest {
  ig_prompt : string;
  ig_image_path : option string;
  ig_cfg_scale : float;
  ig_width : Z;
  ig_height : Z;
  ig_sample_steps : Z;
  ig_seed : Z;
  ig_negative_prompt : option string
}.

(** [class ImageResponse(BaseModel)]. *)
Record ImageResponse := mkImageResponse {
  base64 : string;
  url : string
}.

(** The dict [{"created": ..., "data": [...]}] the image endpoints return. *)
Record ImageGenerationResponse := mkImageGenerationResponse {
  ir_created : float;
  ir_data : list ImageResponse
}.

(** What a path of the file system holds. *)
Inductive Entry :=
| Dir
| File (content : string).

(** The calls and log entries of the image endpoints. *)
Inductive ImgEvent :=
| IvTxtToImg (p : ImageParams)
| IvImgToImg (image : Image) (p : ImageParams)
| IvLog (lvl : LogLevel) (msg : string).

(** The world of the image endpoints: the globals, the file system with
    the content of its files, the number of readings of the clock so far,
    and the trace. *)
Record ImgWorld := mkImgWorld {
  img_globals : Globals;
  disk : gmap string Entry;
  clock : nat;
  img_trace : list ImgEvent
}.

Definition IM (A : Type) : Type := ImgWorld -> (Exception + A) * ImgWorld.

Definition iret {A} (a : A) : IM A := fun s => (inr a, s).

Definition ibind {A B} (m : IM A) (k : A -> IM B) : IM B :=
  fun s => match m s with
           | (inr a, s') => k a s'
           | (inl e, s') => (inl e, s')
           end.

#[global] Instance IM_ret : MRet IM := @iret.
#[global] Instance IM_bind : MBind IM := fun A B k m => ibind m k.

Definition iraise {A} (e : Exception) : IM A := fun s => (inl e, s).

Definition ilift {A} (r : Exception + A) : IM A := fun s => (r, s).

Definition iemit (ev : ImgEvent) : IM unit :=
  fun s => (inr tt, mkImgWorld (img_globals s) (disk s) (clock s) (img_trace s ++ [ev])).

Definition itry_except {A} (m : IM A) (h : Exception -> IM A) : IM A :=
  fun s => match m s with
           | (inl e, s') => h e s'
           | r => r
           end.

(** [os.path.exists(path)]. *)
Definition path_exists (path : string) : IM bool :=
  fun s => (inr (bool_decide (is_Some (disk s !! path))), s).

(** [os.makedirs(path)] for a path that does not exist. *)
Definition makedirs (path : string) : IM unit :=
  fun s => (inr tt, mkImgWorld (img_globals s) (<[path := Dir]> (disk s)) (clock s)
                               (img_trace s)).

(** [open(path, "rb").read()]. *)
Definition read_file (path : string) : IM string :=
  fun s => match disk s !! path with
           | Some (File content) => (inr content, s)
           | Some Dir =>
               (inl (Exc OSError ("[Errno 21] Is a directory: '" +:+ path +:+ "'")), s)
           | None =>
               (inl (Exc OSError ("[Errno 2] No such file or directory: '" +:+ path +:+ "'")),
                s)
           end.

(** Writing a file named [name] in the directory [dir]: the directory has to
    be one, and the path must not be a directory. *)
Definition write_file (dir name content : string) : IM unit :=
  fun s =>
    let path := dir +:+ "/" +:+ name in
    match disk s !! dir with
    | Some Dir =>
        match disk s !! path with
        | Some Dir =>
            (inl (Exc OSError ("[Errno 21] Is a directory: '" +:+ path +:+ "'")), s)
        | _ => (inr tt, mkImgWorld (img_globals s) (<[path := File content]> (disk s))
                                   (clock s) (img_trace s))
        end
    | Some (File _) =>
        (inl (Exc OSError ("[Errno 20] Not a directory: '" +:+ path +:+ "'")), s)
    | None =>
        (inl (Exc OSError ("[Errno 2] No such file or directory: '" +:+ path +:+ "'")), s)
    end.

(** The directory of the generated images. *)
Definition output_dir : string := "nexa_server_output".

(** The name [f"{prefix}_{id}.png"]. *)
Definition image_name (prefix : string) (id : Z) : string :=
  prefix +:+ "_" +:+ pretty id +:+ ".png".

(** The engine calls of a trace of the image endpoints. *)
Definition is_image_call (ev : ImgEvent) : bool :=
  match ev with
  | IvLog _ _ => false
  | _ => true
  end.

Definition image_calls (tr : list ImgEvent) : list ImgEvent := List.filter is_image_call tr.

Section Images.
Context `{env : Env} `{platform : Platform}.

(** [time.time()]: the next reading of the clock. *)
Definition now : IM float :=
  fun s => (inr (time (clock s)),
            mkImgWorld (img_globals s) (disk s) (S (clock s)) (img_trace s)).

(** The condition [image_path and image_path.strip()] fails: the path is
    [None] or empty, or [strip()] leaves nothing of it. *)
Definition blank (image_path : option string) : bool :=
  negb (truthy_str image_path && negb (String.eqb (strip (default "" image_path)) "")).

(** [Image.open(path)]. *)
Definition Image_open (path : string) : IM Image :=
  content ← read_file path; ilift (Image_decode content).

(** [model.txt_to_img] and [model.img_to_img] as attribute lookups. *)
Definition getattr_txt_to_img (m : ModelHandle)
  : Exception + (ImageParams -> Exception + list Image) :=
  match m with
  | HStableDiffusion sd => inr (txt_to_img sd)
  | h => inl (no_attribute (class_name h) "txt_to_img")
  end.

Definition getattr_img_to_img (m : ModelHandle)
  : Exception + (Image -> ImageParams -> Exception + list Image) :=
  match m with
  | HStableDiffusion sd => inr (img_to_img sd)
  | h => inl (no_attribute (class_name h) "img_to_img")
  end.

Definition nexa_run_image_generation (prompt : string) (image_path : option string)
    (cfg_scale : float) (width height sample_steps seed : Z)
    (negative_prompt : option string) : IM (list Image) :=
  fun s =>
    match model (img_globals s) with
    | None => (inl (Exc ValueError model_not_loaded), s)
    | Some m =>
        let params :=
          mkImageParams prompt negative_prompt cfg_scale width height sample_steps seed in
        (if negb (blank image_path) then
           let image_path := strip (default "" image_path) in
           found ← path_exists image_path;
           if negb found then
             iraise (Exc ValueError ("Image file not found: " +:+ image_path))
           else
             image ← Image_open image_path;
             f ← ilift (getattr_img_to_img m);
             iemit (IvImgToImg image params);;
             ilift (f image params)
         else
           f ← ilift (getattr_txt_to_img m);
           iemit (IvTxtToImg params);;
           ilift (f params)) s
    end.

(** [base64_encode_image(image_path)]. *)
Definition base64_encode_image (image_path : string) : IM string :=
  content ← read_file image_path; mret (b64encode content).

(** The loop [for image in generated_images:] of the two endpoints. *)
Fixpoint save_images (prefix : string) (generated_images : list Image)
  : IM (list ImageResponse) :=
  match generated_images with
  | [] => mret []
  | image :: rest =>
      t ← now;
      let id := int_of_float t in
      found ← path_exists output_dir;
      (if negb found then makedirs output_dir else mret tt);;
      let name := image_name prefix id in
      let image_path := output_dir +:+ "/" +:+ name in
      write_file output_dir name (png_of image);;
      b ← base64_encode_image image_path;
      let img := mkImageResponse b (abspath image_path) in
      data ← save_images prefix rest;
      mret (img :: data)
  end.

(** The body the two endpoints share; they differ in the prefix of the
    file names and in the wording of the log entry. *)
Definition image_endpoint (prefix label : string) (request : ImageGenerationRequest)
  : IM ImageGenerationResponse :=
  itry_except
    (generated_images ← nexa_run_image_generation (ig_prompt request)
        (ig_image_path request) (ig_cfg_scale request) (ig_width request)
        (ig_height request) (ig_sample_steps request) (ig_seed request)
        (ig_negative_prompt request);
     created ← now;
     data ← save_images prefix generated_images;
     mret (mkImageGenerationResponse created data))
    (fun e =>
       iemit (IvLog ERROR ("Error in " +:+ label +:+ " generation: " +:+ str_exc e));;
       iraise (HTTPException 500 (str_exc e))).

(** [POST /v1/txt2img] and [POST /v1/img2img]. *)
Definition txt2img (request : ImageGenerationRequest) : IM ImageGenerationResponse :=
  image_endpoint "txt2img" "txt2img" request.

Definition img2img (request : ImageGenerationRequest) : IM ImageGenerationResponse :=
  image_endpoint "img2img" "img2img" request.

(** The keyword arguments the engine receives for a request. *)
Definition image_params (request : ImageGenerationRequest) : ImageParams :=
  mkImageParams (ig_prompt request) (ig_negative_prompt request) (ig_cfg_scale request)
                (ig_width request) (ig_height request) (ig_sample_steps request)
                (ig_seed request).

End Images.

Section ImageObservations.
Context `{env : Env} `{platform : Platform}.

(** The path of the [i]-th image saved by a request that started when the
    clock had been read [n] times: the clock is read once for [created]
    and once more for each image. *)
Definition saved_name (prefix : string) (n i : nat) : string :=
  image_name prefix (int_of_float (time (S n + i))).

(** The file system after the images were saved, the first of them at the
    [k]-th reading of the clock. *)
Fixpoint saved_disk (prefix : string) (k : nat) (images : list Image)
    (d : gmap string Entry) : gmap string Entry :=
  match images with
  | [] => d
  | image :: rest =>
      saved_disk prefix (S k) rest
        (<[output_dir +:+ "/" +:+ image_name prefix (int_of_float (time k))
           := File (png_of image)]> (<[output_dir := Dir]> d))
  end.

(** The output directory can be used: it is absent or a directory, and no
    path in it is a directory. *)
Definition output_dir_usable (d : gmap string Entry) : Prop :=
  (d !! output_dir = None \/ d !! output_dir = Some Dir)
  /\ forall name, d !! (output_dir +:+ "/" +:+ name) <> Some Dir.

End ImageObservations.

(** * The bindings of [llava_cpp.py] *)

(** The ctypes types the module names; [llava_image_embed] is the
    [Structure] the module declares. *)
Inductive CType :=
| c_bool
| c_char_p
| c_float
| c_int
| c_uint8
| c_void_p
| POINTER (t : CType)
| llava_image_embed.

(** [llava_image_embed._fields_]. *)
Definition llava_image_embed_fields : list (string * CType) :=
  [("embed", POINTER c_float); ("n_image_pos", c_int)].

(** [clip_ctx_p_ctypes = c_void_p]. *)
Definition clip_ctx_p_ctypes : CType := c_void_p.

(** A Python function of the module, [def name(...): ...]. *)
Record PyFunction := mkPyFunction {
  py_name : string
}.

(** A foreign function object of ctypes: its [argtypes] ([None] until they
    are assigned), its [restype] ([None] is [void]) and the [__wrapped__]
    that [functools.wraps] leaves on it. *)
Record FuncPtr := mkFuncPtr {
  fp_argtypes : option (list CType);
  fp_restype : option CType;
  fp_wrapped : option PyFunction
}.

(** The function object as ctypes creates it: no [argtypes], and [c_int]
    for [restype]. *)
Definition new_func : FuncPtr := mkFuncPtr None (Some c_int) None.

(** A [ctypes.CDLL]: the symbols the shared library exports, and the
    function objects created so far, which the object keeps under their
    names ([getattr] gives the same object each time). *)
Record CDLL := mkCDLL {
  exports : gset string;
  cached : gmap string FuncPtr
}.

(** What a name of the module is bound to: a function object of the
    library, referred to by the name under which the library keeps it, or
    a Python function. *)
Inductive Binding :=
| Native (symbol : string)
| Python (f : PyFunction).

(** Statements that use the library: they may mutate its function objects
    and may raise. *)
Definition LM (A : Type) : Type := CDLL -> (Exception + A) * CDLL.

Definition lret {A} (a : A) : LM A := fun lib => (inr a, lib).

Definition lbind {A B} (m : LM A) (k : A -> LM B) : LM B :=
  fun lib => match m lib with
             | (inr a, lib') => k a lib'
             | (inl e, lib') => (inl e, lib')
             end.

#[global] Instance LM_ret : MRet LM := @lret.
#[global] Instance LM_bind : MBind LM := fun A B k m => lbind m k.

(** [func.argtypes = argtypes], [func.restype = restype] and
    [functools.wraps(f)(func)] on the function object kept under [func]. *)
Definition set_argtypes (func : string) (argtypes : list CType) : LM unit :=
  fun lib =>
    (inr tt,
     mkCDLL (exports lib)
            (alter (fun fp => mkFuncPtr (Some argtypes) (fp_restype fp) (fp_wrapped fp))
                   func (cached lib))).

Definition set_restype (func : string) (restype : option CType) : LM unit :=
  fun lib =>
    (inr tt,
     mkCDLL (exports lib)
            (alter (fun fp => mkFuncPtr (fp_argtypes fp) restype (fp_wrapped fp))
                   func (cached lib))).

Definition wraps (f : PyFunction) (func : string) : LM unit :=
  fun lib =>
    (inr tt,
     mkCDLL (exports lib)
            (alter (fun fp => mkFuncPtr (fp_argtypes fp) (fp_restype fp) (Some f))
                   func (cached lib))).

(** One decorated declaration of the module: the symbol, the types given
    to the decorator, and the name of the [def] under it. *)
Record Declaration := mkDeclaration {
  d_symbol : string;
  d_argtypes : list CType;
  d_restype : option CType;
  d_def : string
}.

(** The function object a declaration leaves in the library. *)
Definition declared (d : Declaration) : FuncPtr :=
  mkFuncPtr (Some (d_argtypes d)) (d_restype d) (Some (mkPyFunction (d_def d))).

(** The names bound and the function objects left by a list of
    declarations that all found their symbols. *)
Definition bound_names (decls : list Declaration) (namespace : gmap string Binding)
  : gmap string Binding :=
  foldl (fun ns d => <[d_def d := Native (d_symbol d)]> ns) namespace decls.

Definition declared_objects (decls : list Declaration) (objects : gmap string FuncPtr)
  : gmap string FuncPtr :=
  foldl (fun c d => <[d_symbol d := declared d]> c) objects decls.

(** The first declaration whose symbol the library does not export. *)
Definition first_missing (exported : gset string) (decls : list Declaration)
  : option Declaration :=
  List.find (fun d => negb (bool_decide (d_symbol d ∈ exported))) decls.

(** What lies outside the source: [llama_cpp.llama_context_p_ctypes], of
    the module [llama_cpp], and the message of the [AttributeError] ctypes
    raises for a symbol the library lacks, which depends on the platform. *)
Class Ctypes := {
  llama_context_p_ctypes : CType;
  undefined_symbol : string -> string
}.

Section LlavaCpp.
Context `{ctypes : Ctypes}.

(** [getattr(lib, name)] for the name of a symbol (not an attribute of the
    [CDLL] object itself): the function object, created and kept on first
    use; [AttributeError] when the library has no such symbol. *)
Definition lib_getattr (name : string) : LM string :=
  fun lib =>
    match cached lib !! name with
    | Some _ => (inr name, lib)
    | None =>
        if bool_decide (name ∈ exports lib)
        then (inr name, mkCDLL (exports lib) (<[name := new_func]> (cached lib)))
        else (inl (Exc AttributeError (undefined_symbol name)), lib)
    end.

(** [ctypes_function_for_shared_library(lib)(name, argtypes, restype,
    enabled)(f)]. *)
Definition ctypes_function (name : string) (argtypes : list CType)
    (restype : option CType) (enabled : bool) (f : PyFunction) : LM Binding :=
  if enabled then
    func ← lib_getattr name;
    set_argtypes func argtypes;;
    set_restype func restype;;
    wraps f func;;
    mret (Native func)
  else
    mret (Python f).

(** The seven decorated declarations of the module, in its order; none
    passes [enabled]. *)
Definition declarations : list Declaration :=
  [ mkDeclaration "llava_validate_embed_size"
      [llama_context_p_ctypes; clip_ctx_p_ctypes] (Some c_bool)
      "llava_validate_embed_size";
    mkDeclaration "llava_image_embed_make_with_bytes"
      [clip_ctx_p_ctypes; c_int; POINTER c_uint8; c_int] (Some (POINTER llava_image_embed))
      "llava_image_embed_make_with_bytes";
    mkDeclaration "llava_image_embed_make_with_filename"
      [clip_ctx_p_ctypes; c_int; c_char_p] (Some (POINTER llava_image_embed))
      "llava_image_embed_make_with_filename";
    mkDeclaration "llava_image_embed_free"
      [POINTER llava_image_embed] None
      "llava_image_embed_free";
    mkDeclaration "llava_eval_image_embed"
      [llama_context_p_ctypes; POINTER llava_image_embed; c_int; POINTER c_int]
      (Some c_bool)
      "llava_eval_image_embed";
    mkDeclaration "clip_model_load"
      [c_char_p; c_int] (Some clip_ctx_p_ctypes)
      "clip_model_load";
    mkDeclaration "clip_free"
      [clip_ctx_p_ctypes] None
      "clip_free" ].

(** Executing decorated declarations one after the other: each binds the
    name of its [def] to what the decorator returned. *)
Fixpoint declare (decls : list Declaration) (namespace : gmap string Binding)
  : LM (gmap string Binding) :=
  match decls with
  | [] => mret namespace
  | d :: rest =>
      b ← ctypes_function (d_symbol d) (d_argtypes d) (d_restype d) true
                          (mkPyFunction (d_def d));
      declare rest (<[d_def d := b]> namespace)
  end.

(** Importing the module, given the library [load_library] returned. *)
Definition import_llava_cpp : LM (gmap string Binding) := declare declarations ∅.

End LlavaCpp.


(** * More concrete inputs *)

(** The example environment on another machine, with another hub,
    another [Llama] constructor or another clock. *)
Definition env_of (gpu : bool)
    (pull : string -> bool -> Exception + (string * option string))
    (init : LlamaArgs -> Exception + Llama) (clock_reading : nat -> float) : Env := {|
  NEXA_RUN_CHAT_TEMPLATE_MAP := ∅;
  NEXA_RUN_MODEL_MAP_VLM := ∅;
  NEXA_RUN_PROJECTOR_MAP := ∅;
  NEXA_RUN_COMPLETION_TEMPLATE_MAP := ∅;
  NEXA_RUN_MODEL_PRECISION_MAP := ∅;
  NEXA_RUN_MODEL_MAP_FUNCTION_CALLING := ∅;
  is_gpu_available := gpu;
  pull_model := pull;
  Llama_init := init;
  ChatHandler_init := @ChatHandler_init example_env;
  StableDiffusion_init := @StableDiffusion_init example_env;
  WhisperModel_init := @WhisperModel_init example_env;
  cpu_count := 4;
  repr_model := class_name;
  str_format := @str_format example_env;
  uuid4 := "id-0";
  time := clock_reading;
  json_dumps := @json_dumps example_env;
  none_not_allowed := @none_not_allowed example_env;
  splitext_ext := @splitext_ext example_env;
  mktemp_name := @mktemp_name example_env;
  write_fault := @write_fault example_env;
  str_lower := @str_lower example_env;
  unbound_local := @unbound_local example_env
|}.

Definition out_of_memory : Exception := Exc RuntimeError "out of memory".

(** A machine on which no [Llama] can be constructed, with a GPU and
    without one. *)
Definition broken_env : Env :=
  env_of true (@pull_model example_env) (fun _ => inl out_of_memory) (@time example_env).

Definition cpu_only_env : Env :=
  env_of false (@pull_model example_env) (fun _ => inl out_of_memory) (@time example_env).

(** A hub that reports every model as Multimodal. *)
Definition multimodal_hub_env : Env :=
  env_of true (fun name _ => inr ("/models/" +:+ name, Some "Multimodal"))
         (@Llama_init example_env) (@time example_env).

(** The example environment with a [json.dumps] that writes the braces
    of the dict. *)
Definition braces_env : Env := {|
  NEXA_RUN_CHAT_TEMPLATE_MAP := ∅;
  NEXA_RUN_MODEL_MAP_VLM := ∅;
  NEXA_RUN_PROJECTOR_MAP := ∅;
  NEXA_RUN_COMPLETION_TEMPLATE_MAP := ∅;
  NEXA_RUN_MODEL_PRECISION_MAP := ∅;
  NEXA_RUN_MODEL_MAP_FUNCTION_CALLING := ∅;
  is_gpu_available := true;
  pull_model := @pull_model example_env;
  Llama_init := @Llama_init example_env;
  ChatHandler_init := @ChatHandler_init example_env;
  StableDiffusion_init := @StableDiffusion_init example_env;
  WhisperModel_init := @WhisperModel_init example_env;
  cpu_count := 4;
  repr_model := class_name;
  str_format := @str_format example_env;
  uuid4 := "id-0";
  time := @time example_env;
  json_dumps := fun chunk => String "{" (@json_dumps example_env chunk +:+ "}");
  none_not_allowed := @none_not_allowed example_env;
  splitext_ext := @splitext_ext example_env;
  mktemp_name := @mktemp_name example_env;
  write_fault := @write_fault example_env;
  str_lower := @str_lower example_env;
  unbound_local := @unbound_local example_env
|}.

(** A clock that stays within one second. *)
Definition frozen_clock_env : Env :=
  env_of true (@pull_model example_env) (@Llama_init example_env)
         (fun _ => inject_Z 1700000000).

(** A stand-in for [str.strip()] in the examples, whose paths are ASCII
    text: it removes the ASCII white space at both ends. *)
Definition ascii_space (c : ascii) : bool :=
  let n := nat_of_ascii c in
  ((9 <=? n) && (n <=? 13) || (28 <=? n) && (n <=? 32))%nat.

Fixpoint lstrip_ascii (s : string) : string :=
  match s with
  | EmptyString => EmptyString
  | String c s' => if ascii_space c then lstrip_ascii s' else s
  end.

Fixpoint rstrip_ascii (s : string) : string :=
  match s with
  | EmptyString => EmptyString
  | String c s' =>
      match rstrip_ascii s' with
      | EmptyString => if ascii_space c then EmptyString else String c EmptyString
      | r => String c r
      end
  end.

Definition strip_ascii (s : string) : string := rstrip_ascii (lstrip_ascii s).

Definition example_platform : Platform := {|
  abspath := fun path => "/srv/" +:+ path;
  txt_to_img := fun _ _ => inr ["sunrise"; "sunset"];
  img_to_img := fun _ image _ => inr [image];
  Image_decode := fun content => inr content;
  png_of := fun image => "PNG " +:+ image;
  b64encode := fun data => "b64:" +:+ data;
  strip := strip_ascii
|}.

Definition example_ctypes : Ctypes := {|
  llama_context_p_ctypes := c_void_p;
  undefined_symbol := fun name => "undefined symbol: " +:+ name
|}.

(** An engine whose chat producer raises after its first chunk. *)
Definition decode_failed : Exception := Exc RuntimeError "llama_decode failed".

Definition faulty_stream : gen ChatChunk :=
  GYield (mkChatChunk (Some "Hel") LpAbsent) (GRaise decode_failed).

Definition faulty_llama : Llama :=
  mkLlama None (fun _ => inr faulty_stream) (fun _ => inr GStop).

Definition faulty_world : World := example_world (Some (HLlama faulty_llama)) (Some "chatml").

Definition faulty_params : ChatParams :=
  mkChatParams [mkMessage "system" "You are a helpful assistant"; mkMessage "user" "Hi"]
               1%Q 128 50 1%Q true (Some []) (Some false) (Some 4).

(** An engine that closes its stream with a chunk whose ["logprobs"] is
    null. *)
Definition closing_llama : Llama :=
  mkLlama None (fun _ => inr GStop)
    (fun _ => inr (gen_of_list [mkTextChunk "Hi" (LpRec (lp_rec "Hi" (-1 # 2)));
                                mkTextChunk "" LpNone])).

Definition closing_world : World := example_world (Some (HLlama closing_llama)) None.

Definition null_temperature_request : ChatCompletionRequest :=
  mkChatCompletionRequest [mkMessage "user" "Hi"] (Some 128) None (Some false) (Some [])
                          (Some false) (Some 4).

(** Worlds before a load. *)
Definition local_multimodal_world : World :=
  mkWorld (mkGlobals None None None "/models/llava.gguf" (Some 2048) true
                     (Some "Multimodal") false "") ∅ [].

Definition local_text_world : World :=
  mkWorld (mkGlobals None None None "/models/m.gguf" (Some 2048) true (Some "Text")
                     false "") ∅ [].

Definition hub_world : World :=
  mkWorld (mkGlobals None None None "llava" (Some 2048) false None false "") ∅ [].

Definition cpu_args : LlamaArgs := with_n_gpu_layers gpu_args 0.

Definition example_process : Process := mkProcess unloaded_world ∅.

Definition default_kwargs : ServiceKwargs := mkServiceKwargs None None None None.

(** Image requests and their worlds. *)
Definition example_sd : StableDiffusion := mkStableDiffusion "/models/sd" "default" 4.

Definition image_world (d : gmap string Entry) : ImgWorld :=
  mkImgWorld (example_globals (Some (HStableDiffusion example_sd)) None) d 0 [].

Definition image_request (path : option string) : ImageGenerationRequest :=
  mkImageGenerationRequest "A girl, standing in a field of flowers, vivid" path 7%Q
                           256 256 20 0 (Some "").

Definition cat_disk : gmap string Entry := {["/data/cat.png" := File "cat"]}.

(** An upload that can not be read. *)
Definition connection_reset : Exception := Exc OSError "connection reset".

Definition broken_upload : UploadFile := mkUploadFile "speech.wav" (inl connection_reset).

(** A library that exports every symbol of the module, and one without
    [clip_free]. *)
Definition full_library : CDLL :=
  mkCDLL (list_to_set (map d_symbol (@declarations example_ctypes))) ∅.

Definition old_library : CDLL :=
  mkCDLL (list_to_set (map d_symbol (@declarations example_ctypes)) ∖ {["clip_free"]}) ∅.


(** * Properties *)

Ltac unfold_M :=
  unfold mbind, mret, M_bind, M_ret, bind, ret, raise, lift, emit, logging,
    get_globals, set_globals, try_except, try_finally in *.

Section Properties.
Context `{env : Env}.

(** ** The streaming adapter *)

Lemma resp_from_list (_id : string) (units : list Token) (n : nat) :
  resp_from _id n (gen_of_list units)
  = gen_of_list (imap (fun i token => wire_frame (sse_chunk _id (n + i) token)) units
                 ++ [wire_done]).
Proof.
  revert n. induction units as [|token units IH]; intros n; simpl.
  - reflexivity.
  - rewrite IH, Nat.add_0_r. f_equal. f_equal. f_equal.
    apply imap_ext. intros i x _. simpl. do 2 f_equal. lia.
Qed.

Lemma yielded_gen_of_list {A} (l : list A) : yielded (gen_of_list l) = l.
Proof. induction l; simpl; congruence. Qed.

Lemma exhausted_gen_of_list {A} (l : list A) : exhausted (gen_of_list l) = true.
Proof. induction l; simpl; congruence. Qed.

(** The text between ["data: "] and the two line feeds decides a wire
    event. *)
Lemma length_append (a b : string) :
  String.length (a +:+ b) = (String.length a + String.length b)%nat.
Proof.
  induction a as [|x a IH]; [reflexivity|].
  change (S (String.length (a +:+ b)) = S (String.length a + String.length b)).
  now rewrite IH.
Qed.

Lemma append_inj_r (a b t : string) : a +:+ t = b +:+ t -> a = b.
Proof.
  revert b. induction a as [|x a IH]; intros [|y b] H.
  - reflexivity.
  - apply (f_equal String.length) in H.
    change (String y b +:+ t) with (String y (b +:+ t)) in H.
    change ("" +:+ t) with t in H. simpl in H. rewrite length_append in H. lia.
  - apply (f_equal String.length) in H.
    change (String x a +:+ t) with (String x (a +:+ t)) in H.
    change ("" +:+ t) with t in H. simpl in H. rewrite length_append in H. lia.
  - change (String x (a +:+ t) = String y (b +:+ t)) in H.
    injection H as -> H. f_equal. now apply IH.
Qed.

Lemma frame_is_not_sentinel (chunk : SseChunk) :
  json_dumps chunk <> "[DONE]" -> wire_frame chunk <> wire_done.
Proof.
  intros Hjson H. apply Hjson.
  change wire_done with ("data: " +:+ "[DONE]" +:+ nl +:+ nl) in H. unfold wire_frame in H.
  apply (String.app_inj "data: ") in H. now apply append_inj_r in H.
Qed.

(** C8. For every finite producer of units, the adapter's output is one
    event for each unit, in the producer's order: the text [data: ], the
    JSON of the dict built for the unit and two line feeds; it is followed
    by the sentinel, the text [data: [DONE]] and two line feeds, and
    nothing else.  The output has one event more than the producer has
    units, its last event is the sentinel, and it ends normally.  Since
    the JSON of a dict is never the text [[DONE]], no event before the last
    is the sentinel. *)
Theorem streaming_adapter_frames_each_unit_then_done (units : list Token) :
  let lf := String "010"%char EmptyString in
  let event (i : nat) (token : Token) : string :=
    "data: "
    +:+ json_dumps (mkSseChunk uuid4 "chat.completion.chunk" (time i) [mkSseChoice token])
    +:+ lf +:+ lf in
  let sentinel : string := "data: [DONE]" +:+ lf +:+ lf in
  let output := yielded (_resp_async_generator (gen_of_list units)) in
  _resp_async_generator (gen_of_list units) = gen_of_list (imap event units ++ [sentinel])
  /\ length output = S (length units)
  /\ exhausted (_resp_async_generator (gen_of_list units)) = true
  /\ last output = Some sentinel
  /\ ((forall chunk, json_dumps chunk <> "[DONE]") ->
      forall i, (i < length units)%nat -> output !! i <> Some sentinel).
Proof.
  intros lf event sentinel output.
  assert (E : _resp_async_generator (gen_of_list units)
              = gen_of_list (imap event units ++ [sentinel])).
  { unfold _resp_async_generator. rewrite resp_from_list. reflexivity. }
  subst output. rewrite E, yielded_gen_of_list, exhausted_gen_of_list.
  split; [reflexivity|]. split; [rewrite length_app, length_imap; simpl; lia|].
  split; [reflexivity|]. split; [apply last_snoc|].
  intros Hjson i Hi. rewrite lookup_app_l by now rewrite length_imap.
  rewrite list_lookup_imap. destruct (units !! i) as [token|]; simpl; [|discriminate].
  intros H. assert (H' : event i token = sentinel) by congruence.
  exact (frame_is_not_sentinel (sse_chunk uuid4 i token) (Hjson _) H').
Qed.

(** ** Draining a producer *)

Lemma append_assoc (a b c : string) : (a +:+ b) +:+ c = a +:+ (b +:+ c).
Proof.
  induction a as [|x a IH]; [reflexivity|].
  change (String x ((a +:+ b) +:+ c) = String x (a +:+ (b +:+ c))). now rewrite IH.
Qed.

Lemma append_empty_r (a : string) : a +:+ "" = a.
Proof.
  induction a as [|x a IH]; [reflexivity|].
  change (String x (a +:+ "") = String x a). now rewrite IH.
Qed.

Lemma drain_text_drains flag streamer text0 acc0 text acc :
  drain_text flag streamer text0 acc0 = inr (text, acc) ->
  exhausted streamer = true
  /\ text = text0 +:+ join (map chunk_text (yielded streamer)).
Proof.
  revert text0 acc0. induction streamer as [|chunk rest IH|e]; intros text0 acc0 E; simpl in *.
  - inversion E; subst. now rewrite append_empty_r.
  - destruct (accumulate_logprobs flag (text_logprobs chunk) acc0) as [e|acc1]; [discriminate|].
    destruct (IH _ _ E) as [Hex Ht]. split; [exact Hex|].
    now rewrite Ht, append_assoc.
  - discriminate.
Qed.

Lemma drain_chat_drains flag streamer text0 acc0 text acc :
  drain_chat flag streamer text0 acc0 = inr (text, acc) ->
  exhausted streamer = true
  /\ text = text0 +:+ join (map delta_text (yielded streamer)).
Proof.
  revert text0 acc0. induction streamer as [|chunk rest IH|e]; intros text0 acc0 E; simpl in *.
  - inversion E; subst. now rewrite append_empty_r.
  - destruct (accumulate_logprobs flag (chat_logprobs chunk) acc0) as [e|acc1]; [discriminate|].
    destruct (IH _ _ E) as [Hex Ht]. split; [exact Hex|].
    rewrite Ht. unfold delta_text. destruct (delta_content chunk); simpl.
    + now rewrite append_assoc.
    + reflexivity.
  - discriminate.
Qed.

(** ** The completion branch and the [stream] flag *)

(** On the completion branch, whatever is returned is the result record of
    the drained producer. *)
Lemma completion_branch_returns_result (w : World) (prompt : string) (temperature : float)
    (stop_words : option (list string)) (max_new_tokens top_k : Z) (top_p : float)
    (logprobs : option bool) (top_logprobs : option Z) (stream : option bool)
    (r : GenReturn) (w' : World) :
  truthy_str (chat_format (globals w)) = false ->
  nexa_run_text_generation prompt temperature stop_words max_new_tokens top_k top_p
                           logprobs top_logprobs stream w = (inr r, w') ->
  exists l formatted_prompt streamer merged,
    model (globals w) = Some (HLlama l)
    /\ format_prompt (globals w) prompt = inr formatted_prompt
    /\ create_completion l
         (mkCompletionParams formatted_prompt temperature max_new_tokens top_k top_p
                             true stop_words logprobs top_logprobs) = inr streamer
    /\ exhausted streamer = true
    /\ drain_text (truthy_bool logprobs) streamer "" None
       = inr (join (map chunk_text (yielded streamer)), merged)
    /\ r = RetResult (join (map chunk_text (yielded streamer))) merged.
Proof.
  intros Hcf. unfold nexa_run_text_generation. unfold_M. simpl.
  destruct (model (globals w)) as [[l|sd|wm]|]; try discriminate;
    rewrite Hcf; destruct (format_prompt (globals w) prompt) as [e|fp]; simpl;
    try discriminate.
  destruct (create_completion l _) as [e|streamer] eqn:Ecall; simpl; [discriminate|].
  destruct (drain_text _ streamer "" None) as [e|[text merged]] eqn:Edrain; simpl;
    [discriminate|].
  intros E. inversion E; subst.
  destruct (drain_text_drains _ _ _ _ _ _ Edrain) as [Hex Ht]. simpl in Ht. subst text.
  exists l, fp, streamer, merged. repeat split; assumption.
Qed.


(** ** What a generation call does to the world *)

Lemma gen_of_chunks {A} (streamer : gen A) (l : list A) :
  chunks_of streamer = Some l -> streamer = gen_of_list l.
Proof.
  unfold chunks_of. revert l.
  induction streamer as [|a rest IH|e]; intros l; simpl.
  - now intros [= <-].
  - destruct (exhausted rest) eqn:E; [|discriminate].
    intros [= <-]. simpl. f_equal. now apply IH.
  - discriminate.
Qed.

Lemma engine_calls_app (tr tr' : list Event) :
  engine_calls (tr ++ tr') = engine_calls tr ++ engine_calls tr'.
Proof. apply List.filter_app. Qed.

(** Without a [Llama] loaded the call fails before it reaches any engine,
    and leaves the world as it was. *)
Lemma nexa_run_not_llama (w : World) (h : ModelHandle) (request : GenerationRequest) :
  model (globals w) = Some h -> is_llama h = false ->
  exists e, nexa_run_text_generation_kwargs request w = (inl e, w)
    /\ (truthy_str (chat_format (globals w)) = false ->
        truthy_str (completion_template (globals w)) = false ->
        e = no_attribute (class_name h) "create_completion").
Proof.
  intros Hm Hl. unfold nexa_run_text_generation_kwargs, nexa_run_text_generation.
  unfold_M. simpl. rewrite Hm.
  destruct (truthy_str (chat_format (globals w))) eqn:Hcf.
  - destruct h as [l|sd|wm]; [discriminate| |]; simpl; eexists; (split; [reflexivity|]);
      discriminate.
  - unfold format_prompt.
    destruct (truthy_str (completion_template (globals w))) eqn:Hct.
    + destruct (str_format _ _) as [e|fp]; simpl.
      * eexists; split; [reflexivity|]; discriminate.
      * destruct h as [l|sd|wm]; [discriminate| |]; simpl; eexists;
          (split; [reflexivity|]); discriminate.
    + destruct h as [l|sd|wm]; [discriminate| |]; simpl; eexists;
        split; reflexivity.
Qed.

(** With a [Llama] loaded the engine is called exactly once, with the call
    [generation_call] describes. *)
Lemma nexa_run_calls_llama (w : World) (l : Llama) (request : GenerationRequest)
    (call : Event) :
  model (globals w) = Some (HLlama l) ->
  generation_call (globals w) request = inr call ->
  exists r, nexa_run_text_generation_kwargs request w
            = (r, mkWorld (globals w) (fs w) (trace w ++ [call])).
Proof.
  intros Hm. unfold generation_call, nexa_run_text_generation_kwargs,
    nexa_run_text_generation. unfold_M. simpl. rewrite Hm.
  destruct (truthy_str (chat_format (globals w))); simpl.
  - intros [= <-].
    destruct (create_chat_completion l _) as [e|streamer]; simpl; [eauto|].
    destruct (truthy_bool (stream request)); simpl; [eauto|].
    destruct (drain_chat _ _ _ _) as [e|r]; simpl; eauto.
  - destruct (format_prompt (globals w) (prompt request)) as [e|fp]; [discriminate|].
    intros [= <-]. simpl.
    destruct (create_completion l _) as [e|streamer]; simpl; [eauto|].
    destruct (drain_text _ _ _ _) as [e|r]; simpl; eauto.
Qed.

(** In every case the call leaves globals and files alone and adds at most
    one event, an engine call. *)
Lemma nexa_run_world (w : World) (request : GenerationRequest) :
  exists r evs, nexa_run_text_generation_kwargs request w
                = (r, mkWorld (globals w) (fs w) (trace w ++ evs))
    /\ (evs = [] \/ exists call, generation_call (globals w) request = inr call
                               /\ evs = [call]).
Proof.
  destruct w as [g f tr]; simpl.
  destruct (model g) as [[l|sd|wm]|] eqn:Hm.
  - destruct (generation_call g request) as [e|call] eqn:Hc.
    + exists (inl e), []. rewrite app_nil_r. split; [|now left].
      revert Hc. unfold generation_call, nexa_run_text_generation_kwargs,
        nexa_run_text_generation. unfold_M. simpl. rewrite Hm.
      destruct (truthy_str (chat_format g)); [discriminate|].
      destruct (format_prompt g (prompt request)); [|discriminate].
      now intros [= <-].
    + destruct (nexa_run_calls_llama (mkWorld g f tr) l request call Hm Hc) as [r Hr].
      exists r, [call]. split; [exact Hr|]. right. now exists call.
  - destruct (nexa_run_not_llama (mkWorld g f tr) (HStableDiffusion sd) request Hm eq_refl)
      as (e & He & _).
    exists (inl e), []. rewrite app_nil_r. split; [exact He|now left].
  - destruct (nexa_run_not_llama (mkWorld g f tr) (HWhisperModel wm) request Hm eq_refl)
      as (e & He & _).
    exists (inl e), []. rewrite app_nil_r. split; [exact He|now left].
  - eexists _, []. rewrite app_nil_r. split; [|now left].
    unfold nexa_run_text_generation_kwargs, nexa_run_text_generation. unfold_M. simpl.
    rewrite Hm. reflexivity.
Qed.

(** ** The text endpoints *)

(** What [generate_text] does beyond the generation call: on an error, one
    log entry and an [HTTPException] with status 500. *)
Lemma generate_text_outcome (w : World) (request : GenerationRequest) :
  exists r r' evs logs,
    nexa_run_text_generation_kwargs request w
    = (r', mkWorld (globals w) (fs w) (trace w ++ evs))
    /\ generate_text request w
       = (r, mkWorld (globals w) (fs w) ((trace w ++ evs) ++ logs))
    /\ (evs = [] \/ exists call, generation_call (globals w) request = inr call
                               /\ evs = [call])
    /\ ((exists resp, r = inr resp /\ logs = [])
        \/ (exists detail, r = inl (HTTPException 500 detail)
             /\ logs = [EvLog ERROR ("Error in text generation: " +:+ detail)])).
Proof.
  destruct (nexa_run_world w request) as (r' & evs & E & Hevs).
  unfold generate_text. unfold_M.
  destruct (truthy_bool (stream request)); rewrite E; destruct r' as [e|ret]; simpl.
  - eexists _, _, evs, _. repeat split; [exact Hevs|]. right. eauto.
  - eexists _, _, evs, []. rewrite app_nil_r. repeat split; [exact Hevs|]. left. eauto.
  - eexists _, _, evs, _. repeat split; [exact Hevs|]. right. eauto.
  - destruct ret as [streamer|text lp]; simpl.
    + eexists _, _, evs, _. repeat split; [exact Hevs|]. right. eauto.
    + eexists _, _, evs, []. rewrite app_nil_r. repeat split; [exact Hevs|]. left. eauto.
Qed.

(** The same for [chat_completions], once the keyword arguments are built. *)
Lemma chat_completions_outcome (w : World) (request : ChatCompletionRequest)
    (generation_kwargs : GenerationRequest) :
  GenerationRequest_init (chat_prompt (messages request)) (chat_temperature request)
    (max_tokens request) (chat_stop_words request) (chat_logprobs_flag request)
    (chat_top_logprobs request) (chat_stream request) = inr generation_kwargs ->
  exists r r' evs logs,
    nexa_run_text_generation_kwargs generation_kwargs w
    = (r', mkWorld (globals w) (fs w) (trace w ++ evs))
    /\ chat_completions request w
       = (r, mkWorld (globals w) (fs w) ((trace w ++ evs) ++ logs))
    /\ (evs = [] \/ exists call, generation_call (globals w) generation_kwargs = inr call
                               /\ evs = [call])
    /\ ((exists resp, r = inr resp /\ logs = [])
        \/ (exists detail, r = inl (HTTPException 500 detail)
             /\ logs = [EvLog ERROR ("Error in chat completions: " +:+ detail)])).
Proof.
  intros Hk.
  destruct (nexa_run_world w generation_kwargs) as (r' & evs & E & Hevs).
  unfold chat_completions. unfold_M. rewrite Hk.
  destruct (truthy_bool (chat_stream request)); rewrite E; destruct r' as [e|ret]; simpl.
  - eexists _, _, evs, _. repeat split; [exact Hevs|]. right. eauto.
  - eexists _, _, evs, []. rewrite app_nil_r. repeat split; [exact Hevs|]. left. eauto.
  - eexists _, _, evs, _. repeat split; [exact Hevs|]. right. eauto.
  - destruct ret as [streamer|text lp]; simpl.
    + eexists _, _, evs, _. repeat split; [exact Hevs|]. right. eauto.
    + eexists _, _, evs, []. rewrite app_nil_r. repeat split; [exact Hevs|]. left. eauto.
Qed.

Lemma chat_kwargs_built (request : ChatCompletionRequest) (t : float) (n : Z) :
  chat_temperature request = Some t -> max_tokens request = Some n ->
  GenerationRequest_init (chat_prompt (messages request)) (chat_temperature request)
    (max_tokens request) (chat_stop_words request) (chat_logprobs_flag request)
    (chat_top_logprobs request) (chat_stream request)
  = inr (chat_generation_kwargs request t n).
Proof. intros -> ->. reflexivity. Qed.

Lemma chat_prompt_empty : chat_prompt [] = "".
Proof. reflexivity. Qed.


Lemma generation_call_is_engine_call (g : Globals) (request : GenerationRequest)
    (call : Event) :
  generation_call g request = inr call -> is_engine_call call = true.
Proof.
  unfold generation_call. destruct (truthy_str (chat_format g)).
  - now intros [= <-].
  - destruct (format_prompt g (prompt request)); [discriminate|]. now intros [= <-].
Qed.


Lemma engine_calls_log (tr : list Event) (lvl : LogLevel) (msg : string) :
  engine_calls (tr ++ [EvLog lvl msg]) = engine_calls tr.
Proof. rewrite engine_calls_app. simpl. apply app_nil_r. Qed.



(** C2 (as amended). A text request that reaches a [StableDiffusion] or a
    [WhisperModel] handle is answered with [HTTPException] of status 500:
    the service has no check of the handle's kind, the attribute lookup on
    the handle fails, and the handler turns the failure into the structured
    error.  No engine is called and nothing escapes the handler uncaught;
    the only effect is the handler's log entry.  With no chat format and no
    completion template (the state [load_model] leaves for these kinds) the
    detail is Python's message for the missing [create_completion]. *)
Theorem text_request_on_other_kind_is_500 (w : World) (h : ModelHandle)
    (request : GenerationRequest) (chat_request : ChatCompletionRequest) :
  model (globals w) = Some h -> is_llama h = false ->
  (exists detail,
      generate_text request w
      = (inl (HTTPException 500 detail),
         mkWorld (globals w) (fs w)
                 (trace w ++ [EvLog ERROR ("Error in text generation: " +:+ detail)])))
  /\ (exists detail,
        chat_completions chat_request w
        = (inl (HTTPException 500 detail),
           mkWorld (globals w) (fs w)
                   (trace w ++ [EvLog ERROR ("Error in chat completions: " +:+ detail)])))
  /\ (truthy_str (chat_format (globals w)) = false ->
      truthy_str (completion_template (globals w)) = false ->
      (generate_text request w).1
      = inl (HTTPException 500
               ("'" +:+ class_name h +:+ "' object has no attribute 'create_completion'"))).
Proof.
  intros Hm Hl.
  destruct (nexa_run_not_llama w h request Hm Hl) as (e & He & Hmsg).
  assert (Hg : generate_text request w
    = (inl (HTTPException 500 (str_exc e)),
       mkWorld (globals w) (fs w)
               (trace w ++ [EvLog ERROR ("Error in text generation: " +:+ str_exc e)]))).
  { unfold generate_text. unfold_M.
    destruct (truthy_bool (stream request)); rewrite He; reflexivity. }
  split; [eauto|]. split.
  - unfold chat_completions. unfold_M.
    destruct (GenerationRequest_init _ _ _ _ _ _ _) as [e'|kw]; simpl; [eauto|].
    destruct (nexa_run_not_llama w h kw Hm Hl) as (e' & He' & _).
    destruct (truthy_bool (chat_stream chat_request)); rewrite He'; simpl; eauto.
  - intros Hcf Hct. rewrite Hg, (Hmsg Hcf Hct). reflexivity.
Qed.




(** ** Merging the log-probabilities *)

Lemma extend_fields_by_name (acc r : gmap string (list LpItem)) :
  extend_fields acc r = extend_by_name acc r.
Proof.
  unfold extend_fields, extend_by_name. apply map_eq. intros name.
  rewrite !map_lookup_imap.
  destruct (acc !! name) as [l|]; simpl; [|reflexivity].
  destruct (r !! name) as [l'|]; simpl; [reflexivity|].
  now rewrite app_nil_r.
Qed.

Lemma drain_text_pieces flag (chunks : list TextChunk) text acc :
  drain_text flag (gen_of_list chunks) text acc
  = drain_pieces flag (map (fun c => (chunk_text c, text_logprobs c)) chunks) text acc.
Proof.
  revert text acc. induction chunks as [|c chunks IH]; intros text acc; simpl.
  - reflexivity.
  - destruct (accumulate_logprobs flag (text_logprobs c) acc); [reflexivity|]. apply IH.
Qed.

Lemma drain_chat_pieces flag (chunks : list ChatChunk) text acc :
  drain_chat flag (gen_of_list chunks) text acc
  = drain_pieces flag (map (fun c => (delta_text c, chat_logprobs c)) chunks) text acc.
Proof.
  revert text acc. induction chunks as [|c chunks IH]; intros text acc; simpl.
  - reflexivity.
  - destruct (accumulate_logprobs flag (chat_logprobs c) acc); [reflexivity|].
    rewrite IH. unfold delta_text.
    destruct (delta_content c); simpl; [reflexivity|]. now rewrite append_empty_r.
Qed.

(** Once a record is held, every later record extends it. *)
Lemma drain_pieces_from_record (pieces : list (string * LogprobsField)) text
    (acc : gmap string (list LpItem)) :
  forallb not_null (map snd pieces) = true ->
  drain_pieces true pieces text (Some acc)
  = inr (text +:+ join (map fst pieces),
         Some (foldl extend_by_name acc (records_of (map snd pieces)))).
Proof.
  revert text acc. induction pieces as [|[t field] pieces IH]; intros text acc; simpl.
  - intros _. now rewrite append_empty_r.
  - intros [Hf Hrest]%andb_prop.
    destruct field as [| |r]; simpl in *; [|discriminate|].
    + rewrite (IH _ _ Hrest). now rewrite append_assoc.
    + rewrite (IH _ _ Hrest), extend_fields_by_name. now rewrite append_assoc.
Qed.

Lemma drain_pieces_merges (pieces : list (string * LogprobsField)) text :
  nulls_only_lead (map snd pieces) = true ->
  drain_pieces true pieces text None
  = inr (text +:+ join (map fst pieces),
         merge_logprobs_spec (records_of (map snd pieces))).
Proof.
  revert text. induction pieces as [|[t field] pieces IH]; intros text; simpl.
  - intros _. now rewrite append_empty_r.
  - destruct field as [| |r]; simpl; intros Hl.
    + rewrite (IH _ Hl). now rewrite append_assoc.
    + rewrite (IH _ Hl). now rewrite append_assoc.
    + rewrite (drain_pieces_from_record _ _ _ Hl). now rewrite append_assoc.
Qed.

(** A chunk whose ["logprobs"] is [None], after a record with a field was
    taken: the membership test on [None] raises, and the request fails. *)
Lemma null_after_record_raises (pieces : list (string * LogprobsField)) (text t : string)
    (acc : gmap string (list LpItem)) :
  acc <> ∅ ->
  drain_pieces true ((t, LpNone) :: pieces) text (Some acc)
  = inl (Exc TypeError "argument of type 'NoneType' is not iterable").
Proof. intros Hne. simpl. destruct (decide (acc = ∅)); [contradiction|reflexivity]. Qed.

(** The merged record, field by field: the fields are those of the first
    record, and each holds the first record's list followed by the lists of
    the subsequent records for the same name, in order. *)
Lemma merge_logprobs_lookup (first : gmap string (list LpItem))
    (subsequent : list (gmap string (list LpItem))) (name : string) :
  foldl extend_by_name first subsequent !! name
  = (fun l => l ++ concat (omap (fun r => r !! name) subsequent)) <$> first !! name.
Proof.
  revert first. induction subsequent as [|r rest IH]; intros first; simpl.
  - destruct (first !! name); simpl; [|reflexivity]. now rewrite app_nil_r.
  - rewrite IH. unfold extend_by_name. rewrite map_lookup_imap.
    destruct (first !! name) as [l|]; simpl; [|reflexivity].
    destruct (r !! name) as [l'|]; simpl.
    + now rewrite <- app_assoc.
    + now rewrite app_nil_r.
Qed.

(** The non-streaming generation call, when the engine's producer is
    finite and carries no null after a record. *)
Lemma nexa_run_drains (w : World) (l : Llama) (request : GenerationRequest)
    (call : Event) (pieces : list (string * LogprobsField)) :
  model (globals w) = Some (HLlama l) ->
  truthy_bool (stream request) = false ->
  truthy_bool (logprobs request) = true ->
  generation_call (globals w) request = inr call ->
  produced l call = Some pieces ->
  nulls_only_lead (map snd pieces) = true ->
  nexa_run_text_generation_kwargs request w
  = (inr (RetResult (join (map fst pieces))
                    (merge_logprobs_spec (records_of (map snd pieces)))),
     mkWorld (globals w) (fs w) (trace w ++ [call])).
Proof.
  intros Hm Hs Hlp Hc Hp Hn.
  unfold nexa_run_text_generation_kwargs, nexa_run_text_generation. unfold_M. simpl.
  rewrite Hm. revert Hc. unfold generation_call.
  destruct (truthy_str (chat_format (globals w))); simpl.
  - intros [= <-]. simpl in Hp.
    destruct (create_chat_completion l _) as [e|streamer]; [discriminate|].
    destruct (chunks_of streamer) as [chunks|] eqn:Hch; [|discriminate].
    simpl in Hp. injection Hp as <-.
    rewrite Hs, Hlp, (gen_of_chunks _ _ Hch), drain_chat_pieces.
    rewrite (drain_pieces_merges _ _ Hn). reflexivity.
  - destruct (format_prompt (globals w) (prompt request)) as [e|fp]; [discriminate|].
    intros [= <-]. simpl in Hp. simpl.
    destruct (create_completion l _) as [e|streamer]; [discriminate|].
    destruct (chunks_of streamer) as [chunks|] eqn:Hch; [|discriminate].
    simpl in Hp. injection Hp as <-.
    rewrite Hlp, (gen_of_chunks _ _ Hch), drain_text_pieces.
    rewrite (drain_pieces_merges _ _ Hn). reflexivity.
Qed.

(** X30. A non-streaming request that carries the [logprobs] flag, on a
    finite producer none of whose chunks has a null ["logprobs"] after a
    chunk with a record: the producer is drained, the first record is
    taken, and each field of that record is extended by the list each
    subsequent chunk has for the same name.  The merged record (with the
    concatenated text) is the [logprobs] of the single choice of the
    response, of the completion endpoint and of the chat endpoint alike. *)
Theorem nonstreaming_logprobs_merged (w : World) (l : Llama) (request : GenerationRequest)
    (call : Event) (pieces : list (string * LogprobsField)) :
  model (globals w) = Some (HLlama l) ->
  truthy_bool (stream request) = false ->
  truthy_bool (logprobs request) = true ->
  generation_call (globals w) request = inr call ->
  produced l call = Some pieces ->
  nulls_only_lead (map snd pieces) = true ->
  (generate_text request w).1
  = inr (TextCompletion uuid4 "text_completion" (int_of_float (time 0))
           (model_path (globals w))
           [mkTextChoice (join (map fst pieces)) 0
                         (merge_logprobs_spec (records_of (map snd pieces))) "stop"])
  /\ (forall chat_request t n,
        chat_temperature chat_request = Some t -> max_tokens chat_request = Some n ->
        chat_generation_kwargs chat_request t n = request ->
        (chat_completions chat_request w).1
        = inr (ChatCompletion uuid4 "chat.completion" (time 0)
                 [mkChatChoice (mkMessage "assistant" (join (map fst pieces)))
                               (merge_logprobs_spec (records_of (map snd pieces)))])).
Proof.
  intros Hm Hs Hlp Hc Hp Hn.
  pose proof (nexa_run_drains w l request call pieces Hm Hs Hlp Hc Hp Hn) as Hrun.
  split.
  - unfold generate_text. unfold_M. rewrite Hs, Hrun. reflexivity.
  - intros chat_request t n Ht Hmax Hk. unfold chat_completions. unfold_M.
    rewrite (chat_kwargs_built chat_request t n Ht Hmax), Hk.
    replace (truthy_bool (chat_stream chat_request)) with false
      by (rewrite <- Hs, <- Hk; reflexivity).
    cbv beta iota. rewrite Hrun. reflexivity.
Qed.

(** ** The audio endpoints and their temporary file *)

Lemma temp_files_app (tr tr' : list Event) :
  temp_files (tr ++ tr') = temp_files tr ++ temp_files tr'.
Proof. apply omap_app. Qed.

Lemma unlinked_absent (files : gset string) (name : string) :
  name ∉ files ∖ {[name]}.
Proof. rewrite elem_of_difference, elem_of_singleton. tauto. Qed.

Lemma created_then_unlinked (files : gset string) (name : string) :
  ({[name]} ∪ files) ∖ {[name]} = files ∖ {[name]}.
Proof.
  apply set_eq. intros x.
  rewrite !elem_of_difference, elem_of_union, elem_of_singleton. tauto.
Qed.

(** The engine call of the audio endpoints touches neither the globals nor
    the files. *)
Lemma call_transcribe_world (w : World) (path : string) (params : TranscribeParams) :
  exists r evs,
    call_transcribe path params w = (r, mkWorld (globals w) (fs w) (trace w ++ evs))
    /\ temp_files evs = []
    /\ ((exists text, r = inr (Transcription text)) \/ (exists e, r = inl e)).
Proof.
  unfold call_transcribe. unfold_M. simpl.
  destruct (getattr_transcribe (model (globals w))) as [e|f]; simpl.
  - eexists _, []. rewrite app_nil_r. destruct w; eauto 6.
  - destruct (f path params) as [e|segments]; simpl; [eauto 7|].
    destruct (join_segments segments); simpl; eauto 7.
Qed.

(** The body shared by the two handlers, once the upload is staged: the
    file is unlinked on the way out, whatever the engine did. *)
Lemma staged_then_removed (w : World) (file : UploadFile) (params : TranscribeParams)
    (prefix name data : string) :
  mktemp_name (fs w) (splitext_ext (filename file)) = inr name ->
  file_read file = inr data ->
  write_fault name data = None ->
  let r := try_except_finally (stage_upload file)
             (fun temp_audio_path => call_transcribe temp_audio_path params)
             (fun e => raise (HTTPException 500 (prefix +:+ str_exc e)))
             unlink_local w in
  (name ∉ fs (r.2))
  /\ fs (r.2) = fs w ∖ {[name]}
  /\ temp_files (trace (r.2)) = temp_files (trace w) ++ [name]
  /\ ((exists text, r.1 = inr (Transcription text))
      \/ (exists detail, r.1 = inl (HTTPException 500 detail))).
Proof.
  intros Hname Hread Hwrite.
  unfold try_except_finally, stage_upload, NamedTemporaryFile, file_write.
  unfold_M. simpl. rewrite Hname. simpl. rewrite Hread. simpl. rewrite Hwrite. simpl.
  match goal with
  | |- context [call_transcribe name params ?w0] =>
      destruct (call_transcribe_world w0 name params) as (r & evs & -> & Hevs & Hr)
  end.
  unfold unlink_local, os_unlink.
  destruct Hr as [(text & ->)|(e & ->)]; simpl;
    (destruct (decide (name ∈ {[name]} ∪ fs w)) as [_|Hn];
     [|exfalso; apply Hn, elem_of_union; left; now apply elem_of_singleton]);
    simpl; rewrite !temp_files_app, Hevs; simpl; rewrite !app_nil_r;
    (split; [apply unlinked_absent|]); (split; [apply created_then_unlinked|]);
    (split; [reflexivity|]); eauto.
Qed.

(** X29. Once the upload is staged (the temporary file was created, the
    upload read and written to it), the transcription and the translation
    endpoint alike remove the file on every way out: when the handler
    returns after a successful transcription or after an error of the
    model handle (an engine error or a handle without [transcribe]), the
    temporary file is no longer in the file system, and the handler created
    no other; a request without the file never reaches the handler and
    creates no file. *)
Theorem temp_audio_file_removed (w : World) (file : UploadFile) (beam_size : option Z)
    (language : option string) (temperature : option float) (name data : string) :
  mktemp_name (fs w) (splitext_ext (filename file)) = inr name ->
  file_read file = inr data ->
  write_fault name data = None ->
  (let r := post_audio_transcriptions (Some file) beam_size language temperature w in
   (name ∉ fs (r.2))
   /\ fs (r.2) = fs w ∖ {[name]}
   /\ temp_files (trace (r.2)) = temp_files (trace w) ++ [name]
   /\ ((exists text, r.1 = inr (Transcription text))
       \/ (exists detail, r.1 = inl (HTTPException 500 detail))))
  /\ (let r := post_audio_translations (Some file) beam_size temperature w in
      (name ∉ fs (r.2))
      /\ fs (r.2) = fs w ∖ {[name]}
      /\ temp_files (trace (r.2)) = temp_files (trace w) ++ [name]
      /\ ((exists text, r.1 = inr (Transcription text))
          \/ (exists detail, r.1 = inl (HTTPException 500 detail))))
  /\ post_audio_transcriptions None beam_size language temperature w
     = (inl (HTTPException 422 "Field required"), w)
  /\ post_audio_translations None beam_size temperature w
     = (inl (HTTPException 422 "Field required"), w).
Proof.
  intros Hname Hread Hwrite. split; [|split; [|split; reflexivity]].
  - apply (staged_then_removed w file _ _ name data Hname Hread Hwrite).
  - apply (staged_then_removed w file _ _ name data Hname Hread Hwrite).
Qed.

(** When staging the upload fails after the file was created (here: reading
    the upload raises), [temp_audio_path] is unbound in the [finally]
    block: the handler raises [UnboundLocalError] and the file stays.  This
    exit is neither a transcription that succeeded, nor a validation
    failure, nor an error of the model handle. *)
Lemma staging_failure_leaves_file (w : World) (file : UploadFile) (beam_size : option Z)
    (language : option string) (temperature : option float) (name : string)
    (e : Exception) :
  mktemp_name (fs w) (splitext_ext (filename file)) = inr name ->
  file_read file = inl e ->
  let r := transcribe_audio file beam_size language temperature w in
  (name ∈ fs (r.2))
  /\ r.1 = inl (Exc UnboundLocalError (unbound_local "temp_audio_path")).
Proof.
  intros Hname Hread.
  unfold transcribe_audio, try_except_finally, stage_upload, NamedTemporaryFile.
  unfold_M. simpl. rewrite Hname. simpl. rewrite Hread. simpl.
  split; [|reflexivity].
  apply elem_of_union. left. now apply elem_of_singleton.
Qed.

(** ** Loading with a fall-back to the CPU *)

Lemma llama_inits_app (tr tr' : list Event) :
  llama_inits (tr ++ tr') = llama_inits tr ++ llama_inits tr'.
Proof. apply omap_app. Qed.

Lemma emits_bind {A B} (m : M A) (k : A -> M B) (P Q : list Event -> Prop) :
  emits m P -> (forall a, emits (k a) Q) ->
  emits (m ≫= k) (fun evs => exists e1 e2, evs = e1 ++ e2 /\ P e1 /\ (e2 = [] \/ Q e2)).
Proof.
  intros Hm Hk w. unfold mbind, M_bind, bind.
  destruct (Hm w) as (e1 & E1 & HP).
  destruct (m w) as [[e|a] w1]; simpl in *.
  - exists e1. split; [exact E1|]. exists e1, []. rewrite app_nil_r. auto.
  - destruct (Hk a w1) as (e2 & E2 & HQ).
    exists (e1 ++ e2). split; [now rewrite E2, E1, app_assoc|].
    exists e1, e2. auto.
Qed.

Lemma emits_weaken {A} (m : M A) (P Q : list Event -> Prop) :
  emits m P -> (forall evs, P evs -> Q evs) -> emits m Q.
Proof. intros Hm HPQ w. destruct (Hm w) as (evs & E & HP). eauto. Qed.

Lemma quiet_bind {A B} (m : M A) (k : A -> M B) :
  quiet m -> (forall a, quiet (k a)) -> quiet (m ≫= k).
Proof.
  intros Hm Hk. eapply emits_weaken; [exact (emits_bind _ _ _ _ Hm Hk)|].
  intros evs (e1 & e2 & -> & H1 & [->|H2]); rewrite llama_inits_app, H1; simpl;
    [reflexivity|exact H2].
Qed.

Lemma quiet_still {A} (m : M A) :
  (forall w, trace ((m w).2) = trace w) -> quiet m.
Proof. intros Hm w. exists []. rewrite app_nil_r. auto. Qed.

Lemma quiet_ret {A} (a : A) : quiet (mret a).
Proof. now apply quiet_still. Qed.

Lemma quiet_raise {A} (e : Exception) : quiet (raise (A := A) e).
Proof. now apply quiet_still. Qed.

Lemma quiet_lift {A} (r : Exception + A) : quiet (lift r).
Proof. now apply quiet_still. Qed.

Lemma quiet_get_globals : quiet get_globals.
Proof. now apply quiet_still. Qed.

Lemma quiet_set_globals (g : Globals) : quiet (set_globals g).
Proof. now apply quiet_still. Qed.

Lemma quiet_emit (ev : Event) : llama_init_args ev = None -> quiet (emit ev).
Proof.
  intros Hev w. exists [ev]. split; [reflexivity|].
  unfold llama_inits. simpl. now rewrite Hev.
Qed.

Ltac quiet_step :=
  first [ apply quiet_bind; [|intros ?]
        | apply quiet_ret | apply quiet_raise | apply quiet_lift
        | apply quiet_get_globals | apply quiet_set_globals
        | apply quiet_emit; reflexivity ].

Lemma quiet_set_model (m : ModelHandle) : quiet (set_model m).
Proof. unfold set_model. repeat quiet_step. Qed.

Lemma quiet_set_chat_format (cf : option string) : quiet (set_chat_format cf).
Proof. unfold set_chat_format. repeat quiet_step. Qed.

Lemma quiet_set_completion_template (ct : option string) :
  quiet (set_completion_template ct).
Proof. unfold set_completion_template. repeat quiet_step. Qed.

Lemma quiet_set_model_type (mt : option string) : quiet (set_model_type mt).
Proof. unfold set_model_type. repeat quiet_step. Qed.

Lemma quiet_logging (lvl : LogLevel) (msg : string) : quiet (logging lvl msg).
Proof. unfold logging. quiet_step. Qed.

Lemma quiet_log_model_loaded (prefix : string) : quiet (log_model_loaded prefix).
Proof. unfold log_model_loaded. quiet_step; [quiet_step|apply quiet_logging]. Qed.

Lemma quiet_call_pull_model (name : string) (hf : bool) : quiet (call_pull_model name hf).
Proof. unfold call_pull_model. repeat quiet_step. Qed.

Lemma quiet_getitem (d : gmap string string) (key : string) : quiet (getitem d key).
Proof. unfold getitem. destruct (d !! key); quiet_step. Qed.

Lemma quiet_resolve_paths : quiet resolve_paths.
Proof.
  unfold resolve_paths. apply quiet_bind; [apply quiet_get_globals|]. intros g.
  repeat first
    [ apply quiet_getitem | apply quiet_call_pull_model | apply quiet_set_model_type
    | quiet_step
    | match goal with |- quiet (if ?c then _ else _) => destruct c end ].
Qed.

Lemma shape_of_quiet (evs : list Event) : llama_inits evs = [] -> load_shape evs.
Proof. intros Hq. exists evs, [], []. rewrite app_nil_r. auto. Qed.

Lemma shape_of_attempt (mid : list Event) : attempt mid -> load_shape mid.
Proof. intros Ha. exists [], mid, []. rewrite app_nil_r. auto. Qed.

Lemma shape_bind_l {A B} (m : M A) (k : A -> M B) :
  quiet m -> (forall a, emits (k a) load_shape) -> emits (m ≫= k) load_shape.
Proof.
  intros Hm Hk. eapply emits_weaken; [exact (emits_bind _ _ _ _ Hm Hk)|].
  intros evs (e1 & e2 & -> & H1 & [->|(before & mid & after & -> & Hb & Ha & Hmid)]).
  - rewrite app_nil_r. now apply shape_of_quiet.
  - exists (e1 ++ before), mid, after. rewrite llama_inits_app, H1, Hb, <- app_assoc. auto.
Qed.

Lemma shape_bind_r {A B} (m : M A) (k : A -> M B) :
  emits m load_shape -> (forall a, quiet (k a)) -> emits (m ≫= k) load_shape.
Proof.
  intros Hm Hk. eapply emits_weaken; [exact (emits_bind _ _ _ _ Hm Hk)|].
  intros evs (e1 & e2 & -> & (before & mid & after & -> & Hb & Ha & Hmid) & He2).
  exists before, mid, (after ++ e2). rewrite llama_inits_app, Ha, <- !app_assoc.
  repeat split; auto. destruct He2 as [->|He2]; [reflexivity|exact He2].
Qed.

(** The block that loads a [Llama]: one attempt, and on its failure the
    notice and one attempt on the CPU. *)
Lemma load_llama_attempt (args : Z -> LlamaArgs) :
  (forall k, args k = with_n_gpu_layers (args 0) k) -> emits (load_llama args) attempt.
Proof.
  intros Hargs w. unfold load_llama, call_Llama, set_model. unfold_M. simpl.
  assert (Hcpu : with_n_gpu_layers (args first_n_gpu_layers) 0 = args 0).
  { rewrite (Hargs first_n_gpu_layers), (Hargs 0). reflexivity. }
  destruct (Llama_init (args first_n_gpu_layers)) as [e|l] eqn:E1; simpl.
  - exists [EvLlamaInit (args first_n_gpu_layers); fallback_notice e; EvLlamaInit (args 0)].
    split.
    + destruct (Llama_init (args 0)); simpl; rewrite <- !app_assoc; reflexivity.
    + exists (args first_n_gpu_layers). right. exists e. rewrite Hcpu. auto.
  - exists [EvLlamaInit (args first_n_gpu_layers)]. split; [reflexivity|].
    exists (args first_n_gpu_layers). left. eauto.
Qed.

Lemma load_llama_shape (args : Z -> LlamaArgs) :
  (forall k, args k = with_n_gpu_layers (args 0) k) -> emits (load_llama args) load_shape.
Proof.
  intros Hargs. eapply emits_weaken; [exact (load_llama_attempt args Hargs)|].
  apply shape_of_attempt.
Qed.

Lemma load_nlp_shape (downloaded_path : string) : emits (load_nlp downloaded_path) load_shape.
Proof.
  unfold load_nlp. apply shape_bind_l; [apply quiet_get_globals|]. intros g.
  destruct (decide (is_Some (NEXA_RUN_MODEL_MAP_FUNCTION_CALLING !! model_path g))).
  - apply shape_bind_l; [apply quiet_set_chat_format|]. intros _.
    apply shape_bind_r; [now apply load_llama_shape|]. intros _.
    apply quiet_log_model_loaded.
  - apply shape_bind_l; [apply quiet_set_chat_format|]. intros _.
    apply shape_bind_l; [apply quiet_set_completion_template|]. intros _.
    apply shape_bind_r; [now apply load_llama_shape|]. intros _.
    apply quiet_bind; [apply quiet_log_model_loaded|]. intros _.
    apply quiet_bind; [apply quiet_get_globals|]. intros g'.
    apply quiet_bind; [apply quiet_set_chat_format|]. intros _.
    match goal with |- quiet (if ?c then _ else _) => destruct c end.
    + apply quiet_bind; [apply quiet_set_chat_format|]. intros _. apply quiet_logging.
    + apply quiet_ret.
Qed.

Lemma load_multimodal_shape (downloaded_path : string) (projector : option string) :
  emits (load_multimodal downloaded_path projector) load_shape.
Proof.
  unfold load_multimodal. apply shape_bind_l; [apply quiet_get_globals|]. intros g.
  apply shape_bind_l; [destruct projector; quiet_step|]. intros ppath.
  apply shape_bind_l.
  { destruct (negb (String.eqb ppath "")); repeat quiet_step. }
  intros pr.
  apply shape_bind_l; [apply quiet_set_chat_format|]. intros _.
  apply shape_bind_r; [now apply load_llama_shape|]. intros _.
  apply quiet_log_model_loaded.
Qed.

Lemma quiet_load_computer_vision (downloaded_path : string) :
  quiet (load_computer_vision downloaded_path).
Proof.
  unfold load_computer_vision.
  repeat first [apply quiet_set_model | apply quiet_log_model_loaded | quiet_step].
Qed.

Lemma quiet_load_audio (downloaded_path : string) : quiet (load_audio downloaded_path).
Proof.
  unfold load_audio.
  repeat first [apply quiet_set_model | apply quiet_log_model_loaded | quiet_step].
Qed.

Lemma quiet_shape {A} (m : M A) : quiet m -> emits m load_shape.
Proof. intros Hq. eapply emits_weaken; [exact Hq|]. apply shape_of_quiet. Qed.

Lemma load_model_shape : emits load_model load_shape.
Proof.
  unfold load_model. apply shape_bind_l; [apply quiet_resolve_paths|]. intros paths.
  apply shape_bind_l; [apply quiet_get_globals|]. intros g.
  destruct (str_eq (model_type g) "NLP"); [apply load_nlp_shape|].
  destruct (str_eq (model_type g) "Computer Vision");
    [apply quiet_shape, quiet_load_computer_vision|].
  destruct (str_eq (model_type g) "Multimodal"); [apply load_multimodal_shape|].
  destruct (str_eq (model_type g) "Audio"); [apply quiet_shape, quiet_load_audio|].
  apply quiet_shape, quiet_raise.
Qed.

Lemma llama_init_in_inits (a : LlamaArgs) (tr : list Event) :
  In (EvLlamaInit a) tr -> In a (llama_inits tr).
Proof.
  intros Hin. apply list_elem_of_In, list_elem_of_omap.
  exists (EvLlamaInit a). split; [now apply list_elem_of_In|reflexivity].
Qed.

(** C3. In a load, when the GPU-accelerated attempt (the construction of
    the [Llama] with [n_gpu_layers = -1]) raises an exception, the events
    of the load are: the failed attempt, then the logged notice of the
    fall-back, then one attempt with the same arguments and
    [n_gpu_layers = 0]; no [Llama] is constructed before or after these, so
    the load makes exactly one GPU attempt and exactly one CPU attempt. *)
Theorem gpu_failure_falls_back_to_cpu_once (w : World) (args : LlamaArgs)
    (e : Exception) (events : list Event) :
  trace ((load_model w).2) = trace w ++ events ->
  In (EvLlamaInit args) events ->
  la_n_gpu_layers args = -1 ->
  Llama_init args = inl e ->
  exists before after,
    events = before ++ [EvLlamaInit args; fallback_notice e;
                        EvLlamaInit (with_n_gpu_layers args 0)] ++ after
    /\ llama_inits before = [] /\ llama_inits after = []
    /\ llama_inits events = [args; with_n_gpu_layers args 0].
Proof.
  intros Htrace Hin Hgpu Hfail.
  destruct (load_model_shape w) as (evs & E & before & mid & after & -> & Hb & Ha & Hmid).
  rewrite E in Htrace. apply app_inv_head in Htrace. subst events.
  assert (Hmidin : In (EvLlamaInit args) mid).
  { apply in_app_or in Hin as [Hin|Hin].
    - apply llama_init_in_inits in Hin. rewrite Hb in Hin. destruct Hin.
    - apply in_app_or in Hin as [Hin|Hin]; [exact Hin|].
      apply llama_init_in_inits in Hin. rewrite Ha in Hin. destruct Hin. }
  destruct Hmid as [->|(first & [(-> & l & Hok)|(e' & Hf & ->)])].
  - destruct Hmidin.
  - destruct Hmidin as [[= ->]|[]]. congruence.
  - destruct Hmidin as [[= ->]|[[=]|[[= <-]|[]]]].
    + assert (e' = e) as -> by congruence.
      exists before, after. repeat split; auto.
      rewrite !llama_inits_app, Hb, Ha. reflexivity.
    + simpl in Hgpu. discriminate.
Qed.

(** ** Streaming against draining *)

Lemma framed_chunks_text (streamer : gen ChatChunk) :
  map token_text (yielded (gen_map TokChunk streamer)) = map delta_text (yielded streamer).
Proof.
  induction streamer as [|c rest IH|e]; simpl; [reflexivity| |reflexivity].
  now rewrite IH.
Qed.

(** On the chat branch the two paths agree: the streaming response frames
    the chunks of the producer, and the text of the non-streaming response
    is the concatenation of the content these chunks carry. *)
Lemma chat_branch_stream_is_drained (w : World) (l : Llama)
    (streaming plain : GenerationRequest) (p : ChatParams) (streamer : gen ChatChunk) :
  model (globals w) = Some (HLlama l) ->
  generation_call (globals w) streaming = inr (EvCreateChatCompletion p) ->
  generation_call (globals w) plain = inr (EvCreateChatCompletion p) ->
  create_chat_completion l p = inr streamer ->
  truthy_bool (stream streaming) = true ->
  truthy_bool (stream plain) = false ->
  (generate_text streaming w).1
  = inr (StreamingResponse (_resp_async_generator (gen_map TokChunk streamer))
                           "application/x-ndjson")
  /\ forall id object created model_name text lp,
       (generate_text plain w).1
       = inr (TextCompletion id object created model_name [mkTextChoice text 0 lp "stop"]) ->
       text = join (map token_text (yielded (gen_map TokChunk streamer))).
Proof.
  intros Hm Hs Hp Hcall Hts Htp.
  assert (Hcf : truthy_str (chat_format (globals w)) = true).
  { revert Hs. unfold generation_call.
    destruct (truthy_str (chat_format (globals w))); [reflexivity|].
    destruct (format_prompt _ _); discriminate. }
  revert Hs Hp. unfold generation_call. rewrite Hcf. intros [= Hs] [= Hp].
  split.
  - unfold generate_text, nexa_run_text_generation_kwargs, nexa_run_text_generation.
    unfold_M. rewrite Hts. simpl. rewrite Hm, Hcf. simpl. rewrite Hs, Hcall. simpl.
    reflexivity.
  - intros id object created model_name text lp.
    unfold generate_text, nexa_run_text_generation_kwargs, nexa_run_text_generation.
    unfold_M. rewrite Htp. simpl. rewrite Hm, Hcf. simpl. rewrite Hp, Hcall. simpl.
    destruct (drain_chat _ streamer "" None) as [e|[text0 lp0]] eqn:Ed; simpl;
      [discriminate|].
    intros [= _ _ _ _ <- _].
    destruct (drain_chat_drains _ _ _ _ _ _ Ed) as [_ ->].
    now rewrite framed_chunks_text.
Qed.

(** On the completion branch a streaming request is answered with the
    frames of the two keys of the result record. *)
Lemma completion_branch_stream_frames_keys (w : World) (request : GenerationRequest)
    (resp : Response) :
  truthy_str (chat_format (globals w)) = false ->
  truthy_bool (stream request) = true ->
  (generate_text request w).1 = inr resp ->
  resp = StreamingResponse
           (gen_of_list [wire_frame (sse_chunk uuid4 0 (TokKey "result"));
                         wire_frame (sse_chunk uuid4 1 (TokKey "logprobs"));
                         wire_done])
           "application/x-ndjson".
Proof.
  intros Hcf Hs. unfold generate_text. unfold_M. rewrite Hs. cbv beta iota.
  unfold nexa_run_text_generation_kwargs.
  destruct (nexa_run_text_generation _ _ _ _ _ _ _ _ _ w) as [[e|r] w1] eqn:E; simpl;
    [discriminate|].
  destruct (completion_branch_returns_result _ _ _ _ _ _ _ _ _ _ _ _ Hcf E)
    as (l & fp & streamer & merged & _ & _ & _ & _ & _ & ->).
  now intros [= <-].
Qed.

End Properties.

(** * Further properties of the service *)

Ltac run_M := unfold_M; simpl.

Section Further.
Context `{env : Env}.

(** ** The text endpoints without a model, and what they leave alone *)


(** X2. The text endpoints never change the module globals or the file
    system, whatever the request and the outcome; to the trace they add at
    most one engine call. *)
Theorem text_endpoints_keep_globals_and_files (w : World) (request : GenerationRequest)
    (chat_request : ChatCompletionRequest) :
  (globals ((generate_text request w).2) = globals w
   /\ fs ((generate_text request w).2) = fs w
   /\ exists evs, trace ((generate_text request w).2) = trace w ++ evs
                  /\ (length (engine_calls evs) <= 1)%nat)
  /\ (globals ((chat_completions chat_request w).2) = globals w
      /\ fs ((chat_completions chat_request w).2) = fs w
      /\ exists evs, trace ((chat_completions chat_request w).2) = trace w ++ evs
                     /\ (length (engine_calls evs) <= 1)%nat).
Proof.
  assert (Hcount : forall g kw evs logs,
    (evs = [] \/ exists call, generation_call g kw = inr call /\ evs = [call]) ->
    engine_calls logs = [] ->
    (length (engine_calls (evs ++ logs)) <= 1)%nat).
  { intros g kw evs logs Hevs Hlogs. rewrite engine_calls_app, Hlogs, app_nil_r.
    destruct Hevs as [->|(call & Hc & ->)]; simpl; [lia|].
    rewrite (generation_call_is_engine_call _ _ _ Hc). simpl. lia. }
  split.
  - destruct (generate_text_outcome w request)
      as (r & r' & evs & logs & _ & -> & Hevs & Hlogs). simpl.
    repeat split. exists (evs ++ logs). split; [now rewrite app_assoc|].
    eapply Hcount; [exact Hevs|].
    destruct Hlogs as [(resp & _ & ->)|(d & _ & ->)]; reflexivity.
  - destruct (GenerationRequest_init (chat_prompt (messages chat_request))
                (chat_temperature chat_request) (max_tokens chat_request)
                (chat_stop_words chat_request) (chat_logprobs_flag chat_request)
                (chat_top_logprobs chat_request) (chat_stream chat_request))
      as [e|kw] eqn:Hk.
    + unfold chat_completions. unfold_M. rewrite Hk. simpl.
      repeat split. eexists. split; [reflexivity|]. simpl. lia.
    + destruct (chat_completions_outcome w chat_request kw Hk)
        as (r & r' & evs & logs & _ & -> & Hevs & Hlogs). simpl.
      repeat split. exists (evs ++ logs). split; [now rewrite app_assoc|].
      eapply Hcount; [exact Hevs|].
      destruct Hlogs as [(resp & _ & ->)|(d & _ & ->)]; reflexivity.
Qed.

(** ** The streaming adapter on a producer that may raise *)

Lemma resp_from_yielded (_id : string) (streamer : gen Token) (n : nat) :
  yielded (resp_from _id n streamer)
  = imap (fun i token => wire_frame (sse_chunk _id (n + i) token)) (yielded streamer)
    ++ (if exhausted streamer then [wire_done] else [])
  /\ exhausted (resp_from _id n streamer) = exhausted streamer
  /\ raised (resp_from _id n streamer) = raised streamer.
Proof.
  revert n. induction streamer as [|token rest IH|e]; intros n; simpl.
  - repeat split.
  - destruct (IH (S n)) as (Hy & He & Hr). rewrite Hy, He, Hr, Nat.add_0_r.
    repeat split. f_equal. f_equal.
    apply imap_ext. intros i x _. simpl. do 2 f_equal. lia.
  - repeat split.
Qed.

(** X3. On any producer, also one that raises: the adapter yields one
    event for each unit the producer yields, in order and numbered from 0,
    each the text [data: ], the JSON of the dict of the unit and two line
    feeds.  The sentinel, [data: [DONE]] and two line feeds, follows
    exactly when the producer ends normally; when the producer raises, the
    adapter raises the same exception after those events.  Since the JSON
    of a dict is never the text [[DONE]], the sentinel is among the events
    exactly when the producer ended normally. *)
Theorem adapter_on_any_producer (streamer : gen Token) :
  let lf := String "010"%char EmptyString in
  let event (i : nat) (token : Token) : string :=
    "data: "
    +:+ json_dumps (mkSseChunk uuid4 "chat.completion.chunk" (time i) [mkSseChoice token])
    +:+ lf +:+ lf in
  let sentinel : string := "data: [DONE]" +:+ lf +:+ lf in
  let output := yielded (_resp_async_generator streamer) in
  output = imap event (yielded streamer) ++ (if exhausted streamer then [sentinel] else [])
  /\ exhausted (_resp_async_generator streamer) = exhausted streamer
  /\ raised (_resp_async_generator streamer) = raised streamer
  /\ ((forall chunk, json_dumps chunk <> "[DONE]") ->
      (sentinel ∈ output <-> exhausted streamer = true)).
Proof.
  intros lf event sentinel output.
  destruct (resp_from_yielded uuid4 streamer 0) as (Hy & He & Hr).
  assert (Hout : output = imap event (yielded streamer)
                          ++ (if exhausted streamer then [sentinel] else [])).
  { exact Hy. }
  split; [exact Hout|]. split; [exact He|]. split; [exact Hr|].
  intros Hjson. rewrite Hout, elem_of_app. split.
  - intros [Hin|Hin].
    + apply elem_of_lookup_imap_1 in Hin as (i & token & Heq & _).
      destruct (frame_is_not_sentinel (sse_chunk uuid4 i token) (Hjson _)).
      symmetry. exact Heq.
    + destruct (exhausted streamer); [reflexivity|]. now apply elem_of_nil in Hin.
  - intros ->. right. now apply list_elem_of_singleton.
Qed.

(** ** Errors of the producer, streamed and drained *)

Lemma raised_gen_map {A B} (f : A -> B) (g : gen A) : raised (gen_map f g) = raised g.
Proof. induction g; simpl; auto. Qed.

Lemma drain_chat_raised (streamer : gen ChatChunk) (e : Exception) text acc :
  raised streamer = Some e -> drain_chat false streamer text acc = inl e.
Proof.
  revert text acc. induction streamer as [|chunk rest IH|e']; intros text acc; simpl.
  - discriminate.
  - intros Hr. now apply IH.
  - now intros [= ->].
Qed.

(** X4. An error the chat producer raises while it is consumed is reported
    only by the non-streaming path.  With [stream] set the handler has
    already answered with the streaming response, whose body raises the
    error after the frames of the chunks before it; without [stream] (and
    without the [logprobs] flag) the same producer gives status 500 with
    the error's message, and the text generated so far is dropped. *)
Theorem producer_error_streamed_and_drained (w : World) (l : Llama)
    (streaming plain : GenerationRequest) (p : ChatParams) (streamer : gen ChatChunk)
    (e : Exception) :
  model (globals w) = Some (HLlama l) ->
  generation_call (globals w) streaming = inr (EvCreateChatCompletion p) ->
  generation_call (globals w) plain = inr (EvCreateChatCompletion p) ->
  create_chat_completion l p = inr streamer ->
  raised streamer = Some e ->
  truthy_bool (stream streaming) = true ->
  truthy_bool (stream plain) = false ->
  truthy_bool (logprobs plain) = false ->
  (exists body,
      (generate_text streaming w).1 = inr (StreamingResponse body "application/x-ndjson")
      /\ raised body = Some e
      /\ length (yielded body) = length (yielded streamer))
  /\ (generate_text plain w).1 = inl (HTTPException 500 (str_exc e)).
Proof.
  intros Hm Hs Hp Hcall Hr Hts Htp Hlp.
  assert (Hcf : truthy_str (chat_format (globals w)) = true).
  { revert Hs. unfold generation_call.
    destruct (truthy_str (chat_format (globals w))); [reflexivity|].
    destruct (format_prompt _ _); discriminate. }
  split.
  - destruct (chat_branch_stream_is_drained w l streaming plain p streamer
                Hm Hs Hp Hcall Hts Htp) as [Hbody _].
    eexists. split; [exact Hbody|].
    unfold _resp_async_generator.
    destruct (resp_from_yielded uuid4 (gen_map TokChunk streamer) 0) as (Hy & He & Hra).
    rewrite Hra, raised_gen_map. split; [exact Hr|].
    rewrite Hy, length_app, length_imap.
    assert (Hex : exhausted (gen_map TokChunk streamer) = false).
    { clear -Hr. induction streamer; simpl in *; [discriminate|auto|reflexivity]. }
    rewrite Hex. simpl.
    assert (Hlen : length (yielded (gen_map TokChunk streamer))
                   = length (yielded streamer)).
    { clear. induction streamer; simpl; auto. }
    lia.
  - revert Hp. unfold generation_call. rewrite Hcf. intros [= Hp].
    unfold generate_text, nexa_run_text_generation_kwargs, nexa_run_text_generation.
    unfold_M. rewrite Htp. simpl. rewrite Hm, Hcf. simpl. rewrite Hp, Hcall. simpl.
    rewrite Hlp, (drain_chat_raised _ _ _ _ Hr). reflexivity.
Qed.

(** ** Log-probabilities: the flag, the fields, the null *)

Lemma drain_pieces_without_flag (pieces : list (string * LogprobsField)) text acc :
  drain_pieces false pieces text acc = inr (text +:+ join (map fst pieces), acc).
Proof.
  revert text. induction pieces as [|[t field] pieces IH]; intros text; simpl.
  - now rewrite append_empty_r.
  - rewrite IH. now rewrite append_assoc.
Qed.

(** The non-streaming generation call in terms of [drain_pieces]. *)
Lemma nexa_run_drain_pieces (w : World) (l : Llama) (request : GenerationRequest)
    (call : Event) (pieces : list (string * LogprobsField)) :
  model (globals w) = Some (HLlama l) ->
  truthy_bool (stream request) = false ->
  generation_call (globals w) request = inr call ->
  produced l call = Some pieces ->
  nexa_run_text_generation_kwargs request w
  = (match drain_pieces (truthy_bool (logprobs request)) pieces "" None with
     | inl e => inl e
     | inr r => inr (RetResult r.1 r.2)
     end,
     mkWorld (globals w) (fs w) (trace w ++ [call])).
Proof.
  intros Hm Hs Hc Hp.
  unfold nexa_run_text_generation_kwargs, nexa_run_text_generation. unfold_M. simpl.
  rewrite Hm. revert Hc. unfold generation_call.
  destruct (truthy_str (chat_format (globals w))); simpl.
  - intros [= <-]. simpl in Hp.
    destruct (create_chat_completion l _) as [e|streamer]; [discriminate|].
    destruct (chunks_of streamer) as [chunks|] eqn:Hch; [|discriminate].
    simpl in Hp. injection Hp as <-.
    rewrite Hs, (gen_of_chunks _ _ Hch), drain_chat_pieces.
    destruct (drain_pieces _ _ _ _); reflexivity.
  - destruct (format_prompt (globals w) (prompt request)) as [e|fp]; [discriminate|].
    intros [= <-]. simpl in Hp. simpl.
    destruct (create_completion l _) as [e|streamer]; [discriminate|].
    destruct (chunks_of streamer) as [chunks|] eqn:Hch; [|discriminate].
    simpl in Hp. injection Hp as <-.
    rewrite (gen_of_chunks _ _ Hch), drain_text_pieces.
    destruct (drain_pieces _ _ _ _); reflexivity.
Qed.

(** X5. A non-streaming request without the [logprobs] flag (absent, null
    or false): whatever the chunks of a finite producer carry under their
    ["logprobs"] keys, the response has the concatenated text and no
    log-probabilities, and the merge can not fail. *)
Theorem no_logprobs_without_flag (w : World) (l : Llama) (request : GenerationRequest)
    (call : Event) (pieces : list (string * LogprobsField)) :
  model (globals w) = Some (HLlama l) ->
  truthy_bool (stream request) = false ->
  truthy_bool (logprobs request) = false ->
  generation_call (globals w) request = inr call ->
  produced l call = Some pieces ->
  (generate_text request w).1
  = inr (TextCompletion uuid4 "text_completion" (int_of_float (time 0))
           (model_path (globals w)) [mkTextChoice (join (map fst pieces)) 0 None "stop"]).
Proof.
  intros Hm Hs Hlp Hc Hp.
  unfold generate_text. unfold_M.
  rewrite Hs, (nexa_run_drain_pieces w l request call pieces Hm Hs Hc Hp), Hlp.
  rewrite drain_pieces_without_flag. reflexivity.
Qed.

Lemma extend_fields_dom (acc r : gmap string (list LpItem)) :
  dom (extend_fields acc r) = dom acc.
Proof.
  apply set_eq. intros name. rewrite !elem_of_dom. unfold extend_fields.
  rewrite map_lookup_imap. destruct (acc !! name); simpl.
  - split; intros _; eauto.
  - split; intros [x Hx]; discriminate.
Qed.

(** X6. The merge keeps exactly the field names of the first record: a
    field of a later chunk that the first record lacks is dropped, and a
    field of the first record that a later chunk lacks is kept as it is.
    Each kept field holds the first record's list followed by the later
    chunks' lists for that name, in the order of the chunks. *)
Theorem merged_fields_are_those_of_first_record (first : gmap string (list LpItem))
    (subsequent : list (gmap string (list LpItem))) (name : string) :
  dom (foldl extend_fields first subsequent) = dom first
  /\ foldl extend_fields first subsequent !! name
     = (fun l => l ++ concat (omap (fun r => r !! name) subsequent)) <$> first !! name.
Proof.
  split.
  - revert first. induction subsequent as [|r rest IH]; intros first; simpl;
      [reflexivity|]. now rewrite IH, extend_fields_dom.
  - revert first. induction subsequent as [|r rest IH]; intros first; simpl.
    + destruct (first !! name); simpl; [|reflexivity]. now rewrite app_nil_r.
    + rewrite IH. unfold extend_fields. rewrite map_lookup_imap.
      destruct (first !! name) as [l0|]; simpl; [|reflexivity].
      destruct (r !! name) as [l'|]; simpl; [|reflexivity].
      now rewrite <- app_assoc.
Qed.

Lemma drain_pieces_app (flag : bool) (pre post : list (string * LogprobsField)) text acc :
  drain_pieces flag (pre ++ post) text acc
  = match drain_pieces flag pre text acc with
    | inl e => inl e
    | inr r => drain_pieces flag post r.1 r.2
    end.
Proof.
  revert text acc. induction pre as [|[t field] pre IH]; intros text acc; simpl;
    [reflexivity|].
  destruct (accumulate_logprobs flag field acc); [reflexivity|]. apply IH.
Qed.

Lemma drain_pieces_no_record (pre : list (string * LogprobsField)) text :
  records_of (map snd pre) = [] ->
  drain_pieces true pre text None = inr (text +:+ join (map fst pre), None).
Proof.
  revert text. induction pre as [|[t field] pre IH]; intros text; simpl.
  - intros _. now rewrite append_empty_r.
  - destruct field as [| |r]; simpl; [| |discriminate];
      intros Hrec; rewrite (IH _ Hrec); now rewrite append_assoc.
Qed.

(** X7. With the [logprobs] flag set, a chunk whose ["logprobs"] is null
    after a chunk that carried a record with at least one field makes the
    non-streaming request fail: the membership test on [None] raises, and
    the response is status 500 with Python's message for it.  (A producer
    that closes its stream with such a chunk makes every such request
    fail.) *)
Theorem null_logprobs_after_record_is_500 (w : World) (l : Llama)
    (request : GenerationRequest) (call : Event)
    (pre mid post : list (string * LogprobsField)) (t1 t2 : string)
    (r : gmap string (list LpItem)) :
  model (globals w) = Some (HLlama l) ->
  truthy_bool (stream request) = false ->
  truthy_bool (logprobs request) = true ->
  generation_call (globals w) request = inr call ->
  produced l call = Some (pre ++ (t1, LpRec r) :: mid ++ (t2, LpNone) :: post) ->
  records_of (map snd pre) = [] ->
  forallb not_null (map snd mid) = true ->
  r <> ∅ ->
  (generate_text request w).1
  = inl (HTTPException 500 "argument of type 'NoneType' is not iterable").
Proof.
  intros Hm Hs Hlp Hc Hp Hpre Hmid Hr.
  unfold generate_text. unfold_M.
  rewrite Hs, (nexa_run_drain_pieces w l request call _ Hm Hs Hc Hp), Hlp.
  rewrite drain_pieces_app, (drain_pieces_no_record _ _ Hpre). simpl.
  rewrite drain_pieces_app, (drain_pieces_from_record _ _ _ Hmid). simpl.
  destruct (decide (foldl extend_by_name r (records_of (map snd mid)) = ∅)) as [He|He];
    [|reflexivity].
  exfalso. apply Hr. apply (f_equal dom) in He. rewrite dom_empty_L in He.
  assert (Hd : dom (foldl extend_by_name r (records_of (map snd mid))) = dom r).
  { clear. generalize (records_of (map snd mid)). intros rs. revert r.
    induction rs as [|x rs IH]; intros r; simpl; [reflexivity|].
    rewrite IH, <- extend_fields_by_name. apply extend_fields_dom. }
  rewrite Hd in He. now apply dom_empty_inv_L.
Qed.

(** X8. The engine is always asked for a stream: every generation call of
    either text endpoint carries [stream=True], whatever the [stream] flag
    of the request. *)
Theorem engine_is_always_asked_to_stream (w : World) (request : GenerationRequest)
    (chat_request : ChatCompletionRequest) (call : Event) :
  (In call (engine_calls (trace ((generate_text request w).2)))
   \/ In call (engine_calls (trace ((chat_completions chat_request w).2)))) ->
  In call (engine_calls (trace w)) \/ stream_received call = Some true.
Proof.
  assert (Hcall : forall g kw c, generation_call g kw = inr c ->
                                 stream_received c = Some true).
  { intros g kw c. unfold generation_call. destruct (truthy_str (chat_format g)).
    - now intros [= <-].
    - destruct (format_prompt g (prompt kw)); [discriminate|]. now intros [= <-]. }
  assert (Hstep : forall g kw evs logs,
    (evs = [] \/ exists c, generation_call g kw = inr c /\ evs = [c]) ->
    engine_calls logs = [] ->
    In call (engine_calls ((trace w ++ evs) ++ logs)) ->
    In call (engine_calls (trace w)) \/ stream_received call = Some true).
  { intros g kw evs logs Hevs Hlogs. rewrite !engine_calls_app, Hlogs, app_nil_r.
    intros [Hin|Hin]%in_app_or; [now left|].
    destruct Hevs as [->|(c & Hc & ->)]; [destruct Hin|]. simpl in Hin.
    rewrite (generation_call_is_engine_call _ _ _ Hc) in Hin.
    destruct Hin as [<-|[]]. right. eauto. }
  intros [Hin|Hin].
  - destruct (generate_text_outcome w request)
      as (r & r' & evs & logs & _ & E & Hevs & Hlogs). rewrite E in Hin. simpl in Hin.
    eapply Hstep; [exact Hevs| |exact Hin].
    destruct Hlogs as [(resp & _ & ->)|(d & _ & ->)]; reflexivity.
  - destruct (GenerationRequest_init (chat_prompt (messages chat_request))
                (chat_temperature chat_request) (max_tokens chat_request)
                (chat_stop_words chat_request) (chat_logprobs_flag chat_request)
                (chat_top_logprobs chat_request) (chat_stream chat_request))
      as [e|kw] eqn:Hk.
    + revert Hin. unfold chat_completions. unfold_M. rewrite Hk. simpl.
      rewrite engine_calls_log. now left.
    + destruct (chat_completions_outcome w chat_request kw Hk)
        as (r & r' & evs & logs & _ & E & Hevs & Hlogs). rewrite E in Hin. simpl in Hin.
      eapply Hstep; [exact Hevs| |exact Hin].
      destruct Hlogs as [(resp & _ & ->)|(d & _ & ->)]; reflexivity.
Qed.

(** X9. A chat request whose [temperature] or [max_tokens] is null is
    answered with status 500: building the keyword arguments fails inside
    the handler's [try], before the prompt is sent anywhere; no engine is
    called, and the only effect is the log entry. *)
Theorem chat_request_with_null_sampling_is_500 (w : World)
    (request : ChatCompletionRequest) :
  chat_temperature request = None \/ max_tokens request = None ->
  exists detail,
    chat_completions request w
    = (inl (HTTPException 500 detail),
       mkWorld (globals w) (fs w)
               (trace w ++ [EvLog ERROR ("Error in chat completions: " +:+ detail)])).
Proof.
  intros Hnull. unfold chat_completions. unfold_M. unfold GenerationRequest_init.
  destruct (chat_temperature request) as [t|], (max_tokens request) as [n|];
    simpl; eauto.
  destruct Hnull; discriminate.
Qed.

(** ** Loading: final states and failures *)

(** The block, as a function of what the constructor does. *)
Lemma load_llama_outcome (args : Z -> LlamaArgs) (w : World) :
  load_llama args w
  = match loaded_llama args with
    | inr l =>
        (inr tt,
         mkWorld (mkGlobals (Some (HLlama l)) (chat_format (globals w))
                            (completion_template (globals w)) (model_path (globals w))
                            (n_ctx (globals w)) (is_local_path (globals w))
                            (model_type (globals w)) (is_huggingface (globals w))
                            (projector_path (globals w)))
                 (fs w) (trace w ++ load_llama_events args))
    | inl e => (inl e, mkWorld (globals w) (fs w) (trace w ++ load_llama_events args))
    end.
Proof.
  unfold load_llama, loaded_llama, load_llama_events, call_Llama, set_model,
    fallback_notice.
  run_M.
  destruct (Llama_init (args first_n_gpu_layers)) as [e|l]; simpl; [|reflexivity].
  destruct (Llama_init (args 0)) as [e'|l']; simpl; rewrite <- !app_assoc; reflexivity.
Qed.

(** [resolve_paths] changes no global but [model_type], and no file. *)
Lemma resolve_paths_keeps (w : World) :
  let w1 := (resolve_paths w).2 in
  model (globals w1) = model (globals w)
  /\ chat_format (globals w1) = chat_format (globals w)
  /\ completion_template (globals w1) = completion_template (globals w)
  /\ model_path (globals w1) = model_path (globals w)
  /\ n_ctx (globals w1) = n_ctx (globals w)
  /\ fs w1 = fs w.
Proof.
  unfold resolve_paths, call_pull_model, getitem, set_model_type. run_M.
  repeat first
    [ match goal with
      | |- context [if ?c then _ else _] => destruct c; simpl
      | |- context [match ?d !! ?k with _ => _ end] => destruct (d !! k); simpl
      | |- context [match pull_model ?a ?b with _ => _ end] =>
          destruct (pull_model a b) as [?|[? ?]]; simpl
      end ];
    repeat split.
Qed.

Lemma load_model_dispatch (w : World) :
  load_model w
  = match resolve_paths w with
    | (inl e, w1) => (inl e, w1)
    | (inr paths, w1) =>
        if str_eq (model_type (globals w1)) "NLP" then load_nlp paths.1 w1
        else if str_eq (model_type (globals w1)) "Computer Vision"
             then load_computer_vision paths.1 w1
        else if str_eq (model_type (globals w1)) "Multimodal"
             then load_multimodal paths.1 paths.2 w1
        else if str_eq (model_type (globals w1)) "Audio" then load_audio paths.1 w1
        else (inl (Exc ValueError ("Model " +:+ model_path (globals w1)
                                   +:+ " not found in Model Hub")), w1)
    end.
Proof.
  unfold load_model. unfold mbind, M_bind, bind at 1.
  destruct (resolve_paths w) as [[e|paths] w1]; [reflexivity|].
  unfold bind, get_globals. simpl.
  repeat match goal with |- context [if ?c then _ else _] => destruct c end;
    reflexivity.
Qed.

Lemma load_nlp_outcome (downloaded_path : string) (w : World) :
  let g := globals w in
  let args := nlp_args g downloaded_path in
  let ct := if is_function_calling g then completion_template g
            else NEXA_RUN_COMPLETION_TEMPLATE_MAP !! model_name g in
  exists evs,
    load_nlp downloaded_path w
    = match loaded_llama args with
      | inr l =>
          (inr tt,
           mkWorld (mkGlobals (Some (HLlama l))
                              (if is_function_calling g then Some "chatml-function-calling"
                               else metadata_chat_template l)
                              ct (model_path g) (n_ctx g) (is_local_path g)
                              (model_type g) (is_huggingface g) (projector_path g))
                   (fs w) (trace w ++ load_llama_events args ++ evs))
      | inl e =>
          (inl e,
           mkWorld (mkGlobals (model g) (nlp_chat_format g) ct (model_path g) (n_ctx g)
                              (is_local_path g) (model_type g) (is_huggingface g)
                              (projector_path g))
                   (fs w) (trace w ++ load_llama_events args))
      end
    /\ llama_inits evs = [].
Proof.
  intros g args ct. subst g args ct.
  unfold load_nlp, nlp_args, nlp_chat_format, is_function_calling, model_name.
  unfold mbind, M_bind, bind at 1. unfold get_globals at 1. cbv beta iota.
  destruct (decide (is_Some (NEXA_RUN_MODEL_MAP_FUNCTION_CALLING !! model_path (globals w))))
    as [Hfc|Hfc].
  - rewrite (bool_decide_eq_true_2 _ Hfc).
    unfold bind at 1. unfold set_chat_format at 1. run_M.
    rewrite load_llama_outcome. simpl.
    destruct (loaded_llama _) as [e|l]; simpl.
    + exists []. split; reflexivity.
    + unfold log_model_loaded. run_M. unfold emit. simpl.
      eexists [_]. rewrite <- !app_assoc. split; reflexivity.
  - rewrite (bool_decide_eq_false_2 _ Hfc).
    unfold set_chat_format, set_completion_template. run_M.
    rewrite load_llama_outcome. simpl.
    destruct (loaded_llama _) as [e|l]; simpl.
    + exists []. split; reflexivity.
    + unfold log_model_loaded. run_M. unfold emit. simpl.
      destruct (bool_decide (NEXA_RUN_COMPLETION_TEMPLATE_MAP
                               !! str_lower (split_colon_head (model_path (globals w)))
                             = None)
                && bool_decide (metadata_chat_template l ≠ None)); simpl.
      * eexists [_; _]. rewrite <- !app_assoc. split; reflexivity.
      * eexists [_]. rewrite <- !app_assoc. split; reflexivity.
Qed.

(** X10. After a load of an NLP model that succeeded (on the first attempt
    or on the CPU), the global [model] is the [Llama] constructed.  For a
    function-calling model [chat_format] is ["chatml-function-calling"];
    for any other model it is the model's own [tokenizer.chat_template]
    metadata, [None] when the model has none, whatever
    [NEXA_RUN_CHAT_TEMPLATE_MAP] holds for the model, and
    [completion_template] is the entry of
    [NEXA_RUN_COMPLETION_TEMPLATE_MAP] for the lower-cased name before the
    colon. *)
Theorem nlp_load_final_state (w w1 : World) (paths : string * option string) (l : Llama) :
  resolve_paths w = (inr paths, w1) ->
  model_type (globals w1) = Some "NLP" ->
  loaded_llama (nlp_args (globals w1) paths.1) = inr l ->
  (load_model w).1 = inr tt
  /\ model (globals ((load_model w).2)) = Some (HLlama l)
  /\ chat_format (globals ((load_model w).2))
     = (if is_function_calling (globals w1) then Some "chatml-function-calling"
        else metadata_chat_template l)
  /\ completion_template (globals ((load_model w).2))
     = (if is_function_calling (globals w1) then completion_template (globals w1)
        else NEXA_RUN_COMPLETION_TEMPLATE_MAP !! model_name (globals w1)).
Proof.
  intros Hres Hmt Hl. rewrite load_model_dispatch, Hres, Hmt. simpl.
  destruct (load_nlp_outcome paths.1 w1) as (evs & -> & _). simpl. rewrite Hl. simpl.
  repeat split.
Qed.

(** X11. When both attempts of an NLP load fail, [load_model] raises the
    exception of the attempt on the CPU (the first one is only logged) and
    [model] is left as it was; but [chat_format] has already been
    overwritten with the value meant for the new model. *)
Theorem nlp_load_failure (w w1 : World) (paths : string * option string)
    (e1 e2 : Exception) :
  resolve_paths w = (inr paths, w1) ->
  model_type (globals w1) = Some "NLP" ->
  Llama_init (nlp_args (globals w1) paths.1 first_n_gpu_layers) = inl e1 ->
  Llama_init (nlp_args (globals w1) paths.1 0) = inl e2 ->
  (load_model w).1 = inl e2
  /\ model (globals ((load_model w).2)) = model (globals w)
  /\ chat_format (globals ((load_model w).2)) = nlp_chat_format (globals w1)
  /\ trace ((load_model w).2)
     = trace w1 ++ [EvLlamaInit (nlp_args (globals w1) paths.1 first_n_gpu_layers);
                    fallback_notice e1;
                    EvLlamaInit (nlp_args (globals w1) paths.1 0)].
Proof.
  intros Hres Hmt H1 H2. rewrite load_model_dispatch, Hres, Hmt. simpl.
  destruct (load_nlp_outcome paths.1 w1) as (evs & -> & _). simpl.
  unfold loaded_llama, load_llama_events. rewrite H1, H2. simpl.
  repeat split.
  destruct (resolve_paths_keeps w) as (Hm & _). rewrite Hres in Hm. exact Hm.
Qed.

(** ** Loading: which constructions are attempted *)

Lemma emits_still {A} (m : M A) (P : list Event -> Prop) :
  (forall w, trace ((m w).2) = trace w) -> P [] -> emits m P.
Proof. intros Hm HP w. exists []. rewrite app_nil_r. auto. Qed.

Lemma emits_forall_bind {A B} (Q : Event -> Prop) (m : M A) (k : A -> M B) :
  emits m (Forall Q) -> (forall a, emits (k a) (Forall Q)) ->
  emits (m ≫= k) (Forall Q).
Proof.
  intros Hm Hk. eapply emits_weaken; [exact (emits_bind _ _ _ _ Hm Hk)|].
  intros evs (e1 & e2 & -> & H1 & [->|H2]).
  - now rewrite app_nil_r.
  - apply Forall_app. auto.
Qed.

Lemma emits_forall_emit (Q : Event -> Prop) (ev : Event) :
  Q ev -> emits (emit ev) (Forall Q).
Proof. intros HQ w. exists [ev]. split; [reflexivity|]. now constructor. Qed.

Lemma load_llama_gpu_layers (args : Z -> LlamaArgs) :
  (forall k, la_n_gpu_layers (args k) = k) ->
  emits (load_llama args) (Forall gpu_layers_ok).
Proof.
  intros Hargs w. exists (load_llama_events args). split.
  - rewrite load_llama_outcome. destruct (loaded_llama args); reflexivity.
  - unfold load_llama_events.
    destruct (Llama_init (args first_n_gpu_layers));
      repeat (constructor; [unfold fallback_notice; simpl; rewrite ?Hargs; auto|]);
      constructor.
Qed.

Ltac layers_step :=
  first
    [ apply emits_forall_bind; [|intros ?]
    | apply load_llama_gpu_layers; reflexivity
    | apply emits_forall_emit; exact I
    | apply emits_still; [reflexivity|constructor]
    | match goal with
      | |- emits (if ?c then _ else _) _ => destruct c
      | |- emits (match ?d !! ?k with _ => _ end) _ => destruct (d !! k)
      | |- emits (match ?o with Some _ => _ | None => _ end) _ => destruct o
      end ].

Lemma load_model_gpu_layers : emits load_model (Forall gpu_layers_ok).
Proof.
  unfold load_model, resolve_paths, load_nlp, load_computer_vision, load_multimodal,
    load_audio, call_pull_model, getitem, set_model_type, set_chat_format,
    set_completion_template, set_model, log_model_loaded, logging.
  repeat layers_step.
Qed.

(** X12. Whatever the model type and the outcome: every [Llama] that
    [load_model] constructs is constructed with [n_gpu_layers = -1] or
    [n_gpu_layers = 0], and with [-1] only when [is_gpu_available()] holds.
    On a machine without a GPU no GPU load is ever attempted. *)
Theorem gpu_load_only_when_available (w : World) (events : list Event) (a : LlamaArgs) :
  trace ((load_model w).2) = trace w ++ events ->
  In (EvLlamaInit a) events ->
  (la_n_gpu_layers a = -1 /\ is_gpu_available = true) \/ la_n_gpu_layers a = 0.
Proof.
  intros Htrace Hin.
  destruct (load_model_gpu_layers w) as (evs & E & Hall).
  rewrite E in Htrace. apply app_inv_head in Htrace. subst evs.
  rewrite Forall_forall in Hall. specialize (Hall _ (proj2 (list_elem_of_In _ _) Hin)).
  simpl in Hall. unfold first_n_gpu_layers in Hall.
  destruct is_gpu_available; destruct Hall; auto.
Qed.

(** X13. On a machine without a GPU the fall-back repeats the load as it
    was: when the first attempt raises, the notice is logged and the
    [Llama] is constructed a second time with the very same arguments; the
    load makes these two constructions and no other. *)
Theorem cpu_only_retry_is_identical (w : World) (events : list Event) (a : LlamaArgs)
    (e : Exception) :
  is_gpu_available = false ->
  trace ((load_model w).2) = trace w ++ events ->
  In (EvLlamaInit a) events ->
  Llama_init a = inl e ->
  llama_inits events = [a; a]
  /\ exists before after,
       events = before ++ [EvLlamaInit a; fallback_notice e; EvLlamaInit a] ++ after.
Proof.
  intros Hgpu Htrace Hin Hfail.
  assert (Hzero : forall b, In (EvLlamaInit b) events -> with_n_gpu_layers b 0 = b).
  { intros b Hb.
    destruct (load_model_gpu_layers w) as (evs & E & Hall).
    rewrite E in Htrace. apply app_inv_head in Htrace. subst evs.
    rewrite Forall_forall in Hall. specialize (Hall _ (proj2 (list_elem_of_In _ _) Hb)).
    simpl in Hall. unfold first_n_gpu_layers in Hall. rewrite Hgpu in Hall.
    destruct b; simpl in *. destruct Hall; now subst. }
  destruct (load_model_shape w) as (evs & E & before & mid & after & -> & Hb & Ha & Hmid).
  rewrite E in Htrace. apply app_inv_head in Htrace. subst events.
  assert (Hmidin : In (EvLlamaInit a) mid).
  { apply in_app_or in Hin as [Hin|Hin].
    - apply llama_init_in_inits in Hin. rewrite Hb in Hin. destruct Hin.
    - apply in_app_or in Hin as [Hin|Hin]; [exact Hin|].
      apply llama_init_in_inits in Hin. rewrite Ha in Hin. destruct Hin. }
  destruct Hmid as [->|(first & [(-> & l & Hok)|(e' & Hf & ->)])].
  - destruct Hmidin.
  - destruct Hmidin as [[= ->]|[]]. congruence.
  - assert (Hfirst : with_n_gpu_layers first 0 = first).
    { apply Hzero. apply in_or_app. right. apply in_or_app. left. now left. }
    rewrite Hfirst in *.
    assert (a = first) as ->.
    { destruct Hmidin as [[= ->]|[[=]|[[= ->]|[]]]]; reflexivity. }
    assert (e' = e) as -> by congruence.
    split.
    + rewrite !llama_inits_app, Hb, Ha. reflexivity.
    + now exists before, after.
Qed.

(** ** Loading: the paths that end in an error *)

(** X14. A Multimodal model given by a local path with no projector path
    is refused before anything is done: [load_model] raises the
    [ValueError] and leaves the world as it was (nothing is pulled, no
    engine is constructed, no global is assigned). *)
Theorem local_multimodal_needs_projector (w : World) :
  model_type (globals w) = Some "Multimodal" ->
  is_local_path (globals w) = true ->
  projector_path (globals w) = "" ->
  load_model w
  = (inl (Exc ValueError
            "Projector path must be provided when using local path for Multimodal models"),
     w).
Proof.
  intros Hmt Hlocal Hproj. rewrite load_model_dispatch.
  unfold resolve_paths. run_M. rewrite Hmt, Hlocal, Hproj. reflexivity.
Qed.

(** X15. When the model type, once the paths are resolved, is none of
    ["NLP"], ["Computer Vision"], ["Multimodal"] and ["Audio"], the load
    ends with the [ValueError] that names the model path; no engine is
    constructed and [model] is left as it was. *)
Theorem unknown_model_type_is_refused (w w1 : World) (paths : string * option string) :
  resolve_paths w = (inr paths, w1) ->
  known_model_type (model_type (globals w1)) = false ->
  load_model w
  = (inl (Exc ValueError ("Model " +:+ model_path (globals w) +:+ " not found in Model Hub")),
     w1)
  /\ model (globals w1) = model (globals w)
  /\ llama_inits (trace w1) = llama_inits (trace w).
Proof.
  intros Hres Hk. rewrite load_model_dispatch, Hres.
  unfold known_model_type in Hk.
  apply orb_false_elim in Hk as [Hk Ha]. apply orb_false_elim in Hk as [Hk Hm].
  apply orb_false_elim in Hk as [Hn Hc]. rewrite Hn, Hc, Hm, Ha.
  destruct (resolve_paths_keeps w) as (Hmodel & _ & _ & Hpath & _).
  rewrite Hres in Hmodel, Hpath. simpl in Hmodel, Hpath. rewrite Hpath.
  repeat split; [exact Hmodel|].
  destruct (quiet_resolve_paths w) as (evs & E & Hq). rewrite Hres in E. simpl in E.
  now rewrite E, llama_inits_app, Hq, app_nil_r.
Qed.

(** X16. A model of the hub whose type is not known beforehand and which
    [pull_model] reports as ["Multimodal"] can not be loaded: the branch
    that would resolve the projector was passed before the type was known,
    so [projector_downloaded_path] is unbound when the Multimodal branch
    reads it.  [load_model] raises [UnboundLocalError] after the pull, and
    no projector and no [Llama] is constructed. *)
Theorem hub_multimodal_is_unbound (w : World) (downloaded_path : string) :
  str_eq (model_type (globals w)) "Multimodal" = false ->
  is_local_path (globals w) = false ->
  is_huggingface (globals w) = false ->
  pull_model (model_path (globals w)) false = inr (downloaded_path, Some "Multimodal") ->
  (load_model w).1
  = inl (Exc UnboundLocalError (unbound_local "projector_downloaded_path"))
  /\ trace ((load_model w).2) = trace w ++ [EvPullModel (model_path (globals w)) false]
  /\ model (globals ((load_model w).2)) = model (globals w).
Proof.
  intros Hmt Hlocal Hhf Hpull. rewrite load_model_dispatch.
  unfold resolve_paths, call_pull_model, set_model_type. run_M.
  rewrite Hmt, Hlocal, Hhf. simpl. rewrite Hpull. simpl.
  unfold load_multimodal. run_M. repeat split.
Qed.

End Further.

(** * Properties of starting the service *)

Section StartupProperties.
Context `{env : Env} `{platform : Platform}.

Lemma lower_str_bool (b : bool) : String.eqb (lower_ascii (str_bool b)) "true" = b.
Proof. destruct b; reflexivity. Qed.

(** X17. [run_nexa_ai_service] refuses its arguments exactly when a local
    path or a Hugging Face model is asked for without a model path, or a
    local path without a model type.  It then raises a [ValueError]
    without writing to the environment or starting the server; the globals
    [model_path], [model_type] and [n_ctx] are left as they were. *)
Theorem service_arguments_checked (model_path_arg : option string)
    (is_local_path_arg : bool) (model_type_arg : option string) (huggingface : bool)
    (kwargs : ServiceKwargs) (p : Process) :
  let r := run_nexa_ai_service model_path_arg is_local_path_arg model_type_arg
                               huggingface kwargs p in
  ((exists e, r.1 = inl e)
   <-> (is_local_path_arg || huggingface)
       && (negb (truthy_str model_path_arg)
           || (is_local_path_arg && negb (truthy_str model_type_arg))) = true)
  /\ (forall e, r.1 = inl e ->
        (exists msg, e = Exc ValueError msg)
        /\ environ (r.2) = environ p
        /\ model_path (globals (proc_world (r.2))) = model_path (globals (proc_world p))
        /\ model_type (globals (proc_world (r.2))) = model_type (globals (proc_world p))
        /\ n_ctx (globals (proc_world (r.2))) = n_ctx (globals (proc_world p))).
Proof.
  unfold run_nexa_ai_service.
  destruct is_local_path_arg, huggingface, (truthy_str model_path_arg),
    (truthy_str model_type_arg); simpl; split;
    try (split; [intros [e He]; discriminate | discriminate]);
    try (split; [reflexivity | intros _; eauto]);
    intros e He; try discriminate; inversion He; subst; repeat split; eauto.
Qed.

Lemma startup_globals_after_run (model_path_arg : option string)
    (is_local_path_arg : bool) (model_type_arg : option string) (huggingface : bool)
    (kwargs : ServiceKwargs) (p p1 : Process) (run : UvicornRun) :
  run_nexa_ai_service model_path_arg is_local_path_arg model_type_arg huggingface
                      kwargs p = (inr run, p1) ->
  model_path (startup_globals p1) = model_path (globals (proc_world p1))
  /\ is_local_path (startup_globals p1) = is_local_path_arg
  /\ is_huggingface (startup_globals p1) = huggingface
  /\ model_type (startup_globals p1)
     = Some (default "" (model_type (globals (proc_world p1))))
  /\ n_ctx (startup_globals p1) = Some (default 2048 (kw_nctx kwargs))
  /\ projector_path (startup_globals p1) = getenv p "PROJECTOR_PATH" "".
Proof.
  unfold run_nexa_ai_service.
  set (checked := if is_local_path_arg || huggingface then _ else _).
  destruct checked as [e|[mp mt]]; [discriminate|].
  intros [= _ <-]. unfold startup_globals, getenv. simpl.
  repeat split;
    repeat first [rewrite lookup_insert_eq | rewrite lookup_insert_ne by done]; simpl;
    try reflexivity; try apply lower_str_bool.
  destruct mt as [s|]; simpl; [|reflexivity].
  destruct (String.eqb s "") eqn:Es; simpl; [|reflexivity].
  apply String.eqb_eq in Es. now subst.
Qed.

(** X18. What [run_nexa_ai_service] publishes in the environment is what
    [startup_event] reads back: the model path, the two flags (through
    [str] and [lower]) and the model type, except that an absent model
    type comes back as the empty string.  The context length is kept in
    the global and the projector path is whatever the environment already
    held: the function never sets it. *)
Theorem startup_reads_back_what_was_published (model_path_arg : option string)
    (is_local_path_arg : bool) (model_type_arg : option string) (huggingface : bool)
    (kwargs : ServiceKwargs) (p p1 : Process) (run : UvicornRun) :
  run_nexa_ai_service model_path_arg is_local_path_arg model_type_arg huggingface
                      kwargs p = (inr run, p1) ->
  model_path (startup_globals p1) = model_path (globals (proc_world p1))
  /\ is_local_path (startup_globals p1) = is_local_path_arg
  /\ is_huggingface (startup_globals p1) = huggingface
  /\ model_type (startup_globals p1)
     = Some (default "" (model_type (globals (proc_world p1))))
  /\ n_ctx (startup_globals p1) = Some (default 2048 (kw_nctx kwargs))
  /\ projector_path (startup_globals p1) = getenv p "PROJECTOR_PATH" "".
Proof. apply startup_globals_after_run. Qed.

(** A Hugging Face model with no model type, seen from [load_model]. *)
Lemma load_untyped_huggingface (w : World) (downloaded_path : string)
    (t : option string) :
  model_type (globals w) = Some "" ->
  is_local_path (globals w) = false ->
  is_huggingface (globals w) = true ->
  pull_model (model_path (globals w)) true = inr (downloaded_path, t) ->
  load_model w
  = (inl (Exc ValueError ("Model " +:+ model_path (globals w) +:+ " not found in Model Hub")),
     mkWorld (globals w) (fs w) (trace w ++ [EvPullModel (model_path (globals w)) true])).
Proof.
  intros Hmt Hlocal Hhf Hpull. rewrite load_model_dispatch.
  unfold resolve_paths, call_pull_model. run_M.
  rewrite Hmt, Hlocal, Hhf. simpl. rewrite Hpull. simpl. rewrite Hmt. reflexivity.
Qed.

(** X19. A Hugging Face model started without a model type can not be
    served: the arguments pass the check (only a local path needs a type),
    the empty type is published, the model is pulled, and then
    [load_model] finds no branch for the empty type and raises the
    [ValueError] "not found in Model Hub".  [model] is not assigned. *)
Theorem huggingface_needs_model_type (mp : string) (model_type_arg : option string)
    (kwargs : ServiceKwargs) (p : Process) (downloaded_path : string)
    (t : option string) :
  mp <> "" ->
  truthy_str model_type_arg = false ->
  pull_model mp true = inr (downloaded_path, t) ->
  let r := launch (Some mp) false model_type_arg true kwargs p in
  r.1 = inl (Exc ValueError ("Model " +:+ mp +:+ " not found in Model Hub"))
  /\ trace (proc_world (r.2)) = trace (proc_world p) ++ [EvPullModel mp true]
  /\ model (globals (proc_world (r.2))) = model (globals (proc_world p)).
Proof.
  intros Hmp Hmt Hpull. unfold launch.
  destruct (run_nexa_ai_service (Some mp) false model_type_arg true kwargs p)
    as [[e|run] p1] eqn:Hrun.
  { exfalso. revert Hrun. unfold run_nexa_ai_service. simpl.
    destruct (String.eqb mp "") eqn:E; [apply String.eqb_eq in E; contradiction|].
    simpl. discriminate. }
  destruct (startup_globals_after_run _ _ _ _ _ _ _ _ Hrun)
    as (Hpath & Hlocal & Hhf & Htype & _ & _).
  assert (Hp1 : model_path (globals (proc_world p1)) = mp
                /\ model_type (globals (proc_world p1)) = model_type_arg
                /\ model (globals (proc_world p1)) = model (globals (proc_world p))
                /\ trace (proc_world p1) = trace (proc_world p)).
  { revert Hrun. unfold run_nexa_ai_service. simpl.
    destruct (String.eqb mp "") eqn:E; [apply String.eqb_eq in E; contradiction|].
    simpl. intros [= _ <-]. simpl. auto. }
  destruct Hp1 as (Hmp1 & Hmt1 & Hmodel & Htrace).
  unfold startup_event.
  set (w := mkWorld (startup_globals p1) (fs (proc_world p1)) (trace (proc_world p1))).
  assert (Hempty : model_type (globals w) = Some "").
  { change (model_type (startup_globals p1) = Some "").
    rewrite Htype, Hmt1. f_equal.
    destruct model_type_arg as [s|]; simpl in *; [|reflexivity].
    destruct (String.eqb s "") eqn:Es; [|discriminate].
    now apply String.eqb_eq in Es. }
  assert (Hpw : model_path (globals w) = mp).
  { change (model_path (startup_globals p1) = mp). congruence. }
  rewrite (load_untyped_huggingface w downloaded_path t Hempty Hlocal Hhf)
    by (rewrite Hpw; exact Hpull).
  rewrite Hpw. cbn [fst snd proc_world trace globals model]. subst w.
  cbn [proc_world trace globals]. rewrite Htrace. repeat split.
  unfold startup_globals. cbn [model]. exact Hmodel.
Qed.

End StartupProperties.

(** * Properties of the image endpoints *)

Section ImageProperties.
Context `{env : Env} `{platform : Platform}.

Ltac run_IM :=
  unfold mbind, mret, IM_bind, IM_ret, ibind, iret, iraise, ilift, iemit, itry_except,
    path_exists, makedirs, now in *; simpl.

Lemma output_dir_not_inside (name : string) : output_dir +:+ "/" +:+ name <> output_dir.
Proof. vm_compute. discriminate. Qed.

(** Saving the images of a request when the output directory is usable. *)
Lemma save_images_ok (prefix : string) (images : list Image) (s : ImgWorld) :
  output_dir_usable (disk s) ->
  save_images prefix images s
  = (inr (imap (fun i image =>
                  mkImageResponse
                    (b64encode (png_of image))
                    (abspath (output_dir +:+ "/"
                              +:+ image_name prefix (int_of_float (time (clock s + i))))))
               images),
     mkImgWorld (img_globals s) (saved_disk prefix (clock s) images (disk s))
                (clock s + length images) (img_trace s))
  /\ output_dir_usable (saved_disk prefix (clock s) images (disk s)).
Proof.
  revert s. induction images as [|image rest IH]; intros s Hok.
  - simpl. rewrite Nat.add_0_r. destruct s. split; [reflexivity|exact Hok].
  - destruct Hok as [Hdir Hfree].
    set (name := image_name prefix (int_of_float (time (clock s)))).
    set (d1 := <[output_dir := Dir]> (disk s)).
    set (d2 := <[output_dir +:+ "/" +:+ name := File (png_of image)]> d1).
    assert (Hd1 : d1 !! output_dir = Some Dir) by apply lookup_insert_eq.
    assert (Hd1free : forall n, d1 !! (output_dir +:+ "/" +:+ n) <> Some Dir).
    { intros n. unfold d1. rewrite lookup_insert_ne; [apply Hfree|].
      intros E. symmetry in E. now apply output_dir_not_inside in E. }
    assert (Hok2 : output_dir_usable d2).
    { split.
      - right. unfold d2. rewrite lookup_insert_ne; [exact Hd1|].
        apply output_dir_not_inside.
      - intros n. unfold d2.
        destruct (decide (output_dir +:+ "/" +:+ name = output_dir +:+ "/" +:+ n))
          as [->|Hne].
        + rewrite lookup_insert_eq. discriminate.
        + rewrite lookup_insert_ne by exact Hne. apply Hd1free. }
    set (s2 := mkImgWorld (img_globals s) d2 (S (clock s)) (img_trace s)).
    destruct (IH s2 Hok2) as [Hrest Hokrest].
    split; [|exact Hokrest].
    simpl save_images. unfold base64_encode_image, write_file, read_file. run_IM.
    assert (Hafter : (if negb (bool_decide (is_Some (disk s !! output_dir)))
                      then <[output_dir := Dir]> (disk s) else disk s) = d1).
    { destruct Hdir as [Hnone|Hsome].
      - rewrite Hnone. rewrite bool_decide_eq_false_2 by (intros [x Hx]; discriminate).
        reflexivity.
      - rewrite Hsome. rewrite bool_decide_eq_true_2 by eauto. simpl.
        unfold d1. now rewrite insert_id. }
    destruct (negb (bool_decide (is_Some (disk s !! output_dir)))); simpl;
      rewrite Hafter; fold name; rewrite Hd1;
      (destruct (d1 !! (output_dir +:+ "/" +:+ name)) as [[|c]|] eqn:Hold;
       [exfalso; exact (Hd1free name Hold)| |]);
      simpl; rewrite lookup_insert_eq; simpl;
      fold d2; fold s2; rewrite Hrest; simpl;
      rewrite Nat.add_0_r;
      (apply (f_equal2 pair);
       [ do 2 f_equal; try reflexivity;
         apply imap_ext; intros i x _; simpl; rewrite Nat.add_succ_r; reflexivity
       | f_equal; try reflexivity; try lia;
         unfold d2, d1; rewrite insert_insert_eq; reflexivity ]).
Qed.

(** Saving images adds nothing to the trace, whatever happens. *)
Lemma save_images_trace (prefix : string) (images : list Image) (s : ImgWorld) :
  img_trace ((save_images prefix images s).2) = img_trace s.
Proof.
  revert s. induction images as [|image rest IH]; intros s; [reflexivity|].
  simpl save_images. unfold base64_encode_image, write_file, read_file. run_IM.
  destruct (negb (bool_decide (is_Some (disk s !! output_dir)))); simpl;
    repeat match goal with
           | |- context [match ?d !! ?k with _ => _ end] =>
               destruct (d !! k) as [[|?]|]; simpl; try reflexivity
           end;
    match goal with
    | |- context [save_images prefix rest ?s0] =>
        specialize (IH s0); destruct (save_images prefix rest s0) as [[?|?] ?];
        simpl in *; exact IH
    end.
Qed.

(** What an endpoint adds to the trace beyond the events of the generation
    call: nothing, or the log entry of an error. *)
Lemma image_endpoint_trace (prefix label : string) (request : ImageGenerationRequest)
    (s : ImgWorld) :
  image_calls (img_trace ((image_endpoint prefix label request s).2))
  = image_calls (img_trace
      ((nexa_run_image_generation (ig_prompt request) (ig_image_path request)
          (ig_cfg_scale request) (ig_width request) (ig_height request)
          (ig_sample_steps request) (ig_seed request) (ig_negative_prompt request) s).2)).
Proof.
  unfold image_endpoint. unfold itry_except, mbind, IM_bind, ibind at 1.
  destruct (nexa_run_image_generation _ _ _ _ _ _ _ _ s) as [[e|images] s1]; simpl.
  - run_IM. unfold image_calls. rewrite List.filter_app. simpl. apply app_nil_r.
  - run_IM.
    match goal with
    | |- context [save_images prefix images ?s0] =>
        pose proof (save_images_trace prefix images s0) as Ht;
        destruct (save_images prefix images s0) as [[e|data] s2]
    end; simpl in *.
    + unfold image_calls. rewrite List.filter_app, Ht. simpl. apply app_nil_r.
    + now rewrite Ht.
Qed.

Lemma run_blank (request : ImageGenerationRequest) (s : ImgWorld) (sd : StableDiffusion) :
  model (img_globals s) = Some (HStableDiffusion sd) ->
  blank (ig_image_path request) = true ->
  nexa_run_image_generation (ig_prompt request) (ig_image_path request)
    (ig_cfg_scale request) (ig_width request) (ig_height request)
    (ig_sample_steps request) (ig_seed request) (ig_negative_prompt request) s
  = (txt_to_img sd (image_params request),
     mkImgWorld (img_globals s) (disk s) (clock s)
                (img_trace s ++ [IvTxtToImg (image_params request)])).
Proof.
  intros Hm Hb. unfold nexa_run_image_generation. rewrite Hm, Hb. reflexivity.
Qed.

(** X20. The route does not choose the operation.  When the image path of
    the request is absent or empty, or when [strip()] leaves nothing of
    it, both [/v1/txt2img] and [/v1/img2img] call [txt_to_img], once, with
    the parameters of the request, and never [img_to_img]. *)
Theorem blank_image_path_means_text_to_image (request : ImageGenerationRequest)
    (s : ImgWorld) (sd : StableDiffusion) :
  model (img_globals s) = Some (HStableDiffusion sd) ->
  blank (ig_image_path request) = true ->
  image_calls (img_trace ((txt2img request s).2))
  = image_calls (img_trace s) ++ [IvTxtToImg (image_params request)]
  /\ image_calls (img_trace ((img2img request s).2))
     = image_calls (img_trace s) ++ [IvTxtToImg (image_params request)].
Proof.
  intros Hm Hb. unfold txt2img, img2img.
  rewrite !image_endpoint_trace, (run_blank request s sd Hm Hb). simpl.
  unfold image_calls. rewrite List.filter_app. auto.
Qed.

(** X21. When [strip()] leaves something of the image path and what it
    leaves names a file that decodes to an image, both routes call
    [img_to_img], once, with that image and the parameters of the request:
    [/v1/txt2img] too. *)
Theorem image_path_means_image_to_image (request : ImageGenerationRequest)
    (s : ImgWorld) (sd : StableDiffusion) (content : string) (image : Image) :
  model (img_globals s) = Some (HStableDiffusion sd) ->
  blank (ig_image_path request) = false ->
  disk s !! strip (default "" (ig_image_path request)) = Some (File content) ->
  Image_decode content = inr image ->
  image_calls (img_trace ((txt2img request s).2))
  = image_calls (img_trace s) ++ [IvImgToImg image (image_params request)]
  /\ image_calls (img_trace ((img2img request s).2))
     = image_calls (img_trace s) ++ [IvImgToImg image (image_params request)].
Proof.
  intros Hm Hb Hfile Hdec. unfold txt2img, img2img.
  rewrite !image_endpoint_trace.
  assert (Hrun : img_trace
    ((nexa_run_image_generation (ig_prompt request) (ig_image_path request)
        (ig_cfg_scale request) (ig_width request) (ig_height request)
        (ig_sample_steps request) (ig_seed request) (ig_negative_prompt request) s).2)
    = img_trace s ++ [IvImgToImg image (image_params request)]).
  { unfold nexa_run_image_generation, Image_open, read_file. rewrite Hm, Hb. run_IM.
    rewrite Hfile. rewrite bool_decide_eq_true_2 by eauto. simpl.
    rewrite Hfile, Hdec. reflexivity. }
  rewrite Hrun. unfold image_calls. rewrite List.filter_app. auto.
Qed.

(** X22. When [strip()] leaves something of the image path and what it
    leaves names nothing that exists, both routes answer with status 500
    and the message naming the stripped path.  The check comes before the model
    handle is used: whatever handle is loaded, no engine is called, and
    neither the files nor the clock are touched. *)
Theorem missing_image_file_is_500 (request : ImageGenerationRequest) (s : ImgWorld)
    (m : ModelHandle) :
  model (img_globals s) = Some m ->
  blank (ig_image_path request) = false ->
  disk s !! strip (default "" (ig_image_path request)) = None ->
  let detail := "Image file not found: " +:+ strip (default "" (ig_image_path request)) in
  txt2img request s
  = (inl (HTTPException 500 detail),
     mkImgWorld (img_globals s) (disk s) (clock s)
                (img_trace s ++ [IvLog ERROR ("Error in txt2img generation: " +:+ detail)]))
  /\ img2img request s
     = (inl (HTTPException 500 detail),
        mkImgWorld (img_globals s) (disk s) (clock s)
                   (img_trace s ++ [IvLog ERROR ("Error in img2img generation: "
                                                 +:+ detail)])).
Proof.
  intros Hm Hb Hnone detail.
  unfold txt2img, img2img, image_endpoint, nexa_run_image_generation.
  run_IM. rewrite Hm, Hb. simpl. rewrite Hnone.
  rewrite bool_decide_eq_false_2 by (intros [x Hx]; discriminate). simpl.
  destruct s; split; reflexivity.
Qed.

(** An endpoint that generates from text into a usable output directory. *)
Lemma image_endpoint_ok (prefix label : string) (request : ImageGenerationRequest)
    (s : ImgWorld) (sd : StableDiffusion) (images : list Image) :
  model (img_globals s) = Some (HStableDiffusion sd) ->
  blank (ig_image_path request) = true ->
  txt_to_img sd (image_params request) = inr images ->
  output_dir_usable (disk s) ->
  image_endpoint prefix label request s
  = (inr (mkImageGenerationResponse (time (clock s))
            (imap (fun i image =>
                     mkImageResponse (b64encode (png_of image))
                                     (abspath (output_dir +:+ "/"
                                               +:+ saved_name prefix (clock s) i)))
                  images)),
     mkImgWorld (img_globals s) (saved_disk prefix (S (clock s)) images (disk s))
                (S (clock s) + length images)
                (img_trace s ++ [IvTxtToImg (image_params request)])).
Proof.
  intros Hm Hb Hgen Hok. unfold image_endpoint.
  unfold itry_except, mbind, IM_bind, ibind at 1.
  rewrite (run_blank request s sd Hm Hb), Hgen. run_IM.
  match goal with
  | |- context [save_images prefix images ?s0] =>
      destruct (save_images_ok prefix images s0 Hok) as [-> _]
  end.
  reflexivity.
Qed.

(** X23. A request that generates from text, with the output directory
    absent or a directory: the response has one entry for each image the
    engine returned, in the engine's order.  The entry of an image holds
    the base64 of the bytes saved for it and the absolute path of
    [nexa_server_output/<route>_<id>.png], where [id] is the whole second
    of the clock when the image was saved; [created] is the reading of the
    clock before the first image.  The two routes differ in the prefix of
    the file names only. *)
Theorem image_response_lists_every_image (request : ImageGenerationRequest)
    (s : ImgWorld) (sd : StableDiffusion) (images : list Image) :
  model (img_globals s) = Some (HStableDiffusion sd) ->
  blank (ig_image_path request) = true ->
  txt_to_img sd (image_params request) = inr images ->
  output_dir_usable (disk s) ->
  (txt2img request s).1
  = inr (mkImageGenerationResponse (time (clock s))
           (imap (fun i image =>
                    mkImageResponse (b64encode (png_of image))
                                    (abspath (output_dir +:+ "/"
                                              +:+ saved_name "txt2img" (clock s) i)))
                 images))
  /\ (img2img request s).1
     = inr (mkImageGenerationResponse (time (clock s))
              (imap (fun i image =>
                       mkImageResponse (b64encode (png_of image))
                                       (abspath (output_dir +:+ "/"
                                                 +:+ saved_name "img2img" (clock s) i)))
                    images))
  /\ length (ir_data (mkImageGenerationResponse (time (clock s))
              (imap (fun i image =>
                       mkImageResponse (b64encode (png_of image))
                                       (abspath (output_dir +:+ "/"
                                                 +:+ saved_name "txt2img" (clock s) i)))
                    images)))
     = length images.
Proof.
  intros Hm Hb Hgen Hok. unfold txt2img, img2img.
  rewrite !(image_endpoint_ok _ _ request s sd images Hm Hb Hgen Hok). simpl.
  repeat split. apply length_imap.
Qed.

Lemma saved_disk_same_second (prefix : string) (c : Z) (earlier : list Image)
    (final : Image) (k : nat) (d : gmap string Entry) :
  (forall n, int_of_float (time n) = c) ->
  saved_disk prefix k (earlier ++ [final]) d !! (output_dir +:+ "/" +:+ image_name prefix c)
  = Some (File (png_of final)).
Proof.
  intros Hc. revert k d. induction earlier as [|image rest IH]; intros k d; simpl.
  - rewrite Hc. apply lookup_insert_eq.
  - apply IH.
Qed.

Lemma saved_urls_same_second (prefix : string) (c : Z) (images : list Image) (k : nat) :
  (forall n, int_of_float (time n) = c) ->
  map url (imap (fun i image =>
                   mkImageResponse (b64encode (png_of image))
                                   (abspath (output_dir +:+ "/" +:+ saved_name prefix k i)))
                images)
  = replicate (length images) (abspath (output_dir +:+ "/" +:+ image_name prefix c)).
Proof.
  intros Hc. revert k. induction images as [|x l IH]; intros k; [reflexivity|].
  cbn [imap map length replicate]. unfold saved_name at 1. rewrite Hc. f_equal.
  rewrite <- (IH (S k)). apply (f_equal (map url)).
  apply imap_ext. intros i y _. unfold compose, saved_name. cbv beta. now rewrite !Hc.
Qed.

Lemma saved_base64 (u : nat -> string) (images : list Image) :
  map base64 (imap (fun i image => mkImageResponse (b64encode (png_of image)) (u i)) images)
  = map (fun image => b64encode (png_of image)) images.
Proof.
  revert u. induction images as [|x l IH]; intros u; [reflexivity|].
  cbn [imap map]. f_equal. apply (IH (u ∘ S)).
Qed.

(** X24. Images saved within the same second overwrite one another.  When
    the clock shows the same whole second for the whole request, every
    entry of the response has the same [url]; the file it names holds the
    last image only, while the [base64] of each entry is still that of its
    own image. *)
Theorem images_of_one_second_share_a_file (request : ImageGenerationRequest)
    (s : ImgWorld) (sd : StableDiffusion) (earlier : list Image) (final : Image) (c : Z) :
  model (img_globals s) = Some (HStableDiffusion sd) ->
  blank (ig_image_path request) = true ->
  txt_to_img sd (image_params request) = inr (earlier ++ [final]) ->
  output_dir_usable (disk s) ->
  (forall n, int_of_float (time n) = c) ->
  exists created data,
    (txt2img request s).1 = inr (mkImageGenerationResponse created data)
    /\ map url data
       = replicate (S (length earlier))
                   (abspath (output_dir +:+ "/" +:+ image_name "txt2img" c))
    /\ map base64 data = map (fun image => b64encode (png_of image)) (earlier ++ [final])
    /\ disk ((txt2img request s).2) !! (output_dir +:+ "/" +:+ image_name "txt2img" c)
       = Some (File (png_of final)).
Proof.
  intros Hm Hb Hgen Hok Hc. unfold txt2img.
  rewrite (image_endpoint_ok _ _ request s sd _ Hm Hb Hgen Hok).
  eexists _, _. split; [reflexivity|]. split; [|split].
  - rewrite (saved_urls_same_second _ c _ _ Hc). f_equal.
    rewrite length_app. simpl. lia.
  - apply (saved_base64
             (fun i => abspath (output_dir +:+ "/" +:+ saved_name "txt2img" (clock s) i))).
  - cbn [snd disk]. now apply saved_disk_same_second.
Qed.

End ImageProperties.

(** * Properties of the audio endpoints *)

Section AudioProperties.
Context `{env : Env}.

(** ** Staging that fails, and the text returned *)

Lemma join_segments_of_list (segments : list string) :
  join_segments (gen_of_list segments) = inr (join segments).
Proof. induction segments as [|text rest IH]; simpl; [reflexivity|]. now rewrite IH. Qed.

(** The body the two handlers share, when the upload can not be staged. *)
Lemma staging_failure_unbound {A} (w w' : World) (file : UploadFile)
    (rest : string -> M A) (handler : Exception -> M A) (e : Exception) :
  stage_upload file w = (inl e, w') ->
  (forall e0 w0, exists e1, handler e0 w0 = (inl e1, w0)) ->
  try_except_finally (stage_upload file) rest handler unlink_local w
  = (inl (Exc UnboundLocalError (unbound_local "temp_audio_path")), w').
Proof.
  intros Hstage Hh. unfold try_except_finally. rewrite Hstage.
  unfold try_finally. destruct (Hh e w') as (e1 & ->). reflexivity.
Qed.

(** X25. When the upload can not be staged (the temporary file can not be
    created, reading the upload raises, or writing it raises), both audio
    endpoints end with [UnboundLocalError]: the [finally] block reads
    [temp_audio_path], which was never bound, and its exception replaces
    the [HTTPException] of the handler.  The error of the staging is lost,
    no engine is called, nothing is unlinked: a temporary file that was
    created stays. *)
Theorem staging_failure_ends_in_unbound_local (w w' : World) (file : UploadFile)
    (beam_size : option Z) (language : option string) (temperature : option float)
    (e : Exception) :
  stage_upload file w = (inl e, w') ->
  let unbound := Exc UnboundLocalError (unbound_local "temp_audio_path") in
  post_audio_transcriptions (Some file) beam_size language temperature w = (inl unbound, w')
  /\ post_audio_translations (Some file) beam_size temperature w = (inl unbound, w')
  /\ engine_calls (trace w') = engine_calls (trace w)
  /\ forall name, mktemp_name (fs w) (splitext_ext (filename file)) = inr name ->
                  fs w' = {[name]} ∪ fs w.
Proof.
  intros Hstage unbound. split; [|split; [|split]].
  - apply (staging_failure_unbound w w' file _ _ e Hstage). intros e0 w0. eexists.
    reflexivity.
  - apply (staging_failure_unbound w w' file _ _ e Hstage). intros e0 w0. eexists.
    reflexivity.
  - revert Hstage. unfold stage_upload, NamedTemporaryFile, file_write. run_M.
    destruct (mktemp_name _ _) as [e0|name]; simpl; [now intros [= _ <-]|].
    destruct (file_read file) as [e1|data]; simpl.
    + intros [= _ <-]. simpl. rewrite engine_calls_app. simpl. apply app_nil_r.
    + destruct (write_fault name data); simpl; [|discriminate].
      intros [= _ <-]. simpl. rewrite engine_calls_app. simpl. apply app_nil_r.
  - intros name Hname. revert Hstage.
    unfold stage_upload, NamedTemporaryFile, file_write. run_M. rewrite Hname. simpl.
    destruct (file_read file) as [e1|data]; simpl; [now intros [= _ <-]|].
    destruct (write_fault name data); simpl; [|discriminate]. now intros [= _ <-].
Qed.

(** The body the two handlers share, when the engine returns its segments. *)
Lemma staged_and_transcribed (w : World) (file : UploadFile) (params : TranscribeParams)
    (handler : Exception -> M Response) (name data : string) (wm : WhisperModel)
    (segments : list string) :
  mktemp_name (fs w) (splitext_ext (filename file)) = inr name ->
  file_read file = inr data ->
  write_fault name data = None ->
  model (globals w) = Some (HWhisperModel wm) ->
  transcribe wm name params = inr (gen_of_list segments) ->
  try_except_finally (stage_upload file)
    (fun temp_audio_path => call_transcribe temp_audio_path params) handler unlink_local w
  = (inr (Transcription (join segments)),
     mkWorld (globals w) (fs w ∖ {[name]})
             (trace w ++ [EvTempFile name; EvTranscribe name params; EvUnlink name])).
Proof.
  intros Hname Hread Hwrite Hm Hseg.
  unfold try_except_finally, stage_upload, NamedTemporaryFile, file_write, call_transcribe.
  run_M. rewrite Hname. simpl. rewrite Hread. simpl. rewrite Hwrite. simpl.
  rewrite Hm. simpl. rewrite Hseg. simpl. rewrite join_segments_of_list. simpl.
  unfold unlink_local, os_unlink. simpl.
  destruct (decide (name ∈ {[name]} ∪ fs w)) as [_|Hn];
    [|exfalso; apply Hn, elem_of_union; left; now apply elem_of_singleton].
  rewrite created_then_unlinked, <- !app_assoc. reflexivity.
Qed.

(** X26. A request served by a loaded [WhisperModel] whose segments all
    arrive: the text of the response is the segments' texts joined with
    nothing between them, in order.  The engine is called once, on the
    temporary file, with the beam size and the temperature of the request,
    [vad_filter=True], and the task of the route; the translation route
    passes no language.  The trace is: file created, engine called, file
    unlinked. *)
Theorem transcription_is_the_joined_segments (w : World) (file : UploadFile)
    (beam_size : option Z) (language : option string) (temperature : option float)
    (name data : string) (wm : WhisperModel) (heard translated : list string) :
  mktemp_name (fs w) (splitext_ext (filename file)) = inr name ->
  file_read file = inr data ->
  write_fault name data = None ->
  model (globals w) = Some (HWhisperModel wm) ->
  let transcribe_params := mkTranscribeParams beam_size language "transcribe" temperature true in
  let translate_params := mkTranscribeParams beam_size None "translate" temperature true in
  transcribe wm name transcribe_params = inr (gen_of_list heard) ->
  transcribe wm name translate_params = inr (gen_of_list translated) ->
  post_audio_transcriptions (Some file) beam_size language temperature w
  = (inr (Transcription (join heard)),
     mkWorld (globals w) (fs w ∖ {[name]})
             (trace w ++ [EvTempFile name; EvTranscribe name transcribe_params;
                          EvUnlink name]))
  /\ post_audio_translations (Some file) beam_size temperature w
     = (inr (Transcription (join translated)),
        mkWorld (globals w) (fs w ∖ {[name]})
                (trace w ++ [EvTempFile name; EvTranscribe name translate_params;
                             EvUnlink name])).
Proof.
  intros Hname Hread Hwrite Hm p1 p2 H1 H2. split.
  - apply (staged_and_transcribed w file p1 _ name data wm heard); assumption.
  - apply (staged_and_transcribed w file p2 _ name data wm translated); assumption.
Qed.

End AudioProperties.

(** * Properties of the bindings *)

Section BindingProperties.
Context `{ctypes : Ctypes}.


(** The decorator on a symbol the library exports: the function object is
    the library's, with everything the decorator sets. *)
Lemma ctypes_function_exported (name : string) (argtypes : list CType)
    (restype : option CType) (f : PyFunction) (lib : CDLL) :
  name ∈ exports lib ->
  ctypes_function name argtypes restype true f lib
  = (inr (Native name),
     mkCDLL (exports lib)
            (<[name := mkFuncPtr (Some argtypes) restype (Some f)]> (cached lib))).
Proof.
  intros Hin. unfold ctypes_function, lib_getattr, set_argtypes, set_restype, wraps.
  unfold mbind, mret, LM_bind, LM_ret, lbind, lret.
  destruct (cached lib !! name) as [fp|] eqn:E; simpl.
  - do 2 f_equal. apply map_eq. intros k. destruct (decide (k = name)) as [->|Hk].
    + rewrite !lookup_alter_eq, E, lookup_insert_eq. reflexivity.
    + rewrite !lookup_alter_ne, lookup_insert_ne by done. reflexivity.
  - rewrite bool_decide_eq_true_2 by exact Hin. simpl.
    rewrite !alter_insert_eq. reflexivity.
Qed.

Lemma ctypes_function_missing (name : string) (argtypes : list CType)
    (restype : option CType) (f : PyFunction) (lib : CDLL) :
  dom (cached lib) ⊆ exports lib ->
  name ∉ exports lib ->
  ctypes_function name argtypes restype true f lib
  = (inl (Exc AttributeError (undefined_symbol name)), lib).
Proof.
  intros Hdom Hout. unfold ctypes_function, lib_getattr.
  unfold mbind, LM_bind, lbind.
  assert (E : cached lib !! name = None).
  { apply not_elem_of_dom. intros Hc. apply Hout, Hdom, Hc. }
  rewrite E, bool_decide_eq_false_2 by exact Hout. reflexivity.
Qed.

(** A list of declarations, executed: it stops at the first symbol that
    is missing. *)
Lemma declare_outcome (decls : list Declaration) (namespace : gmap string Binding)
    (lib : CDLL) :
  dom (cached lib) ⊆ exports lib ->
  match first_missing (exports lib) decls with
  | None =>
      declare decls namespace lib
      = (inr (bound_names decls namespace),
         mkCDLL (exports lib) (declared_objects decls (cached lib)))
  | Some d =>
      (declare decls namespace lib).1
      = inl (Exc AttributeError (undefined_symbol (d_symbol d)))
  end.
Proof.
  revert namespace lib. induction decls as [|d rest IH]; intros namespace lib Hdom.
  - destruct lib; reflexivity.
  - unfold first_missing. cbn [List.find declare]. unfold mbind, LM_bind, lbind.
    destruct (decide (d_symbol d ∈ exports lib)) as [Hin|Hout].
    + rewrite (bool_decide_eq_true_2 _ Hin). cbn [negb].
      rewrite (ctypes_function_exported _ _ _ _ lib Hin).
      match goal with
      | |- context [declare rest ?ns ?lib1] => specialize (IH ns lib1)
      end.
      cbn [exports cached] in IH. unfold first_missing in IH.
      destruct (List.find _ rest).
      * apply IH. rewrite dom_insert_L. apply union_least; [|exact Hdom].
        now apply singleton_subseteq_l.
      * apply IH. rewrite dom_insert_L. apply union_least; [|exact Hdom].
        now apply singleton_subseteq_l.
    + rewrite (bool_decide_eq_false_2 _ Hout). cbn [negb].
      now rewrite (ctypes_function_missing _ _ _ _ lib Hdom Hout).
Qed.

Lemma first_missing_none (exported : gset string) (decls : list Declaration) :
  first_missing exported decls = None
  <-> forall d, In d decls -> d_symbol d ∈ exported.
Proof.
  unfold first_missing. split.
  - intros Hnone d Hin. pose proof (find_none _ _ Hnone d Hin) as Hd.
    apply negb_false_iff, bool_decide_eq_true in Hd. exact Hd.
  - intros Hall. destruct (List.find _ decls) as [d|] eqn:E; [|reflexivity].
    apply find_some in E as [Hin Hd].
    apply negb_true_iff, bool_decide_eq_false in Hd. destruct (Hd (Hall d Hin)).
Qed.

Lemma bound_names_native (decls : list Declaration) (namespace : gmap string Binding)
    (name : string) (f : PyFunction) :
  (forall name', namespace !! name' <> Some (Python f)) ->
  bound_names decls namespace !! name <> Some (Python f).
Proof.
  revert namespace. induction decls as [|d rest IH]; intros namespace Hns; simpl.
  - apply Hns.
  - apply IH. intros name'. destruct (decide (name' = d_def d)) as [->|Hne].
    + rewrite lookup_insert_eq. discriminate.
    + rewrite lookup_insert_ne by done. apply Hns.
Qed.

(** X27. Importing the module succeeds exactly when the library exports
    the symbol of each of the seven declarations.  Otherwise the import
    raises [AttributeError] for the first symbol, in the order of the
    module, that the library lacks: no declaration is skipped, since none
    passes [enabled=False]. *)
Theorem import_needs_every_symbol (lib : CDLL) :
  dom (cached lib) ⊆ exports lib ->
  ((exists namespace, (import_llava_cpp lib).1 = inr namespace)
   <-> forall d, In d declarations -> d_symbol d ∈ exports lib)
  /\ forall d, first_missing (exports lib) declarations = Some d ->
       (d_symbol d ∉ exports lib)
       /\ (import_llava_cpp lib).1
          = inl (Exc AttributeError (undefined_symbol (d_symbol d))).
Proof.
  intros Hdom. pose proof (declare_outcome declarations ∅ lib Hdom) as Hout.
  fold import_llava_cpp in Hout. split.
  - rewrite <- first_missing_none.
    destruct (first_missing (exports lib) declarations) as [d|].
    + rewrite Hout. split; [intros [ns Hns]|]; discriminate.
    + rewrite Hout. split; eauto.
  - intros d Hd. rewrite Hd in Hout. split; [|exact Hout].
    apply find_some in Hd as [_ Hd]. now apply negb_true_iff, bool_decide_eq_false in Hd.
Qed.

(** X28. After an import that succeeded, the name of each declaration is
    bound to the function object of the library for its symbol, and that
    object carries the [argtypes] and the [restype] of its own
    declaration and the Python function as [__wrapped__]: the seven
    declarations do not disturb one another.  No name of the module is
    left bound to a Python function, so the bodies of the [def]s are never
    what a call runs. *)
Theorem every_name_is_bound_to_its_symbol (lib lib' : CDLL)
    (namespace : gmap string Binding) (d : Declaration) :
  dom (cached lib) ⊆ exports lib ->
  import_llava_cpp lib = (inr namespace, lib') ->
  In d declarations ->
  namespace !! d_def d = Some (Native (d_symbol d))
  /\ cached lib' !! d_symbol d = Some (declared d)
  /\ exports lib' = exports lib
  /\ forall name f, namespace !! name <> Some (Python f).
Proof.
  intros Hdom Himport Hin.
  pose proof (declare_outcome declarations ∅ lib Hdom) as Hout.
  fold import_llava_cpp in Hout.
  destruct (first_missing (exports lib) declarations) as [d'|].
  { rewrite Himport in Hout. discriminate. }
  rewrite Himport in Hout. injection Hout as -> ->.
  split; [|split; [|split; [reflexivity|]]].
  - unfold bound_names. simpl in *.
    repeat (destruct Hin as [<-|Hin];
            [cbn [d_def d_symbol];
             repeat first [rewrite lookup_insert_eq | rewrite lookup_insert_ne by done];
             reflexivity|]).
    destruct Hin.
  - unfold declared_objects. simpl in *.
    repeat (destruct Hin as [<-|Hin];
            [cbn [d_def d_symbol];
             repeat first [rewrite lookup_insert_eq | rewrite lookup_insert_ne by done];
             reflexivity|]).
    destruct Hin.
  - intros name f. apply (bound_names_native declarations ∅ name f).
    intros name'. now rewrite lookup_empty.
Qed.

End BindingProperties.

(** * The properties at concrete inputs *)

Section Examples.
#[local] Existing Instance example_env.

(** C1, on the code: with no chat format set, the non-streaming request
    is answered with the text of the drained producer, and the same request
    with [stream=true] is answered with three events: the frames of the
    strings [result] and [logprobs], the keys of the result record, and the
    sentinel.  The text of the first is not the content of the second. *)
Theorem stream_on_completion_branch_emits_dict_keys :
  (generate_text (example_request "Hi" (Some false)) llama_world).1
  = inr (TextCompletion "id-0" "text_completion" 1700000000 "gemma"
                        [mkTextChoice "Hi." 0 None "stop"])
  /\ (generate_text (example_request "Hi" (Some true)) llama_world).1
     = inr (StreamingResponse
              (gen_of_list [wire_frame (sse_chunk "id-0" 0 (TokKey "result"));
                            wire_frame (sse_chunk "id-0" 1 (TokKey "logprobs"));
                            wire_done])
              "application/x-ndjson")
  /\ join (map token_text [TokKey "result"; TokKey "logprobs"]) <> "Hi.".
Proof. repeat split; try reflexivity. discriminate. Qed.

(** C2, the claim as stated fails: a completion request against the audio
    handle is answered with status 500, not with a 4xx status. *)
Lemma audio_handle_text_request_is_not_4xx :
  (generate_text (example_request "Hi" (Some false)) whisper_world).1
  = inl (HTTPException 500 "'WhisperModel' object has no attribute 'create_completion'")
  /\ ~ (exists status detail,
          (generate_text (example_request "Hi" (Some false)) whisper_world).1
          = inl (HTTPException status detail)
          /\ 400 <= status < 500).
Proof.
  split; [reflexivity|].
  intros (status & detail & E & Hs). vm_compute in E. injection E as <- _. lia.
Qed.

Lemma text_request_on_other_kind_is_500_witness :
  model (globals whisper_world) = Some (HWhisperModel silent_whisper)
  /\ is_llama (HWhisperModel silent_whisper) = false
  /\ (generate_text (example_request "Hi" (Some false)) whisper_world).1
     = inl (HTTPException 500
              ("'" +:+ class_name (HWhisperModel silent_whisper)
               +:+ "' object has no attribute 'create_completion'")).
Proof.
  split; [reflexivity|]. split; [reflexivity|].
  apply (text_request_on_other_kind_is_500 whisper_world (HWhisperModel silent_whisper)
           (example_request "Hi" (Some false)) (chat_request_of []));
    reflexivity.
Defined.

Lemma gpu_failure_falls_back_to_cpu_once_witness :
  trace ((load_model unloaded_world).2)
  = trace unloaded_world
    ++ [EvPullModel "gemma" false; EvLlamaInit gpu_args;
        fallback_notice (Exc RuntimeError "no CUDA device");
        EvLlamaInit (with_n_gpu_layers gpu_args 0); EvLog INFO "model loaded as Llama"]
  /\ la_n_gpu_layers gpu_args = -1
  /\ Llama_init gpu_args = inl (Exc RuntimeError "no CUDA device")
  /\ exists before after,
      [EvPullModel "gemma" false; EvLlamaInit gpu_args;
       fallback_notice (Exc RuntimeError "no CUDA device");
       EvLlamaInit (with_n_gpu_layers gpu_args 0); EvLog INFO "model loaded as Llama"]
      = before ++ [EvLlamaInit gpu_args;
                   fallback_notice (Exc RuntimeError "no CUDA device");
                   EvLlamaInit (with_n_gpu_layers gpu_args 0)] ++ after
      /\ llama_inits before = [] /\ llama_inits after = []
      /\ llama_inits [EvPullModel "gemma" false; EvLlamaInit gpu_args;
                      fallback_notice (Exc RuntimeError "no CUDA device");
                      EvLlamaInit (with_n_gpu_layers gpu_args 0);
                      EvLog INFO "model loaded as Llama"]
         = [gpu_args; with_n_gpu_layers gpu_args 0].
Proof.
  split; [reflexivity|]. split; [reflexivity|]. split; [reflexivity|].
  apply (gpu_failure_falls_back_to_cpu_once unloaded_world gpu_args
           (Exc RuntimeError "no CUDA device")).
  - reflexivity.
  - simpl. tauto.
  - reflexivity.
  - reflexivity.
Defined.

Lemma temp_audio_file_removed_witness :
  mktemp_name (fs whisper_world) (splitext_ext (filename example_upload))
  = inr "/tmp/tmp0.wav"
  /\ file_read example_upload = inr "RIFF"
  /\ write_fault "/tmp/tmp0.wav" "RIFF" = None
  /\ "/tmp/tmp0.wav"
     ∉ fs ((post_audio_transcriptions (Some example_upload) (Some 5) None (Some 0%Q)
                                       whisper_world).2).
Proof.
  split; [reflexivity|]. split; [reflexivity|]. split; [reflexivity|].
  apply (temp_audio_file_removed whisper_world example_upload (Some 5) None (Some 0%Q)
           "/tmp/tmp0.wav" "RIFF"); reflexivity.
Defined.



Lemma nonstreaming_logprobs_merged_witness :
  model (globals llama_world) = Some (HLlama echo_llama)
  /\ truthy_bool (stream logprobs_request) = false
  /\ truthy_bool (logprobs logprobs_request) = true
  /\ generation_call (globals llama_world) logprobs_request
     = inr (example_call "Hi" 1%Q 128 50 1%Q (Some true))
  /\ produced echo_llama (example_call "Hi" 1%Q 128 50 1%Q (Some true))
     = Some [("Hi", LpRec (lp_rec "echo" (-1 # 2)%Q)); (".", LpRec (lp_rec "." (-1 # 4)%Q))]
  /\ nulls_only_lead [LpRec (lp_rec "echo" (-1 # 2)%Q); LpRec (lp_rec "." (-1 # 4)%Q)] = true
  /\ (generate_text logprobs_request llama_world).1
     = inr (TextCompletion "id-0" "text_completion" 1700000000 "gemma"
              [mkTextChoice "Hi." 0
                 (Some (<["tokens" := [ItemStr "echo"; ItemStr "."]]>
                          (<["token_logprobs" := [ItemFloat (-1 # 2)%Q;
                                                  ItemFloat (-1 # 4)%Q]]> ∅)))
                 "stop"]).
Proof.
  repeat (split; [reflexivity|]).
  refine (proj1 (nonstreaming_logprobs_merged llama_world echo_llama logprobs_request
           (example_call "Hi" 1%Q 128 50 1%Q (Some true))
           [("Hi", LpRec (lp_rec "echo" (-1 # 2)%Q)); (".", LpRec (lp_rec "." (-1 # 4)%Q))]
           _ _ _ _ _ _));
    reflexivity.
Defined.

(** No bound is declared or checked: a request with a negative
    temperature, a negative top-k, a top-p of 7 and a negative token limit
    is dispatched to the model handle with these values and answered with
    a completion. *)
Lemma out_of_range_sampling_is_dispatched :
  (generate_text out_of_range_request llama_world).1
  = inr (TextCompletion "id-0" "text_completion" 1700000000 "gemma"
                        [mkTextChoice "Hi." 0 None "stop"])
  /\ trace ((generate_text out_of_range_request llama_world).2)
     = [example_call "Hi" (-1)%Q (-3) (-5) 7%Q (Some false)]
  /\ ~ (exists status detail,
          (generate_text out_of_range_request llama_world).1
          = inl (HTTPException status detail)).
Proof.
  split; [reflexivity|]. split; [reflexivity|].
  intros (status & detail & E). vm_compute in E. discriminate.
Qed.




(** C4, on the code: an upload that can not be read.  When reading raises,
    the temporary file exists already and [temp_audio_path] is not bound
    yet, so the [finally] block raises [UnboundLocalError] where it should
    unlink: on both endpoints the file stays in the file system and the
    [HTTPException] of the handler is lost.  The same request with an
    upload that can be read leaves no file. *)
Theorem unreadable_upload_leaves_temp_file :
  post_audio_transcriptions (Some broken_upload) (Some 5) None (Some 0%Q) whisper_world
  = (inl (Exc UnboundLocalError (unbound_local "temp_audio_path")),
     mkWorld (globals whisper_world) ({["/tmp/tmp0.wav"]} ∪ fs whisper_world)
             (trace whisper_world ++ [EvTempFile "/tmp/tmp0.wav"]))
  /\ post_audio_translations (Some broken_upload) (Some 5) (Some 0%Q) whisper_world
     = (inl (Exc UnboundLocalError (unbound_local "temp_audio_path")),
        mkWorld (globals whisper_world) ({["/tmp/tmp0.wav"]} ∪ fs whisper_world)
                (trace whisper_world ++ [EvTempFile "/tmp/tmp0.wav"]))
  /\ "/tmp/tmp0.wav"
     ∈ fs ((post_audio_transcriptions (Some broken_upload) (Some 5) None (Some 0%Q)
                                       whisper_world).2)
  /\ "/tmp/tmp0.wav"
     ∈ fs ((post_audio_translations (Some broken_upload) (Some 5) (Some 0%Q)
                                     whisper_world).2)
  /\ ("/tmp/tmp0.wav"
      ∉ fs ((post_audio_transcriptions (Some example_upload) (Some 5) None (Some 0%Q)
                                        whisper_world).2)).
Proof.
  split; [reflexivity|]. split; [reflexivity|].
  split; [|split].
  - apply elem_of_union. left. now apply elem_of_singleton.
  - apply elem_of_union. left. now apply elem_of_singleton.
  - apply unlinked_absent.
Qed.

(** C6, on the code: a producer that closes its stream with a chunk whose
    ["logprobs"] is null, after a chunk that carried a record.  With the
    [logprobs] flag the loop reaches [key in None], which raises
    [TypeError]: the request is answered with status 500 and neither the
    text nor the record of the first chunk is returned.  Without the flag
    the same producer is drained and the text returned. *)
Theorem null_logprobs_chunk_aborts_the_merge :
  produced closing_llama (example_call "Hi" 1%Q 128 50 1%Q (Some true))
  = Some [("Hi", LpRec (lp_rec "Hi" (-1 # 2)%Q)); ("", LpNone)]
  /\ generate_text logprobs_request closing_world
     = (inl (HTTPException 500 "argument of type 'NoneType' is not iterable"),
        mkWorld (globals closing_world) (fs closing_world)
                (trace closing_world
                 ++ [example_call "Hi" 1%Q 128 50 1%Q (Some true);
                     EvLog ERROR ("Error in text generation: "
                                  +:+ "argument of type 'NoneType' is not iterable")]))
  /\ (generate_text (example_request "Hi" (Some false)) closing_world).1
     = inr (TextCompletion "id-0" "text_completion" 1700000000 "gemma"
                           [mkTextChoice "Hi" 0 None "stop"]).
Proof. repeat split; reflexivity. Qed.


End Examples.

(** * The further properties at concrete inputs *)

Section FurtherExamples.
#[local] Existing Instance example_env.
#[local] Existing Instance example_platform.
#[local] Existing Instance example_ctypes.


Lemma producer_error_streamed_and_drained_witness :
  model (globals faulty_world) = Some (HLlama faulty_llama)
  /\ generation_call (globals faulty_world) (example_request "Hi" (Some true))
     = inr (EvCreateChatCompletion faulty_params)
  /\ generation_call (globals faulty_world) (example_request "Hi" (Some false))
     = inr (EvCreateChatCompletion faulty_params)
  /\ create_chat_completion faulty_llama faulty_params = inr faulty_stream
  /\ raised faulty_stream = Some decode_failed
  /\ (generate_text (example_request "Hi" (Some false)) faulty_world).1
     = inl (HTTPException 500 "llama_decode failed").
Proof.
  repeat (split; [reflexivity|]).
  refine (proj2 (producer_error_streamed_and_drained faulty_world faulty_llama
                   (example_request "Hi" (Some true)) (example_request "Hi" (Some false))
                   faulty_params faulty_stream decode_failed _ _ _ _ _ _ _ _));
    reflexivity.
Defined.

Lemma no_logprobs_without_flag_witness :
  model (globals llama_world) = Some (HLlama echo_llama)
  /\ truthy_bool (stream (example_request "Hi" (Some false))) = false
  /\ truthy_bool (logprobs (example_request "Hi" (Some false))) = false
  /\ generation_call (globals llama_world) (example_request "Hi" (Some false))
     = inr (example_call "Hi" 1%Q 128 50 1%Q (Some false))
  /\ produced echo_llama (example_call "Hi" 1%Q 128 50 1%Q (Some false))
     = Some [("Hi", LpRec (lp_rec "echo" (-1 # 2)%Q)); (".", LpRec (lp_rec "." (-1 # 4)%Q))]
  /\ (generate_text (example_request "Hi" (Some false)) llama_world).1
     = inr (TextCompletion "id-0" "text_completion" 1700000000 "gemma"
                           [mkTextChoice "Hi." 0 None "stop"]).
Proof.
  repeat (split; [reflexivity|]).
  refine (no_logprobs_without_flag llama_world echo_llama
            (example_request "Hi" (Some false))
            (example_call "Hi" 1%Q 128 50 1%Q (Some false))
            [("Hi", LpRec (lp_rec "echo" (-1 # 2)%Q)); (".", LpRec (lp_rec "." (-1 # 4)%Q))]
            _ _ _ _ _);
    reflexivity.
Defined.

Lemma null_logprobs_after_record_is_500_witness :
  model (globals closing_world) = Some (HLlama closing_llama)
  /\ truthy_bool (logprobs logprobs_request) = true
  /\ produced closing_llama (example_call "Hi" 1%Q 128 50 1%Q (Some true))
     = Some ([] ++ ("Hi", LpRec (lp_rec "Hi" (-1 # 2)%Q)) :: [] ++ ("", LpNone) :: [])
  /\ lp_rec "Hi" (-1 # 2)%Q <> ∅
  /\ (generate_text logprobs_request closing_world).1
     = inl (HTTPException 500 "argument of type 'NoneType' is not iterable").
Proof.
  assert (Hrec : lp_rec "Hi" (-1 # 2)%Q <> ∅).
  { intros Heq. apply (f_equal (fun r => r !! "tokens")) in Heq. discriminate Heq. }
  repeat (split; [reflexivity|]). split; [exact Hrec|].
  apply (null_logprobs_after_record_is_500 closing_world closing_llama logprobs_request
           (example_call "Hi" 1%Q 128 50 1%Q (Some true)) [] [] [] "Hi" ""
           (lp_rec "Hi" (-1 # 2)%Q));
    try reflexivity.
  exact Hrec.
Defined.

Lemma engine_is_always_asked_to_stream_witness :
  In (example_call "Hi" 1%Q 128 50 1%Q (Some false))
     (engine_calls (trace ((generate_text (example_request "Hi" (Some false))
                                          llama_world).2)))
  /\ (In (example_call "Hi" 1%Q 128 50 1%Q (Some false)) (engine_calls (trace llama_world))
      \/ stream_received (example_call "Hi" 1%Q 128 50 1%Q (Some false)) = Some true).
Proof.
  split; [left; reflexivity|].
  apply (engine_is_always_asked_to_stream llama_world (example_request "Hi" (Some false))
           (chat_request_of [])).
  left. left. reflexivity.
Defined.

Lemma chat_request_with_null_sampling_is_500_witness :
  chat_temperature null_temperature_request = None
  /\ exists detail,
       chat_completions null_temperature_request llama_world
       = (inl (HTTPException 500 detail),
          mkWorld (globals llama_world) (fs llama_world)
                  (trace llama_world
                   ++ [EvLog ERROR ("Error in chat completions: " +:+ detail)])).
Proof.
  split; [reflexivity|].
  apply (chat_request_with_null_sampling_is_500 llama_world null_temperature_request).
  left. reflexivity.
Defined.

Lemma nlp_load_final_state_witness :
  resolve_paths unloaded_world
  = (inr ("/models/gemma", None), (resolve_paths unloaded_world).2)
  /\ model_type (globals ((resolve_paths unloaded_world).2)) = Some "NLP"
  /\ loaded_llama (nlp_args (globals ((resolve_paths unloaded_world).2)) "/models/gemma")
     = inr echo_llama
  /\ model (globals ((load_model unloaded_world).2)) = Some (HLlama echo_llama)
  /\ chat_format (globals ((load_model unloaded_world).2)) = None.
Proof.
  do 3 (split; [reflexivity|]).
  refine ((fun H => conj (proj1 (proj2 H)) (proj1 (proj2 (proj2 H))))
            (nlp_load_final_state unloaded_world ((resolve_paths unloaded_world).2)
               ("/models/gemma", None) echo_llama _ _ _));
    reflexivity.
Defined.

Lemma gpu_load_only_when_available_witness :
  trace ((load_model unloaded_world).2)
  = trace unloaded_world
    ++ [EvPullModel "gemma" false; EvLlamaInit gpu_args;
        fallback_notice (Exc RuntimeError "no CUDA device");
        EvLlamaInit cpu_args; EvLog INFO "model loaded as Llama"]
  /\ ((la_n_gpu_layers gpu_args = -1 /\ is_gpu_available = true)
      \/ la_n_gpu_layers gpu_args = 0).
Proof.
  split; [reflexivity|].
  apply (gpu_load_only_when_available unloaded_world
           [EvPullModel "gemma" false; EvLlamaInit gpu_args;
            fallback_notice (Exc RuntimeError "no CUDA device");
            EvLlamaInit cpu_args; EvLog INFO "model loaded as Llama"] gpu_args).
  - reflexivity.
  - right. left. reflexivity.
Defined.

Lemma local_multimodal_needs_projector_witness :
  model_type (globals local_multimodal_world) = Some "Multimodal"
  /\ is_local_path (globals local_multimodal_world) = true
  /\ projector_path (globals local_multimodal_world) = ""
  /\ load_model local_multimodal_world
     = (inl (Exc ValueError
               "Projector path must be provided when using local path for Multimodal models"),
        local_multimodal_world).
Proof.
  repeat (split; [reflexivity|]).
  apply (local_multimodal_needs_projector local_multimodal_world); reflexivity.
Defined.

Lemma unknown_model_type_is_refused_witness :
  resolve_paths local_text_world = (inr ("/models/m.gguf", None), local_text_world)
  /\ known_model_type (model_type (globals local_text_world)) = false
  /\ load_model local_text_world
     = (inl (Exc ValueError "Model /models/m.gguf not found in Model Hub"),
        local_text_world).
Proof.
  repeat (split; [reflexivity|]).
  refine (proj1 (unknown_model_type_is_refused local_text_world local_text_world
                   ("/models/m.gguf", None) _ _));
    reflexivity.
Defined.

Lemma startup_reads_back_what_was_published_witness :
  run_nexa_ai_service (Some "gemma") false None false default_kwargs example_process
  = (inr (mkUvicornRun "0.0.0.0" 8000 false),
     (run_nexa_ai_service (Some "gemma") false None false default_kwargs
                          example_process).2)
  /\ model_type (startup_globals
                   ((run_nexa_ai_service (Some "gemma") false None false default_kwargs
                                         example_process).2))
     = Some "".
Proof.
  split; [reflexivity|].
  refine (proj1 (proj2 (proj2 (proj2
            (startup_reads_back_what_was_published (Some "gemma") false None false
               default_kwargs example_process
               ((run_nexa_ai_service (Some "gemma") false None false default_kwargs
                                     example_process).2)
               (mkUvicornRun "0.0.0.0" 8000 false) _))))).
  reflexivity.
Defined.

Lemma huggingface_needs_model_type_witness :
  "org/model" <> ""
  /\ pull_model "org/model" true = inr ("/models/org/model", Some "NLP")
  /\ (launch (Some "org/model") false None true default_kwargs example_process).1
     = inl (Exc ValueError "Model org/model not found in Model Hub").
Proof.
  split; [discriminate|]. split; [reflexivity|].
  refine (proj1 (huggingface_needs_model_type "org/model" None default_kwargs
                   example_process "/models/org/model" (Some "NLP") _ _ _));
    [discriminate|reflexivity|reflexivity].
Defined.

Lemma blank_image_path_means_text_to_image_witness :
  blank (ig_image_path (image_request (Some "  "))) = true
  /\ image_calls (img_trace ((img2img (image_request (Some "  ")) (image_world ∅)).2))
     = image_calls (img_trace (image_world ∅))
       ++ [IvTxtToImg (image_params (image_request (Some "  ")))].
Proof.
  split; [reflexivity|].
  refine (proj2 (blank_image_path_means_text_to_image (image_request (Some "  "))
                   (image_world ∅) example_sd _ _));
    reflexivity.
Defined.

Lemma image_path_means_image_to_image_witness :
  blank (ig_image_path (image_request (Some " /data/cat.png "))) = false
  /\ cat_disk !! strip " /data/cat.png " = Some (File "cat")
  /\ image_calls (img_trace ((txt2img (image_request (Some " /data/cat.png "))
                                      (image_world cat_disk)).2))
     = image_calls (img_trace (image_world cat_disk))
       ++ [IvImgToImg "cat" (image_params (image_request (Some " /data/cat.png ")))].
Proof.
  split; [reflexivity|]. split; [reflexivity|].
  refine (proj1 (image_path_means_image_to_image (image_request (Some " /data/cat.png "))
                   (image_world cat_disk) example_sd "cat" "cat" _ _ _ _));
    reflexivity.
Defined.

Lemma missing_image_file_is_500_witness :
  blank (ig_image_path (image_request (Some "/data/dog.png"))) = false
  /\ cat_disk !! strip "/data/dog.png" = None
  /\ (txt2img (image_request (Some "/data/dog.png")) (image_world cat_disk)).1
     = inl (HTTPException 500 "Image file not found: /data/dog.png").
Proof.
  split; [reflexivity|]. split; [reflexivity|].
  refine (f_equal fst (proj1 (missing_image_file_is_500
                                (image_request (Some "/data/dog.png"))
                                (image_world cat_disk) (HStableDiffusion example_sd)
                                _ _ _)));
    reflexivity.
Defined.

Lemma image_response_lists_every_image_witness :
  txt_to_img example_sd (image_params (image_request (Some ""))) = inr ["sunrise"; "sunset"]
  /\ output_dir_usable (disk (image_world ∅))
  /\ (txt2img (image_request (Some "")) (image_world ∅)).1
     = inr (mkImageGenerationResponse 1700000000%Q
              [mkImageResponse "b64:PNG sunrise"
                               "/srv/nexa_server_output/txt2img_1700000001.png";
               mkImageResponse "b64:PNG sunset"
                               "/srv/nexa_server_output/txt2img_1700000002.png"]).
Proof.
  assert (Hok : output_dir_usable (disk (image_world ∅))).
  { split; [left; reflexivity|]. intros name. simpl. rewrite lookup_empty. discriminate. }
  split; [reflexivity|]. split; [exact Hok|].
  refine (proj1 (image_response_lists_every_image (image_request (Some ""))
                   (image_world ∅) example_sd ["sunrise"; "sunset"] _ _ _ Hok));
    reflexivity.
Defined.

Lemma staging_failure_ends_in_unbound_local_witness :
  stage_upload broken_upload whisper_world
  = (inl connection_reset, (stage_upload broken_upload whisper_world).2)
  /\ (post_audio_transcriptions (Some broken_upload) (Some 5) None (Some 0%Q)
                                whisper_world).1
     = inl (Exc UnboundLocalError (unbound_local "temp_audio_path"))
  /\ "/tmp/tmp0.wav"
     ∈ fs ((post_audio_transcriptions (Some broken_upload) (Some 5) None (Some 0%Q)
                                       whisper_world).2).
Proof.
  split; [reflexivity|].
  pose proof (staging_failure_ends_in_unbound_local whisper_world
                ((stage_upload broken_upload whisper_world).2) broken_upload
                (Some 5) None (Some 0%Q) connection_reset eq_refl) as H.
  split.
  - exact (f_equal fst (proj1 H)).
  - rewrite (proj1 H). simpl. apply elem_of_union. left. now apply elem_of_singleton.
Defined.

Lemma transcription_is_the_joined_segments_witness :
  model (globals whisper_world) = Some (HWhisperModel silent_whisper)
  /\ (post_audio_transcriptions (Some example_upload) (Some 5) (Some "en") (Some 0%Q)
                                whisper_world).1
     = inr (Transcription "Hello world").
Proof.
  split; [reflexivity|].
  refine (f_equal fst (proj1 (transcription_is_the_joined_segments whisper_world
                                example_upload (Some 5) (Some "en") (Some 0%Q)
                                "/tmp/tmp0.wav" "RIFF" silent_whisper
                                ["Hello"; " world"] ["Hello"; " world"] _ _ _ _ _ _)));
    reflexivity.
Defined.

Lemma import_needs_every_symbol_witness :
  dom (cached old_library) ⊆ exports old_library
  /\ first_missing (exports old_library) declarations
     = Some (mkDeclaration "clip_free" [clip_ctx_p_ctypes] None "clip_free")
  /\ (import_llava_cpp old_library).1
     = inl (Exc AttributeError "undefined symbol: clip_free").
Proof.
  assert (Hdom : dom (cached old_library) ⊆ exports old_library).
  { simpl. rewrite dom_empty_L. apply empty_subseteq. }
  split; [exact Hdom|]. split; [reflexivity|].
  refine (proj2 (proj2 (import_needs_every_symbol old_library Hdom)
                   (mkDeclaration "clip_free" [clip_ctx_p_ctypes] None "clip_free") _)).
  reflexivity.
Defined.

Lemma every_name_is_bound_to_its_symbol_witness :
  dom (cached full_library) ⊆ exports full_library
  /\ (import_llava_cpp full_library).1 = inr (bound_names declarations ∅)
  /\ cached ((import_llava_cpp full_library).2) !! "llava_image_embed_make_with_bytes"
     = Some (mkFuncPtr (Some [clip_ctx_p_ctypes; c_int; POINTER c_uint8; c_int])
                       (Some (POINTER llava_image_embed))
                       (Some (mkPyFunction "llava_image_embed_make_with_bytes"))).
Proof.
  assert (Hdom : dom (cached full_library) ⊆ exports full_library).
  { simpl. rewrite dom_empty_L. apply empty_subseteq. }
  split; [exact Hdom|]. split; [reflexivity|].
  refine (proj1 (proj2 (every_name_is_bound_to_its_symbol full_library
                          ((import_llava_cpp full_library).2)
                          (bound_names declarations ∅)
                          (mkDeclaration "llava_image_embed_make_with_bytes"
                             [clip_ctx_p_ctypes; c_int; POINTER c_uint8; c_int]
                             (Some (POINTER llava_image_embed))
                             "llava_image_embed_make_with_bytes")
                          Hdom _ _))).
  - reflexivity.
  - right. left. reflexivity.
Defined.

Lemma service_arguments_checked_witness :
  (true || false) && (negb (truthy_str None) || (true && negb (truthy_str None))) = true
  /\ exists e,
       (run_nexa_ai_service None true None false default_kwargs example_process).1 = inl e.
Proof.
  split; [reflexivity|].
  apply (proj2 (proj1 (service_arguments_checked None true None false default_kwargs
                         example_process))).
  reflexivity.
Defined.

End FurtherExamples.

Section BrokenMachineExamples.
#[local] Existing Instance broken_env.

Lemma nlp_load_failure_witness :
  resolve_paths unloaded_world
  = (inr ("/models/gemma", None), (resolve_paths unloaded_world).2)
  /\ Llama_init gpu_args = inl out_of_memory
  /\ Llama_init cpu_args = inl out_of_memory
  /\ (load_model unloaded_world).1 = inl out_of_memory
  /\ model (globals ((load_model unloaded_world).2)) = model (globals unloaded_world).
Proof.
  do 3 (split; [reflexivity|]).
  refine ((fun H => conj (proj1 H) (proj1 (proj2 H)))
            (nlp_load_failure unloaded_world ((resolve_paths unloaded_world).2)
               ("/models/gemma", None) out_of_memory out_of_memory _ _ _ _));
    reflexivity.
Defined.

End BrokenMachineExamples.

Section CpuOnlyExamples.
#[local] Existing Instance cpu_only_env.

Lemma cpu_only_retry_is_identical_witness :
  is_gpu_available = false
  /\ trace ((load_model unloaded_world).2)
     = trace unloaded_world
       ++ [EvPullModel "gemma" false; EvLlamaInit cpu_args; fallback_notice out_of_memory;
           EvLlamaInit cpu_args]
  /\ Llama_init cpu_args = inl out_of_memory
  /\ llama_inits [EvPullModel "gemma" false; EvLlamaInit cpu_args;
                  fallback_notice out_of_memory; EvLlamaInit cpu_args]
     = [cpu_args; cpu_args].
Proof.
  do 3 (split; [reflexivity|]).
  refine (proj1 (cpu_only_retry_is_identical unloaded_world
                   [EvPullModel "gemma" false; EvLlamaInit cpu_args;
                    fallback_notice out_of_memory; EvLlamaInit cpu_args]
                   cpu_args out_of_memory _ _ _ _)).
  - reflexivity.
  - reflexivity.
  - right. left. reflexivity.
  - reflexivity.
Defined.

End CpuOnlyExamples.

Section MultimodalHubExamples.
#[local] Existing Instance multimodal_hub_env.

Lemma hub_multimodal_is_unbound_witness :
  str_eq (model_type (globals hub_world)) "Multimodal" = false
  /\ pull_model (model_path (globals hub_world)) false
     = inr ("/models/llava", Some "Multimodal")
  /\ (load_model hub_world).1
     = inl (Exc UnboundLocalError (unbound_local "projector_downloaded_path")).
Proof.
  do 2 (split; [reflexivity|]).
  refine (proj1 (hub_multimodal_is_unbound hub_world "/models/llava" _ _ _ _));
    reflexivity.
Defined.

End MultimodalHubExamples.

Section FrozenClockExamples.
#[local] Existing Instance frozen_clock_env.
#[local] Existing Instance example_platform.

Lemma images_of_one_second_share_a_file_witness :
  txt_to_img example_sd (image_params (image_request None)) = inr (["sunrise"] ++ ["sunset"])
  /\ (forall n, int_of_float (time n) = 1700000000)
  /\ exists created data,
       (txt2img (image_request None) (image_world ∅)).1
       = inr (mkImageGenerationResponse created data)
       /\ map url data
          = replicate 2 "/srv/nexa_server_output/txt2img_1700000000.png"
       /\ map base64 data = ["b64:PNG sunrise"; "b64:PNG sunset"]
       /\ disk ((txt2img (image_request None) (image_world ∅)).2)
          !! "nexa_server_output/txt2img_1700000000.png"
          = Some (File "PNG sunset").
Proof.
  assert (Hok : output_dir_usable (disk (image_world ∅))).
  { split; [left; reflexivity|]. intros name. simpl. rewrite lookup_empty. discriminate. }
  split; [reflexivity|]. split; [intros n; reflexivity|].
  refine (images_of_one_second_share_a_file (image_request None) (image_world ∅)
            example_sd ["sunrise"] "sunset" 1700000000 _ _ _ Hok _).
  - reflexivity.
  - reflexivity.
  - reflexivity.
  - intros n. reflexivity.
Defined.

End FrozenClockExamples.

Section BracesExamples.
#[local] Existing Instance braces_env.

Lemma streaming_adapter_frames_each_unit_then_done_witness :
  (forall chunk, json_dumps chunk <> "[DONE]")
  /\ yielded (_resp_async_generator (gen_of_list [TokKey "[DONE]"])) !! 0%nat
     <> Some ("data: [DONE]" +:+ String "010"%char (String "010"%char EmptyString)).
Proof.
  assert (Hjson : forall chunk, json_dumps chunk <> "[DONE]").
  { intros chunk. discriminate. }
  split; [exact Hjson|].
  refine (proj2 (proj2 (proj2 (proj2
            (streaming_adapter_frames_each_unit_then_done [TokKey "[DONE]"])))) Hjson 0%nat _).
  simpl. lia.
Defined.

Lemma adapter_on_any_producer_witness :
  (forall chunk, json_dumps chunk <> "[DONE]")
  /\ ("data: [DONE]" +:+ String "010"%char (String "010"%char EmptyString)
      ∈ yielded (_resp_async_generator (GYield (TokKey "[DONE]") GStop))
      <-> exhausted (GYield (TokKey "[DONE]") GStop) = true).
Proof.
  assert (Hjson : forall chunk, json_dumps chunk <> "[DONE]").
  { intros chunk. discriminate. }
  split; [exact Hjson|].
  exact (proj2 (proj2 (proj2 (adapter_on_any_producer (GYield (TokKey "[DONE]") GStop))))
           Hjson).
Defined.

End BracesExamples.
